(** * DFReader: a shallow embedding of pymavlink's DataFlash log reader

    The development follows [DFReader.py]: Python values and the few
    interpreter operations the reader relies on, the format registry
    ([DFFormat]), decoded records ([DFMessage]), the clocks, the binary
    and the text readers.  Python [float] is IEEE binary64 and is
    embedded as Rocq's primitive [float]; Python [int] is [Z]; [bytes]
    is [list byte]; [str] is a [string] holding the UTF-8 encoding of the
    Python string. *)

From Stdlib Require Import ZArith Floats DecimalString.
From Stdlib Require Import Strings.Byte Strings.Ascii Strings.String.
From stdpp Require Import gmap strings list.

Set Warnings "-inexact-float".

Local Open Scope Z_scope.

(** ** Exceptions and the error monad *)

Inductive exn :=
| AttributeError | IndexError | KeyError | TypeError | ValueError
| OverflowError | ZeroDivisionError | UnicodeDecodeError | StructError
| PyException | Unmodelled | OutOfFuel.

Inductive result (A : Type) :=
| Ok (a : A)
| Raise (e : exn).
Arguments Ok {A} a.
Arguments Raise {A} e.

#[global] Instance result_ret : MRet result := @Ok.
#[global] Instance result_bind : MBind result := λ A B f m,
  match m with Ok a => f a | Raise e => Raise e end.
#[global] Instance result_fmap : FMap result := λ A B f m,
  match m with Ok a => Ok (f a) | Raise e => Raise e end.

Definition of_option {A} (e : exn) (o : option A) : result A :=
  match o with Some a => Ok a | None => Raise e end.

(** [getattr(obj, name, None)]: an [AttributeError] becomes [None], any
    other exception propagates. *)
Definition getattr_default {A} (r : result A) : result (option A) :=
  match r with
  | Ok a => Ok (Some a)
  | Raise AttributeError => Ok None
  | Raise e => Raise e
  end.

(** [hasattr(obj, name)]. *)
Definition hasattr {A} (r : result A) : result bool :=
  o ← getattr_default r; Ok (bool_decide (is_Some o)).

(** ** Python values *)

Inductive pyval :=
| PNone
| PInt (z : Z)
| PFloat (f : float)
| PStr (s : string)
| PBytes (b : list byte)
| PArray (a : list Z).

(** ** Floats *)

(** [float(z)] for an integer: correctly rounded, [OverflowError] when
    the integer is too large. *)
Definition Z2F (z : Z) : float := SF2Prim (binary_normalize prec emax z 0 false).

Definition float_of_int (z : Z) : result float :=
  let f := Z2F z in
  if PrimFloat.is_infinity f then Raise OverflowError else Ok f.

(** [int(f)]: truncation towards zero. *)
Definition py_trunc (f : float) : result Z :=
  match Prim2SF f with
  | S754_nan => Raise ValueError
  | S754_infinity _ => Raise OverflowError
  | S754_zero _ => Ok 0
  | S754_finite s m e =>
      let a := if bool_decide (0 ≤ e) then Z.pos m * 2 ^ e
               else Z.pos m `div` 2 ^ (- e) in
      Ok (if s then - a else a)
  end.

(** [round(f)] with one argument: nearest integer, ties to even. *)
Definition py_round (f : float) : result Z :=
  match Prim2SF f with
  | S754_nan => Raise ValueError
  | S754_infinity _ => Raise OverflowError
  | S754_zero _ => Ok 0
  | S754_finite s m e =>
      let a :=
        if bool_decide (0 ≤ e) then Z.pos m * 2 ^ e
        else
          let d := 2 ^ (- e) in
          let q := Z.pos m `div` d in
          let r := Z.pos m `mod` d in
          match 2 * r ?= d with
          | Lt => q
          | Gt => q + 1
          | Eq => if Z.even q then q else q + 1
          end in
      Ok (if s then - a else a)
  end.

(** Exact comparison of an integer with a float, as Python does it. *)
Definition cmp_Z_float (z : Z) (f : float) : option comparison :=
  match Prim2SF f with
  | S754_nan => None
  | S754_infinity s => Some (if s then Gt else Lt)
  | S754_zero _ => Some (z ?= 0)
  | S754_finite s m e =>
      let sm := if s then Z.neg m else Z.pos m in
      Some (if bool_decide (0 ≤ e) then z ?= sm * 2 ^ e
            else z * 2 ^ (- e) ?= sm)
  end.

(** [a / b] on floats. *)
Definition py_truediv (a b : float) : result float :=
  if PrimFloat.eqb b 0%float then Raise ZeroDivisionError
  else Ok (PrimFloat.div a b).

(** ** Arithmetic on Python values

    Only the operand types the reader can meet are given a result; the
    sequence forms of [+], [*] and [<] are left out. *)

Definition py_add (a b : pyval) : result pyval :=
  match a, b with
  | PInt x, PInt y => Ok (PInt (x + y))
  | PInt x, PFloat g => f ← float_of_int x; Ok (PFloat (PrimFloat.add f g))
  | PFloat f, PInt y => g ← float_of_int y; Ok (PFloat (PrimFloat.add f g))
  | PFloat f, PFloat g => Ok (PFloat (PrimFloat.add f g))
  | PStr _, PStr _ | PBytes _, PBytes _ | PArray _, PArray _ => Raise Unmodelled
  | _, _ => Raise TypeError
  end.

Definition py_sub (a b : pyval) : result pyval :=
  match a, b with
  | PInt x, PInt y => Ok (PInt (x - y))
  | PInt x, PFloat g => f ← float_of_int x; Ok (PFloat (PrimFloat.sub f g))
  | PFloat f, PInt y => g ← float_of_int y; Ok (PFloat (PrimFloat.sub f g))
  | PFloat f, PFloat g => Ok (PFloat (PrimFloat.sub f g))
  | _, _ => Raise TypeError
  end.

Definition py_mul (a b : pyval) : result pyval :=
  match a, b with
  | PInt x, PInt y => Ok (PInt (x * y))
  | PInt x, PFloat g => f ← float_of_int x; Ok (PFloat (PrimFloat.mul f g))
  | PFloat f, PInt y => g ← float_of_int y; Ok (PFloat (PrimFloat.mul f g))
  | PFloat f, PFloat g => Ok (PFloat (PrimFloat.mul f g))
  | PInt _, (PStr _ | PBytes _ | PArray _)
  | (PStr _ | PBytes _ | PArray _), PInt _ => Raise Unmodelled
  | _, _ => Raise TypeError
  end.

Definition py_lt (a b : pyval) : result bool :=
  match a, b with
  | PInt x, PInt y => Ok (bool_decide (x < y))
  | PFloat f, PFloat g => Ok (PrimFloat.ltb f g)
  | PInt x, PFloat g =>
      Ok (match cmp_Z_float x g with Some Lt => true | _ => false end)
  | PFloat f, PInt y =>
      Ok (match cmp_Z_float y f with Some Gt => true | _ => false end)
  | PStr _, PStr _ | PBytes _, PBytes _ | PArray _, PArray _ => Raise Unmodelled
  | _, _ => Raise TypeError
  end.

(** ** Strings

    A Python [str] is kept as the bytes of its UTF-8 encoding.  A character
    is then a maximal run made of one byte followed by continuation bytes
    ([0x80]..[0xBF]); [py_chars] cuts a string into its characters, so that
    indexing, [len] and [find] count characters as Python does. *)

#[global] Instance byte_eq_dec : EqDecision byte := Byte.byte_eq_dec.

Fixpoint drop_while {A} (p : A → bool) (l : list A) : list A :=
  match l with
  | [] => []
  | x :: l' => if p x then drop_while p l' else l
  end.

Definition bz (b : byte) : Z := Z.of_N (Byte.to_N b).
Definition az (c : ascii) : Z := Z.of_N (N_of_ascii c).

Definition is_cont (c : ascii) : bool :=
  bool_decide (128 ≤ az c) && bool_decide (az c < 192).

Fixpoint py_chars (s : string) : list string :=
  match s with
  | EmptyString => []
  | String c s' =>
      let r := py_chars s' in
      match s' with
      | String d _ =>
          if is_cont d then
            match r with
            | x :: r' => String c x :: r'
            | [] => [String c EmptyString]
            end
          else String c EmptyString :: r
      | EmptyString => [String c EmptyString]
      end
  end.

(** [s.find(sub)] for a one-character [sub]: the index of the first
    character equal to it, or [-1]. *)
Fixpoint find_char_go (i : Z) (sub : string) (cs : list string) : Z :=
  match cs with
  | [] => -1
  | c :: cs' => if String.eqb c sub then i else find_char_go (i + 1) sub cs'
  end.
Definition find_char (sub s : string) : Z := find_char_go 0 sub (py_chars s).

(** [null_term]: cut at the first NUL. *)
Fixpoint null_term (s : string) : string :=
  match s with
  | EmptyString => EmptyString
  | String c s' =>
      if Ascii.eqb c "000"%char then EmptyString else String c (null_term s')
  end.

(** [s.split(sep)] for a non-empty separator. [skip] counts the bytes of
    a separator still to be passed over, [cur] is the current piece,
    reversed. *)
Fixpoint split_go (sep : string) (skip : nat) (cur : string) (s : string)
    : list string :=
  match s with
  | EmptyString => [String.rev cur]
  | String c s' =>
      match skip with
      | S k => split_go sep k cur s'
      | O =>
          if String.prefix sep s
          then String.rev cur :: split_go sep (String.length sep - 1) EmptyString s'
          else split_go sep 0 (String c cur) s'
      end
  end.
Definition py_split (sep s : string) : list string := split_go sep 0 EmptyString s.

(** ** The format table *)

(** Codes of the [struct] module used by the reader; [S_s n] is [ns]. *)
Inductive scode :=
| S_b | S_B | S_h | S_H | S_i | S_I | S_q | S_Q | S_e | S_f | S_d
| S_s (n : nat).

(** The Python type a field is converted to on access. *)
Inductive pytype := T_str | T_int | T_float | T_array.

Definition FORMAT_TO_STRUCT (c : ascii) : option (scode * option float * pytype) :=
  match c with
  | "a" => Some (S_s 64, None, T_str)
  | "b" => Some (S_b, None, T_int)
  | "B" => Some (S_B, None, T_int)
  | "g" => Some (S_e, None, T_float)
  | "h" => Some (S_h, None, T_int)
  | "H" => Some (S_H, None, T_int)
  | "i" => Some (S_i, None, T_int)
  | "I" => Some (S_I, None, T_int)
  | "f" => Some (S_f, None, T_float)
  | "n" => Some (S_s 4, None, T_str)
  | "N" => Some (S_s 16, None, T_str)
  | "Z" => Some (S_s 64, None, T_str)
  | "c" => Some (S_h, Some 0.01%float, T_float)
  | "C" => Some (S_H, Some 0.01%float, T_float)
  | "e" => Some (S_i, Some 0.01%float, T_float)
  | "E" => Some (S_I, Some 0.01%float, T_float)
  | "L" => Some (S_i, Some 1.0e-7%float, T_float)
  | "d" => Some (S_d, None, T_float)
  | "M" => Some (S_b, None, T_int)
  | "q" => Some (S_q, None, T_int)
  | "Q" => Some (S_Q, None, T_int)
  | _ => None
  end%char.

(** [MULT_TO_PREFIX]: the keys are compared with [==], so [0.0], [-0.0]
    and the integer [0] are one key, and a NaN matches none. *)
Definition MULT_TO_PREFIX : list (float * string) :=
  [ (0%float, ""); (1%float, "");
    (1.0e-1%float, "d"); (1.0e-2%float, "c"); (1.0e-3%float, "m");
    (1.0e-6%float, "µ"); (1.0e-9%float, "n") ].

Fixpoint float_assoc {A} (k : float) (l : list (float * A)) : option A :=
  match l with
  | [] => None
  | (k', v) :: l' => if PrimFloat.eqb k k' then Some v else float_assoc k l'
  end.

(** Size of a packed field, and [struct.calcsize] of a little-endian
    layout (no padding). *)
Definition scode_size (c : scode) : Z :=
  match c with
  | S_b | S_B => 1
  | S_h | S_H | S_e => 2
  | S_i | S_I | S_f => 4
  | S_q | S_Q | S_d => 8
  | S_s n => Z.of_nat n
  end.

Definition calcsize (l : list scode) : Z := foldr (λ c n, scode_size c + n) 0 l.

(** [struct.calcsize] in native mode (a layout string without [<]): every
    field is aligned on its size; the sizes are those of an LP64 platform. *)
Definition scode_align (c : scode) : Z :=
  match c with S_s _ => 1 | _ => scode_size c end.

Definition calcsize_native (l : list scode) : Z :=
  foldl (λ ofs c,
          let a := scode_align c in
          (ofs + a - 1) `div` a * a + scode_size c) 0 l.

(** [struct.calcsize(c)] for a format character read as a native [struct]
    code: several of the reader's characters are not [struct] codes, and
    [n], [N] and [L] are the platform's [ssize_t], [size_t] and
    [unsigned long]. *)
Definition calcsize_native_char (c : ascii) : result Z :=
  match c with
  | "b" | "B" | "c" => Ok 1
  | "h" | "H" | "e" => Ok 2
  | "i" | "I" | "f" => Ok 4
  | "n" | "N" | "L" | "d" | "q" | "Q" => Ok 8
  | _ => Raise StructError
  end%char.

(** ** What the reader takes from outside

    Built-in conversions of the interpreter whose results are not spelled
    out here, and the [mavutil] collaborator. *)

Class Externals := {
  int_of_str : string → result Z;          (* int(s) *)
  float_of_str : string → result float;    (* float(s) *)
  str_of_float : float → string;           (* str(f) *)
  format_4g : float → string;              (* "%.4g" % f *)
  format_7g : float → string;              (* "%.7g" % f *)
  str_upper : string → string;             (* s.upper() *)
  MAV_TYPE_FIXED_WING : Z;
  MAV_TYPE_QUADROTOR : Z;
  MAV_TYPE_HELICOPTER : Z;
  MAV_TYPE_ANTENNA_TRACKER : Z;
  MAV_TYPE_AIRSHIP : Z;
  MAV_TYPE_GROUND_ROVER : Z;
  MAV_TYPE_SUBMARINE : Z;
  mode_mapping_bynumber : Z → option (gmap Z string);
  mode_string_acm : pyval → result string;
  mode_string_px4 : pyval → result string;
}.

(** [str(z)]. *)
Definition str_of_int (z : Z) : string := NilZero.string_of_int (Z.to_int z).

(** ** DFFormat *)

Module DFFormat.

Record t := mk {
  type : Z;
  name : string;
  len : Z;
  format : string;
  columns : list string;
  instance_field : option string;
  units : option (list string);
  msg_struct : list scode;
  msg_types : list pytype;
  msg_mults : list (option float);
  msg_fmts : list ascii;
  colhash : gmap string nat;
  a_indexes : list nat;
  instance_ofs : option Z;
  instance_len : option Z;
}.

Definition with_units (self : t) (u : option (list string)) : t :=
  mk (type self) (name self) (len self) (format self) (columns self)
     (instance_field self) u (msg_struct self) (msg_types self)
     (msg_mults self) (msg_fmts self) (colhash self) (a_indexes self)
     (instance_ofs self) (instance_len self).

Definition with_instance (self : t) (f : string) (ofs len' : Z) : t :=
  mk (type self) (name self) (len self) (format self) (columns self)
     (Some f) (units self) (msg_struct self) (msg_types self)
     (msg_mults self) (msg_fmts self) (colhash self) (a_indexes self)
     (Some ofs) (Some len').

Definition with_type (self : t) (ty : Z) : t :=
  mk ty (name self) (len self) (format self) (columns self)
     (instance_field self) (units self) (msg_struct self) (msg_types self)
     (msg_mults self) (msg_fmts self) (colhash self) (a_indexes self)
     (instance_ofs self) (instance_len self).

(** [set_instance_field]: the offset is computed from a layout string
    without [<], hence with native alignment, and the length from the
    format character itself. *)
Definition set_instance_field (self : t) (instance_idx : nat) : result t :=
  fld ← of_option IndexError (columns self !! instance_idx);
  let pre_fmt := take instance_idx (list_ascii_of_string (format self)) in
  pre ← mapM (λ c, of_option KeyError (FORMAT_TO_STRUCT c)) pre_fmt;
  let ofs := calcsize_native (fst ∘ fst <$> pre) in
  ifmt ← of_option IndexError (list_ascii_of_string (format self) !! instance_idx);
  ilen ← calcsize_native_char ifmt;
  Ok (with_instance self fld ofs ilen).

Definition init (type : Z) (name : string) (flen : Z) (format columns : string)
    (oldfmt : option t) : result t :=
  let cols := py_split "," columns in
  let cols := if decide (cols = [EmptyString]) then [] else cols in
  let fmts := list_ascii_of_string format in
  tbl ← mapM (λ c, of_option PyException (FORMAT_TO_STRUCT c)) fmts;
  let colhash := foldl (λ h ic, <[ic.2 := ic.1]> h) ∅ (imap pair cols) in
  let a_indexes :=
    omap (λ ic, if Ascii.eqb ic.2 "a" then Some ic.1 else None) (imap pair fmts) in
  let self :=
    mk type (null_term name) flen format cols None None
       (fst ∘ fst <$> tbl)
       ((λ ic, if Ascii.eqb ic.1 "a" then T_array else ic.2.2) <$> zip fmts tbl)
       (snd ∘ fst <$> tbl) fmts colhash a_indexes None None in
  match oldfmt with
  | None => Ok self
  | Some old =>
      let self := with_units self (units old) in
      match instance_field old with
      | None => Ok self
      | Some f =>
          idx ← of_option KeyError (colhash !! f);
          set_instance_field self idx
      end
  end.

Definition set_unit_ids (self : t) (unit_ids : pyval)
    (unit_lookup : gmap string string) : result t :=
  match unit_ids with
  | PNone => Ok self
  | PStr ids =>
      let instance_idx := find_char "#" ids in
      self ← (if decide (instance_idx ≠ -1)
               then set_instance_field self (Z.to_nat instance_idx)
               else Ok self);
      let cs := py_chars ids in
      let units :=
        imap (λ i _, match cs !! i with
                     | Some c => default EmptyString (unit_lookup !! c)
                     | None => EmptyString
                     end) (columns self) in
      Ok (with_units self (Some units))
  | PBytes _ => Raise TypeError
  | _ => Raise AttributeError
  end.

(** [mult_ids[i] in mult_lookup]: the key looked up, if any. *)
Definition mult_key (mult_ids : pyval) (i : nat) : result (option string) :=
  match mult_ids with
  | PStr ids => Some <$> of_option IndexError (py_chars ids !! i)
  | PBytes b => (λ _, None) <$> of_option IndexError (b !! i)
  | _ => Raise TypeError
  end.

Definition set_mult_ids `{Externals} (self : t) (mult_ids : pyval)
    (mult_lookup : gmap string float) : result t :=
  units0 ← of_option TypeError (units self);
  units' ← foldl (λ acc i,
      units ← acc;
      mul ← of_option IndexError (msg_mults self !! i);
      u ← of_option IndexError (units !! i);
      if bool_decide (is_Some mul) || String.eqb u EmptyString then Ok units
      else
        k ← mult_key mult_ids i;
        match k ≫= (mult_lookup !!.) with
        | None => Ok units
        | Some unitmult =>
            match float_assoc unitmult MULT_TO_PREFIX with
            | Some prefix => Ok (<[i := prefix +:+ u]> units)
            | None => Ok (<[i := format_4g unitmult +:+ " " +:+ u]> units)
            end
        end)
    (Ok units0) (seq 0 (length units0));
  Ok (with_units self (Some units')).

Definition get_unit (self : t) (col : string) : result string :=
  match units self with
  | None => Ok EmptyString
  | Some us =>
      idx ← of_option KeyError (colhash self !! col);
      of_option IndexError (us !! idx)
  end.

End DFFormat.

(** ** Text codecs *)

Definition zb (z : Z) : byte := default x00 (Byte.of_N (Z.to_N z)).

Definition cont (b : byte) : bool := bool_decide (128 ≤ bz b) && bool_decide (bz b < 192).
Definition between (lo hi : Z) (b : byte) : bool :=
  bool_decide (lo ≤ bz b) && bool_decide (bz b ≤ hi).

(** [utf8_valid b]: [b.decode("utf-8")] succeeds (well-formed sequences
    only: no overlong forms, no surrogates, nothing above U+10FFFF). *)
Fixpoint utf8_valid (bs : list byte) : bool :=
  match bs with
  | [] => true
  | b0 :: r0 =>
      if bool_decide (bz b0 < 128) then utf8_valid r0 else
      match r0 with
      | [] => false
      | b1 :: r1 =>
          if between 194 223 b0 then cont b1 && utf8_valid r1 else
          match r1 with
          | [] => false
          | b2 :: r2 =>
              if between 224 239 b0 then
                (if bool_decide (bz b0 = 224) then between 160 191 b1
                 else if bool_decide (bz b0 = 237) then between 128 159 b1
                 else cont b1) && cont b2 && utf8_valid r2
              else
              match r2 with
              | [] => false
              | b3 :: r3 =>
                  between 240 244 b0 &&
                  (if bool_decide (bz b0 = 240) then between 144 191 b1
                   else if bool_decide (bz b0 = 244) then between 128 143 b1
                   else cont b1) && cont b2 && cont b3 && utf8_valid r3
              end
          end
      end
  end.

(** [b.decode("ISO-8859-1")], as the UTF-8 bytes of the result. *)
Definition latin1_char (b : byte) : list byte :=
  if bool_decide (bz b < 128) then [b]
  else [zb (192 + bz b `div` 64); zb (128 + bz b `mod` 64)].

Definition latin1_decode (bs : list byte) : string :=
  string_of_list_byte (bs ≫= latin1_char).

(** The decoding of [bytes] elements on access: UTF-8, then ISO-8859-1. *)
Definition decode_bytes (bs : list byte) : string :=
  if utf8_valid bs then string_of_list_byte bs else latin1_decode bs.

(** ** DFMessage *)

(** The conversion [msg_types[i](v)]. *)
Definition type_conv `{Externals} (ty : pytype) (v : pyval) : result pyval :=
  match ty, v with
  | T_str, PStr s => Ok (PStr s)
  | T_str, PInt z => Ok (PStr (str_of_int z))
  | T_str, PFloat f => Ok (PStr (str_of_float f))
  | T_str, PNone => Ok (PStr "None")
  | T_str, (PBytes _ | PArray _) => Raise Unmodelled
  | T_int, PInt z => Ok (PInt z)
  | T_int, PFloat f => PInt <$> py_trunc f
  | T_int, PStr s => PInt <$> int_of_str s
  | T_int, PBytes _ => Raise Unmodelled
  | T_int, (PNone | PArray _) => Raise TypeError
  | T_float, PInt z => PFloat <$> float_of_int z
  | T_float, PFloat f => Ok (PFloat f)
  | T_float, PStr s => PFloat <$> float_of_str s
  | T_float, PBytes _ => Raise Unmodelled
  | T_float, (PNone | PArray _) => Raise TypeError
  | T_array, _ => Raise TypeError
  end.

(** [v / d] and [v * d] for a float [d]. *)
Definition py_div_float (v : pyval) (d : float) : result pyval :=
  match v with
  | PInt z => f ← float_of_int z; PFloat <$> py_truediv f d
  | PFloat f => PFloat <$> py_truediv f d
  | _ => Raise TypeError
  end.

Module DFMessage.

(** A decoded record.  It carries the format as it was when the record
    was decoded; the back reference to the reader is not kept. *)
Record t := mk {
  fmt : DFFormat.t;
  _elements : list pyval;
  _apply_multiplier : bool;
  _timestamp : option pyval;
}.

Definition _fieldnames (self : t) : list string := DFFormat.columns (fmt self).

Definition get_type (self : t) : string := DFFormat.name (fmt self).

Definition with_timestamp (self : t) (ts : pyval) : t :=
  mk (fmt self) (_elements self) (_apply_multiplier self) (Some ts).

Definition __getattr__ `{Externals} (self : t) (field : string) : result pyval :=
  i ← of_option AttributeError (DFFormat.colhash (fmt self) !! field);
  c ← of_option IndexError (DFFormat.msg_fmts (fmt self) !! i);
  e ← of_option IndexError (_elements self !! i);
  if Ascii.eqb c "Z" && String.eqb (DFFormat.name (fmt self)) "FILE" then Ok e
  else
    let v := match e with PBytes b => PStr (decode_bytes b) | _ => e end in
    ty ← of_option IndexError (DFFormat.msg_types (fmt self) !! i);
    v ← (if Ascii.eqb c "a" then Ok v
         else if negb (Ascii.eqb c "M") || _apply_multiplier self
              then type_conv ty v
              else Ok v);
    v ← (match ty, v with
         | T_str, PStr s => Ok (PStr (null_term s))
         | T_str, _ => Raise AttributeError
         | _, _ => Ok v
         end);
    mul ← of_option IndexError (DFFormat.msg_mults (fmt self) !! i);
    match mul with
    | Some mu =>
        if _apply_multiplier self then
          if PrimFloat.ltb 0 mu && PrimFloat.ltb mu 1
          then py_div_float v (PrimFloat.div 1 mu)
          else py_mul v (PFloat mu)
        else Ok v
    | None => Ok v
    end.

Definition get_fieldnames (self : t) : list string := _fieldnames self.

(** [field[0].isupper()]: spelled out for a first character in ASCII. *)
Definition first_isupper (field : string) : result bool :=
  match field with
  | EmptyString => Raise IndexError
  | String c _ =>
      if bool_decide (az c < 128)
      then Ok (bool_decide (65 ≤ az c) && bool_decide (az c ≤ 90))
      else Raise Unmodelled
  end.

(** [__setattr__].  A name that starts with an upper-case letter and is a
    column stores into [_elements], after division by the multiplier of the
    column when multipliers are applied; any other name is an attribute of
    the object, of which [_timestamp] is the one kept here. *)
Definition __setattr__ (self : t) (field : string) (value : pyval) : result t :=
  up ← first_isupper field;
  match (if up : bool then DFFormat.colhash (fmt self) !! field else None) with
  | None =>
      if String.eqb field "_timestamp" then Ok (with_timestamp self value)
      else Raise Unmodelled
  | Some i =>
      mul ← of_option IndexError (DFFormat.msg_mults (fmt self) !! i);
      value ← match mul with
              | Some mu =>
                  if _apply_multiplier self then py_div_float value mu
                  else Ok value
              | None => Ok value
              end;
      if bool_decide (i < length (_elements self))%nat
      then Ok (mk (fmt self) (<[i := value]> (_elements self))
                 (_apply_multiplier self) (_timestamp self))
      else Raise IndexError
  end.

End DFMessage.

(** ** Clocks *)

Module DFReaderClock.

(** [epoch = 86400*(10*365 + int((1980-1969)/4) + 1 + 6 - 2)]. *)
Definition epoch : result Z :=
  q ← py_trunc (PrimFloat.div (Z2F (1980 - 1969)) (Z2F 4));
  Ok (86400 * (10 * 365 + q + 1 + 6 - 2)).

(** [epoch + 86400*7*week + msec*0.001 - 18]. *)
Definition _gpsTimeToTime (week msec : pyval) : result pyval :=
  e ← epoch;
  a ← py_mul (PInt (86400 * 7)) week;
  b ← py_add (PInt e) a;
  c ← py_mul msec (PFloat 0.001);
  d ← py_add b c;
  py_sub d (PInt 18).

End DFReaderClock.

Module DFReaderClock_usec.

Record t := mk {
  timebase : pyval;
  timestamp : pyval;
  first_us_stamp : option pyval;
}.

Definition init : t := mk (PInt 0) (PInt 0) None.

Definition find_time_base `{Externals} (self : t) (gps : DFMessage.t)
    (first_us_stamp : option pyval) : result t :=
  GWk ← DFMessage.__getattr__ gps "GWk";
  GMS ← DFMessage.__getattr__ gps "GMS";
  t ← DFReaderClock._gpsTimeToTime GWk GMS;
  TimeUS ← DFMessage.__getattr__ gps "TimeUS";
  us ← py_mul TimeUS (PFloat 0.000001);
  base ← py_sub t us;
  Ok (mk base (timestamp self) first_us_stamp).

Definition rewind_event (self : t) : result t :=
  match first_us_stamp self with
  | None => Ok (mk (timebase self) (timebase self) (first_us_stamp self))
  | Some us =>
      d ← py_mul us (PFloat 0.000001);
      ts ← py_add (timebase self) d;
      Ok (mk (timebase self) ts (first_us_stamp self))
  end.

Definition type_has_good_TimeMS (type : string) : bool :=
  if String.prefix "ACC" type then false
  else if String.prefix "GYR" type then false
  else true.

Definition should_use_msec_field0 `{Externals} (self : t) (m : DFMessage.t)
    : result bool :=
  if negb (type_has_good_TimeMS (DFMessage.get_type m)) then Ok false
  else
    f0 ← of_option IndexError (DFMessage._fieldnames m !! 0%nat);
    if negb (String.eqb "TimeMS" f0) then Ok false
    else
      TimeMS ← DFMessage.__getattr__ m "TimeMS";
      ms ← py_mul TimeMS (PFloat 0.001);
      t ← py_add (timebase self) ms;
      lt ← py_lt t (timestamp self);
      Ok (negb lt).

Definition set_message_timestamp `{Externals} (self : t) (m : DFMessage.t)
    : result (t * DFMessage.t) :=
  f0 ← of_option IndexError (DFMessage._fieldnames m !! 0%nat);
  stamp ←
    (if String.eqb "TimeUS" f0 then
       TimeUS ← DFMessage.__getattr__ m "TimeUS";
       us ← py_mul TimeUS (PFloat 0.000001);
       py_add (timebase self) us
     else
       use ← should_use_msec_field0 self m;
       if use : bool then
         TimeMS ← DFMessage.__getattr__ m "TimeMS";
         ms ← py_mul TimeMS (PFloat 0.001);
         py_add (timebase self) ms
       else Ok (timestamp self));
  Ok (mk (timebase self) stamp (first_us_stamp self),
      DFMessage.with_timestamp m stamp).

End DFReaderClock_usec.

(** [a / b] on numbers.  The quotient of two integers is correctly
    rounded by Python; it is given here when both convert exactly. *)
Definition py_truediv_val (a b : pyval) : result pyval :=
  match a, b with
  | PInt x, PInt y =>
      if bool_decide (y = 0) then Raise ZeroDivisionError
      else if bool_decide (Z.abs x ≤ 2 ^ 53) && bool_decide (Z.abs y ≤ 2 ^ 53)
           then Ok (PFloat (PrimFloat.div (Z2F x) (Z2F y)))
           else Raise Unmodelled
  | PInt x, PFloat g => f ← float_of_int x; PFloat <$> py_truediv f g
  | PFloat f, PInt y => g ← float_of_int y; PFloat <$> py_truediv f g
  | PFloat f, PFloat g => PFloat <$> py_truediv f g
  | _, _ => Raise TypeError
  end.

(** [a <= b] and [a > b], from [<]. *)
Definition py_gt (a b : pyval) : result bool := py_lt b a.
Definition py_le (a b : pyval) : result bool :=
  match a, b with
  | PInt x, PInt y => Ok (bool_decide (x ≤ y))
  | PFloat f, PFloat g => Ok (PrimFloat.leb f g)
  | PInt x, PFloat g =>
      Ok (match cmp_Z_float x g with Some (Lt | Eq) => true | _ => false end)
  | PFloat f, PInt y =>
      Ok (match cmp_Z_float y f with Some (Gt | Eq) => true | _ => false end)
  | PStr _, PStr _ | PBytes _, PBytes _ | PArray _, PArray _ => Raise Unmodelled
  | _, _ => Raise TypeError
  end.

Module DFReaderClock_msec.

Record t := mk {
  timebase : pyval;
  timestamp : pyval;
  first_ms_stamp : option pyval;
}.

Definition init : t := mk (PInt 0) (PInt 0) None.

Definition find_time_base `{Externals} (self : t) (gps : DFMessage.t)
    (first_ms_stamp : option pyval) : result t :=
  Week ← DFMessage.__getattr__ gps "Week";
  TimeMS ← DFMessage.__getattr__ gps "TimeMS";
  t ← DFReaderClock._gpsTimeToTime Week TimeMS;
  T ← DFMessage.__getattr__ gps "T";
  ms ← py_mul T (PFloat 0.001);
  base ← py_sub t ms;
  Ok (mk base (timestamp self) first_ms_stamp).

Definition rewind_event (self : t) : result t :=
  match first_ms_stamp self with
  | None => Ok (mk (timebase self) (timebase self) (first_ms_stamp self))
  | Some ms =>
      d ← py_mul ms (PFloat 0.001);
      ts ← py_add (timebase self) d;
      Ok (mk (timebase self) ts (first_ms_stamp self))
  end.

Definition set_message_timestamp `{Externals} (self : t) (m : DFMessage.t)
    : result (t * DFMessage.t) :=
  f0 ← of_option IndexError (DFMessage._fieldnames m !! 0%nat);
  stamp ←
    (if String.eqb "TimeMS" f0 then
       TimeMS ← DFMessage.__getattr__ m "TimeMS";
       ms ← py_mul TimeMS (PFloat 0.001);
       py_add (timebase self) ms
     else if bool_decide (DFMessage.get_type m ∈ ["GPS"; "GPS2"]) then
       T ← DFMessage.__getattr__ m "T";
       ms ← py_mul T (PFloat 0.001);
       py_add (timebase self) ms
     else Ok (timestamp self));
  Ok (mk (timebase self) stamp (first_ms_stamp self),
      DFMessage.with_timestamp m stamp).

End DFReaderClock_msec.

Module DFReaderClock_px4.

Record t := mk {
  timebase : pyval;
  timestamp : pyval;
  px4_timebase : pyval;
}.

Definition init : t := mk (PInt 0) (PInt 0) (PInt 0).

Definition find_time_base `{Externals} (self : t) (gps : DFMessage.t) : result t :=
  GPSTime ← DFMessage.__getattr__ gps "GPSTime";
  t ← py_mul GPSTime (PFloat 1.0e-6);
  base ← py_sub t (px4_timebase self);
  Ok (mk base (timestamp self) (px4_timebase self)).

Definition set_px4_timebase `{Externals} (self : t) (time_msg : DFMessage.t)
    : result t :=
  StartTime ← DFMessage.__getattr__ time_msg "StartTime";
  b ← py_mul StartTime (PFloat 1.0e-6);
  Ok (mk (timebase self) (timestamp self) b).

Definition set_message_timestamp (self : t) (m : DFMessage.t)
    : result (t * DFMessage.t) :=
  stamp ← py_add (timebase self) (px4_timebase self);
  Ok (self, DFMessage.with_timestamp m stamp).

Definition message_arrived `{Externals} (self : t) (m : DFMessage.t) : result t :=
  if String.eqb (DFMessage.get_type m) "TIME"
     && bool_decide ("StartTime" ∈ DFMessage._fieldnames m)
  then set_px4_timebase self m
  else Ok self.

End DFReaderClock_px4.

Module DFReaderClock_gps_interpolated.

Record t := mk {
  timebase : pyval;
  timestamp : pyval;
  msg_rate : gmap string pyval;
  counts : gmap string Z;
  counts_since_gps : gmap string Z;
}.

Definition init : t := mk (PInt 0) (PInt 0) ∅ ∅ ∅.

Definition rewind_event (self : t) : t :=
  mk (timebase self) (timestamp self) (msg_rate self) ∅ ∅.

Definition bump (type : string) (c : gmap string Z) : gmap string Z :=
  <[type := default 0 (c !! type) + 1]> c.

(** [gps_message_arrived]; [None] stands for an early [return]. *)
Definition gps_message_arrived `{Externals} (self : t) (m : DFMessage.t)
    : result t :=
  let attr f := getattr_default (DFMessage.__getattr__ m f) in
  Week ← attr "Week";
  TimeMS ← attr "TimeMS";
  r ← match Week with
      | Some w => Ok (Some (Some w, TimeMS))
      | None =>
          GWk ← attr "GWk";
          GMS ← attr "GMS";
          match GWk with
          | Some w => Ok (Some (Some w, GMS))
          | None =>
              GPSTime ← attr "GPSTime";
              if bool_decide (is_Some GPSTime) then Ok None
              else Ok (Some (None, GMS))
          end
      end;
  match r with
  | None => Ok self
  | Some (week, timems) =>
      r' ← match week with
           | Some _ => Ok (week, timems)
           | None =>
               Wk ← attr "Wk";
               match Wk with
               | Some w => TWk ← DFMessage.__getattr__ m "TWk"; Ok (Some w, Some TWk)
               | None => Ok (week, timems)
               end
           end;
      t ← DFReaderClock._gpsTimeToTime (default PNone r'.1) (default PNone r'.2);
      deltat ← py_sub t (timebase self);
      stale ← py_le deltat (PInt 0);
      if stale : bool then Ok self
      else
        rates ← foldr (λ tc acc,
                   rates ← acc;
                   rate ← py_truediv_val (PInt tc.2) deltat;
                   higher ← py_gt rate (default (PInt 0) (rates !! tc.1));
                   Ok (if higher : bool then <[tc.1 := rate]> rates else rates))
                 (Ok (msg_rate self)) (map_to_list (counts_since_gps self));
        Ok (mk t (timestamp self) (<["IMU" := PFloat 50.0]> rates) (counts self) ∅)
  end.

(** [message_arrived]: the counters are bumped before the GPS handling,
    and stay bumped when that raises. *)
Definition message_arrived `{Externals} (self : t) (m : DFMessage.t)
    : t * result unit :=
  let type := DFMessage.get_type m in
  let self := mk (timebase self) (timestamp self) (msg_rate self)
                 (bump type (counts self)) (bump type (counts_since_gps self)) in
  if String.eqb type "GPS" || String.eqb type "GPS2" then
    match gps_message_arrived self m with
    | Ok self' => (self', Ok ())
    | Raise e => (self, Raise e)
    end
  else (self, Ok ()).

Definition set_message_timestamp (self : t) (m : DFMessage.t)
    : result (t * DFMessage.t) :=
  let name := DFFormat.name (DFMessage.fmt m) in
  let rate := default (PFloat 50.0) (msg_rate self !! name) in
  z ← match rate with
      | PFloat f => py_trunc f
      | PInt z => Ok z
      | _ => Raise TypeError
      end;
  let rate := if bool_decide (z = 0) then PInt 50 else rate in
  let count := default 0 (counts_since_gps self !! name) in
  d ← py_truediv_val (PInt count) rate;
  stamp ← py_add (timebase self) d;
  Ok (self, DFMessage.with_timestamp m stamp).

End DFReaderClock_gps_interpolated.

(** The reader's [clock] attribute holds an object of one of the clock
    classes; the methods a class does not define are those of
    [DFReaderClock], which do nothing. *)
Inductive clock_t :=
| Clock_usec (c : DFReaderClock_usec.t)
| Clock_msec (c : DFReaderClock_msec.t)
| Clock_px4 (c : DFReaderClock_px4.t)
| Clock_gps_interpolated (c : DFReaderClock_gps_interpolated.t).

Definition clock_rewind_event (c : clock_t) : result clock_t :=
  match c with
  | Clock_usec c => Clock_usec <$> DFReaderClock_usec.rewind_event c
  | Clock_msec c => Clock_msec <$> DFReaderClock_msec.rewind_event c
  | Clock_px4 c => Ok (Clock_px4 c)
  | Clock_gps_interpolated c =>
      Ok (Clock_gps_interpolated (DFReaderClock_gps_interpolated.rewind_event c))
  end.

Definition clock_message_arrived `{Externals} (c : clock_t) (m : DFMessage.t)
    : clock_t * result unit :=
  match c with
  | Clock_usec _ | Clock_msec _ => (c, Ok ())
  | Clock_px4 c' =>
      match DFReaderClock_px4.message_arrived c' m with
      | Ok c'' => (Clock_px4 c'', Ok ())
      | Raise e => (c, Raise e)
      end
  | Clock_gps_interpolated c' =>
      let r := DFReaderClock_gps_interpolated.message_arrived c' m in
      (Clock_gps_interpolated r.1, r.2)
  end.

Definition clock_set_message_timestamp `{Externals} (c : clock_t) (m : DFMessage.t)
    : result (clock_t * DFMessage.t) :=
  match c with
  | Clock_usec c =>
      prod_map Clock_usec id <$> DFReaderClock_usec.set_message_timestamp c m
  | Clock_msec c =>
      prod_map Clock_msec id <$> DFReaderClock_msec.set_message_timestamp c m
  | Clock_px4 c =>
      prod_map Clock_px4 id <$> DFReaderClock_px4.set_message_timestamp c m
  | Clock_gps_interpolated c =>
      prod_map Clock_gps_interpolated id <$>
        DFReaderClock_gps_interpolated.set_message_timestamp c m
  end.

(** ** Mutation and exceptions

    A method that raises leaves behind the assignments it made before
    raising.  Where a caller catches the exception, the method is written
    in the monad [SE]: the state is returned along with the outcome. *)

Definition SE (S A : Type) : Type := S → S * result A.

#[global] Instance SE_ret {S} : MRet (SE S) := λ A a s, (s, Ok a).
#[global] Instance SE_bind {S} : MBind (SE S) := λ A B k m s,
  match m s with
  | (s', Ok a) => k a s'
  | (s', Raise e) => (s', Raise e)
  end.

Definition se_get {S} : SE S S := λ s, (s, Ok s).
Definition se_modify {S} (f : S → S) : SE S unit := λ s, (f s, Ok ()).
Definition se_lift {S A} (r : result A) : SE S A := λ s, (s, r).
Definition se_when {S} (b : bool) (m : SE S unit) : SE S unit :=
  if b then m else mret ().

(** ** DFReader, the base class *)

(** A value used as a dictionary key that holds an integer. *)
Definition int_key (v : pyval) : result (option Z) :=
  match v with
  | PInt z => Ok (Some z)
  | PFloat f =>
      match py_trunc f with
      | Ok z => Ok (if PrimFloat.eqb (Z2F z) f then Some z else None)
      | Raise _ => Ok None
      end
  | PArray _ => Raise TypeError
  | _ => Ok None
  end.

(** A value used as a key of [params]. *)
Definition str_key (v : pyval) : result string :=
  match v with
  | PStr s => Ok s
  | PArray _ => Raise TypeError
  | _ => Raise Unmodelled
  end.

(** [str(v)], for the key of a record of one instance. *)
Definition py_str `{Externals} (v : pyval) : result string :=
  match v with
  | PStr s => Ok s
  | PInt z => Ok (str_of_int z)
  | PFloat f => Ok (str_of_float f)
  | PNone => Ok "None"
  | _ => Raise Unmodelled
  end.

Definition contains (sub s : string) : bool :=
  bool_decide (is_Some (String.index 0 sub s)).

Module DFReader.

Record t := mk {
  clock : option clock_t;
  timestamp : pyval;
  mav_type : Z;
  verbose : bool;
  params : gmap string pyval;
  param_defaults : option (gmap string pyval);
  _flightmodes : option (list (string * pyval * option pyval));
  flightmode : string;
  messages : gmap string DFMessage.t;
  percent : pyval;
  unit_lookup : gmap string string;
  mult_lookup : gmap string float;
}.

Definition set_clock (c : option clock_t) (r : t) : t :=
  mk c (timestamp r) (mav_type r) (verbose r) (params r) (param_defaults r)
     (_flightmodes r) (flightmode r) (messages r) (percent r)
     (unit_lookup r) (mult_lookup r).
Definition set_timestamp (ts : pyval) (r : t) : t :=
  mk (clock r) ts (mav_type r) (verbose r) (params r) (param_defaults r)
     (_flightmodes r) (flightmode r) (messages r) (percent r)
     (unit_lookup r) (mult_lookup r).
Definition set_mav_type (ty : Z) (r : t) : t :=
  mk (clock r) (timestamp r) ty (verbose r) (params r) (param_defaults r)
     (_flightmodes r) (flightmode r) (messages r) (percent r)
     (unit_lookup r) (mult_lookup r).
Definition set_params (ps : gmap string pyval) (r : t) : t :=
  mk (clock r) (timestamp r) (mav_type r) (verbose r) ps (param_defaults r)
     (_flightmodes r) (flightmode r) (messages r) (percent r)
     (unit_lookup r) (mult_lookup r).
Definition set_param_defaults (ps : option (gmap string pyval)) (r : t) : t :=
  mk (clock r) (timestamp r) (mav_type r) (verbose r) (params r) ps
     (_flightmodes r) (flightmode r) (messages r) (percent r)
     (unit_lookup r) (mult_lookup r).
Definition set_flightmodes (l : option (list (string * pyval * option pyval)))
    (r : t) : t :=
  mk (clock r) (timestamp r) (mav_type r) (verbose r) (params r) (param_defaults r)
     l (flightmode r) (messages r) (percent r) (unit_lookup r) (mult_lookup r).
Definition set_flightmode (fm : string) (r : t) : t :=
  mk (clock r) (timestamp r) (mav_type r) (verbose r) (params r) (param_defaults r)
     (_flightmodes r) fm (messages r) (percent r) (unit_lookup r) (mult_lookup r).
Definition set_messages (ms : gmap string DFMessage.t) (r : t) : t :=
  mk (clock r) (timestamp r) (mav_type r) (verbose r) (params r) (param_defaults r)
     (_flightmodes r) (flightmode r) ms (percent r) (unit_lookup r) (mult_lookup r).
Definition set_percent (pc : pyval) (r : t) : t :=
  mk (clock r) (timestamp r) (mav_type r) (verbose r) (params r) (param_defaults r)
     (_flightmodes r) (flightmode r) (messages r) pc (unit_lookup r) (mult_lookup r).
Definition set_unit_lookup (u : gmap string string) (r : t) : t :=
  mk (clock r) (timestamp r) (mav_type r) (verbose r) (params r) (param_defaults r)
     (_flightmodes r) (flightmode r) (messages r) (percent r) u (mult_lookup r).
Definition set_mult_lookup (u : gmap string float) (r : t) : t :=
  mk (clock r) (timestamp r) (mav_type r) (verbose r) (params r) (param_defaults r)
     (_flightmodes r) (flightmode r) (messages r) (percent r) (unit_lookup r) u.

(** [__init__].  The two entries of [messages] that point back at the
    reader are not kept; [flightmode] is first assigned by [_rewind]. *)
Definition init `{Externals} : t :=
  mk None (PInt 0) MAV_TYPE_FIXED_WING false ∅ None None "UNKNOWN" ∅ (PInt 0) ∅ ∅.

(** [_rewind] of the base class. *)
Definition _rewind (keep_messages : bool) (self : t) : result t :=
  let self := if keep_messages then self else set_messages ∅ self in
  let self :=
    match _flightmodes self with
    | Some ((mode, _, _) :: _) => set_flightmode mode self
    | _ => set_flightmode "UNKNOWN" self
    end in
  let self := set_percent (PInt 0) self in
  match clock self with
  | Some c => c' ← clock_rewind_event c; Ok (set_clock (Some c') self)
  | None => Ok self
  end.

(** [_set_time]. *)
Definition _set_time `{Externals} : SE (t * DFMessage.t) unit := λ s,
  let self := s.1 in
  let m := DFMessage.with_timestamp s.2 (timestamp self) in
  match DFMessage._fieldnames m, clock self with
  | _ :: _, Some c =>
      match clock_set_message_timestamp c m with
      | Ok (c', m') => ((set_clock (Some c') self, m'), Ok ())
      | Raise e => ((self, m), Raise e)
      end
  | _, _ => ((self, m), Ok ())
  end.

(** The receiver of a [str] method. *)
Definition str_receiver (v : pyval) : result string :=
  match v with
  | PStr s => Ok s
  | PBytes _ => Raise TypeError
  | _ => Raise AttributeError
  end.

Definition is_str (v : pyval) : bool :=
  match v with PStr _ => true | _ => false end.

(** [math.isnan]. *)
Definition py_isnan (v : pyval) : result bool :=
  match v with
  | PFloat f => Ok (PrimFloat.is_nan f)
  | PInt z => (λ _, false) <$> float_of_int z
  | _ => Raise TypeError
  end.

Definition build_types `{Externals} : list (Z * Z) :=
  [ (1, MAV_TYPE_GROUND_ROVER); (2, MAV_TYPE_QUADROTOR); (3, MAV_TYPE_FIXED_WING);
    (4, MAV_TYPE_ANTENNA_TRACKER); (7, MAV_TYPE_SUBMARINE);
    (13, MAV_TYPE_HELICOPTER); (12, MAV_TYPE_AIRSHIP) ].

Definition on_reader {A} (f : t → t) : SE (t * A) unit :=
  se_modify (λ s, (f s.1, s.2)).

(** The steps of [_add_msg], in the order of the source. *)
Definition _add_msg_steps `{Externals} : SE (t * DFMessage.t) unit :=
  s ← se_get;
  let m := s.2 in
  let type := DFMessage.get_type m in
  let attr f := DFMessage.__getattr__ m f in
  on_reader (λ self, set_messages (<[type := m]> (messages self)) self);;
  match DFFormat.instance_field (DFMessage.fmt m) with
  | Some f =>
      i ← se_lift (attr f);
      k ← se_lift (py_str i);
      on_reader (λ self,
        set_messages (<[type +:+ "[" +:+ k +:+ "]" := m]> (messages self)) self)
  | None => mret ()
  end;;
  (λ s : t * DFMessage.t,
     match clock s.1 with
     | Some c =>
         let r := clock_message_arrived c m in
         ((set_clock (Some r.1) s.1, s.2), r.2)
     | None => (s, Ok ())
     end);;
  has_Message ← se_lift (if String.eqb type "MSG" then hasattr (attr "Message")
                         else Ok false);
  se_when has_Message (
    Message ← se_lift (attr "Message" ≫= str_receiver);
    if contains "Rover" Message then on_reader (set_mav_type MAV_TYPE_GROUND_ROVER)
    else if contains "Plane" Message then on_reader (set_mav_type MAV_TYPE_FIXED_WING)
    else if contains "Copter" Message then on_reader (set_mav_type MAV_TYPE_QUADROTOR)
    else if String.prefix "Antenna" Message
      then on_reader (set_mav_type MAV_TYPE_ANTENNA_TRACKER)
    else if contains "ArduSub" Message then on_reader (set_mav_type MAV_TYPE_SUBMARINE)
    else if contains "Blimp" Message then on_reader (set_mav_type MAV_TYPE_AIRSHIP)
    else mret ());;
  has_BU ← se_lift (if String.eqb type "VER" then hasattr (attr "BU") else Ok false);
  se_when has_BU (
    k ← se_lift (attr "BU" ≫= int_key);
    match k ≫= (λ k, list_to_map (M:=gmap Z Z) build_types !! k) with
    | Some mavtype => on_reader (set_mav_type mavtype)
    | None => mret ()
    end);;
  se_when (String.eqb type "MODE") (
    has_Mode ← se_lift (hasattr (attr "Mode"));
    Mode ← se_lift (if has_Mode : bool then attr "Mode" else Ok PNone);
    if has_Mode && is_str Mode then
      md ← se_lift (str_receiver Mode);
      on_reader (set_flightmode (str_upper md))
    else if bool_decide ("ModeNum" ∈ DFMessage._fieldnames m) then
      s ← se_get;
      match mode_mapping_bynumber (mav_type s.1) with
      | Some mapping =>
          k ← se_lift (attr "ModeNum" ≫= int_key);
          on_reader (set_flightmode (default "UNKNOWN" (k ≫= (mapping !!.))))
      | None => on_reader (set_flightmode "UNKNOWN")
      end
    else if has_Mode then
      fm ← se_lift (mode_string_acm Mode);
      on_reader (set_flightmode fm)
    else mret ());;
  se_when (String.eqb type "STAT"
           && bool_decide ("MainState" ∈ DFMessage._fieldnames m)) (
    fm ← se_lift (attr "MainState" ≫= mode_string_px4);
    on_reader (set_flightmode fm));;
  Name ← se_lift (if String.eqb type "PARM" then getattr_default (attr "Name")
                  else Ok None);
  match Name with
  | Some Name =>
      k ← se_lift (str_key Name);
      Value ← se_lift (attr "Value");
      on_reader (λ self, set_params (<[k := Value]> (params self)) self);;
      has_Default ← se_lift (hasattr (attr "Default"));
      se_when has_Default (
        Default ← se_lift (attr "Default");
        nan ← se_lift (py_isnan Default);
        se_when (negb nan) (
          on_reader (λ self,
            set_param_defaults
              (Some (<[k := Default]> (default ∅ (param_defaults self)))) self)))
  | None => mret ()
  end;;
  _set_time.

(** [_add_msg].  The record stored in [messages] is the object that
    [_set_time] stamps at the end, so the stored entries carry the stamp. *)
Definition _add_msg `{Externals} (self : t) (m : DFMessage.t)
    : (t * DFMessage.t) * result unit :=
  let r := _add_msg_steps (self, m) in
  let self' := r.1.1 in
  let m' := r.1.2 in
  let type := DFMessage.get_type m in
  let keys :=
    type ::
    match DFFormat.instance_field (DFMessage.fmt m) with
    | Some f =>
        match DFMessage.__getattr__ m f ≫= py_str with
        | Ok k => [type +:+ "[" +:+ k +:+ "]"]
        | Raise _ => []
        end
    | None => []
    end in
  let restamp (ms : gmap string DFMessage.t) :=
    foldr (λ k ms, <[k := m']> ms) ms keys in
  ((set_messages (restamp (messages self')) self', m'), r.2).

(** [param]. *)
Definition param (self : t) (name : string) (default : pyval) : pyval :=
  match params self !! name with
  | Some v => v
  | None => default
  end.

End DFReader.

(** [DFMessage.__getitem__]: the latest record of the instance [key],
    looked up in the [messages] of the reader [parent] the record came
    from.  The key built holds brackets, so the two entries of [messages]
    that are not records are never found. *)
Definition __getitem__ `{Externals} (parent : DFReader.t) (self : DFMessage.t)
    (key : pyval) : result DFMessage.t :=
  match DFFormat.instance_field (DFMessage.fmt self) with
  | None => Raise IndexError
  | Some _ =>
      k ← py_str key;
      of_option IndexError
        (DFReader.messages parent
           !! (DFFormat.name (DFMessage.fmt self) +:+ "[" +:+ k +:+ "]"))
  end.

(** [b.decode(errors="backslashreplace")], the conversion [to_string]
    applies to bytes: well-formed UTF-8 sequences are kept, every other
    byte [0xNN] becomes the four characters [\xNN]. *)
Definition utf8_head_len (bs : list byte) : nat :=
  match bs with
  | [] => 0%nat
  | b0 :: r0 =>
      if bool_decide (bz b0 < 128) then 1%nat else
      if utf8_valid (take 2 bs) && between 194 223 b0 then 2%nat else
      if utf8_valid (take 3 bs) && between 224 239 b0 then 3%nat else
      if utf8_valid (take 4 bs) && between 240 244 b0 then 4%nat else 0%nat
  end.

Definition hex_digit (z : Z) : ascii :=
  ascii_of_N (Z.to_N (if bool_decide (z < 10) then 48 + z else 87 + z)).

Definition backslash_escape (b : byte) : string :=
  String "\" (String "x" (String (hex_digit (bz b `div` 16))
                            (String (hex_digit (bz b `mod` 16)) EmptyString))).

Fixpoint decode_backslashreplace_go (skip : nat) (bs : list byte) : string :=
  match bs with
  | [] => EmptyString
  | b :: bs' =>
      match skip with
      | S k => String (ascii_of_byte b) (decode_backslashreplace_go k bs')
      | O =>
          match utf8_head_len bs with
          | O => backslash_escape b +:+ decode_backslashreplace_go 0 bs'
          | S k => String (ascii_of_byte b) (decode_backslashreplace_go k bs')
          end
      end
  end.

Definition to_string (v : pyval) : result string :=
  match v with
  | PStr s => Ok s
  | PBytes b => Ok (decode_backslashreplace_go 0 b)
  | _ => Raise AttributeError
  end.

(** [null_term] applied to a value of any type. *)
Definition null_term_val (v : pyval) : result string :=
  null_term <$> to_string v.

(** ** The [struct] module, little-endian layouts *)

(** Unsigned little-endian value of a byte string, and its inverse on
    [n] bytes. *)
Fixpoint le_decode (bs : list byte) : Z :=
  match bs with
  | [] => 0
  | b :: bs' => bz b + 256 * le_decode bs'
  end.

Fixpoint le_encode (n : nat) (z : Z) : list byte :=
  match n with
  | O => []
  | S n' => zb (z `mod` 256) :: le_encode n' (z `div` 256)
  end.

Definition to_signed (bits : Z) (u : Z) : Z :=
  if bool_decide (u < 2 ^ (bits - 1)) then u else u - 2 ^ bits.

(** IEEE 754 interchange formats with [ebits] exponent bits and [mbits]
    fraction bits: binary16 is (5, 10), binary32 (8, 23), binary64 (11, 52). *)
Definition decode_ieee (ebits mbits : Z) (bits : Z) : float :=
  let s := bool_decide (bits `div` 2 ^ (ebits + mbits) = 1) in
  let e := (bits `div` 2 ^ mbits) `mod` 2 ^ ebits in
  let m := bits `mod` 2 ^ mbits in
  let bias := 2 ^ (ebits - 1) - 1 in
  SF2Prim
    (if bool_decide (e = 2 ^ ebits - 1) then
       if bool_decide (m = 0) then S754_infinity s else S754_nan
     else if bool_decide (e = 0) then
       match m with
       | Z.pos p => S754_finite s p (1 - bias - mbits)
       | _ => S754_zero s
       end
     else S754_finite s (Z.to_pos (m + 2 ^ mbits)) (e - bias - mbits)).

(** Packing rounds to the nearest value of the format, ties to even; a
    finite value too large for the format is an [OverflowError]. *)
Definition encode_ieee (ebits mbits : Z) (f : float) : result Z :=
  let bias := 2 ^ (ebits - 1) - 1 in
  let top := 2 ^ (ebits + mbits) in
  let sign (s : bool) := if s then top else 0 in
  match Prim2SF f with
  | S754_nan => Ok ((2 ^ ebits - 1) * 2 ^ mbits + 2 ^ (mbits - 1))
  | S754_infinity s => Ok (sign s + (2 ^ ebits - 1) * 2 ^ mbits)
  | S754_zero s => Ok (sign s)
  | S754_finite s m e =>
      match binary_normalize (mbits + 1) (2 ^ (ebits - 1)) (Z.pos m) e false with
      | S754_finite _ m' e' =>
          if bool_decide (2 ^ mbits ≤ Z.pos m')
          then Ok (sign s + (e' + bias + mbits) * 2 ^ mbits + (Z.pos m' - 2 ^ mbits))
          else Ok (sign s + Z.pos m')
      | S754_zero _ => Ok (sign s)
      | _ => Raise OverflowError
      end
  end.

Definition ieee_params (c : scode) : Z * Z :=
  match c with S_e => (5, 10) | S_f => (8, 23) | _ => (11, 52) end.

(** One field of [struct.unpack]. *)
Definition unpack_field (c : scode) (bs : list byte) : pyval :=
  match c with
  | S_B | S_H | S_I | S_Q => PInt (le_decode bs)
  | S_b | S_h | S_i | S_q => PInt (to_signed (8 * scode_size c) (le_decode bs))
  | S_e | S_f | S_d =>
      PFloat (decode_ieee (ieee_params c).1 (ieee_params c).2 (le_decode bs))
  | S_s _ => PBytes bs
  end.

Fixpoint unpack_fields (cs : list scode) (bs : list byte) : list pyval :=
  match cs with
  | [] => []
  | c :: cs' =>
      let n := Z.to_nat (scode_size c) in
      unpack_field c (take n bs) :: unpack_fields cs' (drop n bs)
  end.

(** [struct.unpack("<...", body)]: the body must have the size of the layout. *)
Definition struct_unpack (cs : list scode) (body : list byte) : result (list pyval) :=
  if bool_decide (Z.of_nat (length body) = calcsize cs)
  then Ok (unpack_fields cs body)
  else Raise StructError.

(** One field of [struct.pack]: integer codes take an integer in range,
    float codes a number, [ns] a byte string that is cut or padded with
    NULs to [n] bytes. *)
Definition pack_field (c : scode) (v : pyval) : result (list byte) :=
  let n := Z.to_nat (scode_size c) in
  let bits := 8 * scode_size c in
  match c, v with
  | (S_B | S_H | S_I | S_Q), PInt z =>
      if bool_decide (0 ≤ z < 2 ^ bits) then Ok (le_encode n z)
      else Raise StructError
  | (S_b | S_h | S_i | S_q), PInt z =>
      if bool_decide (- 2 ^ (bits - 1) ≤ z < 2 ^ (bits - 1))
      then Ok (le_encode n (z `mod` 2 ^ bits))
      else Raise StructError
  | (S_e | S_f | S_d), PFloat f =>
      le_encode n <$> encode_ieee (ieee_params c).1 (ieee_params c).2 f
  | (S_e | S_f | S_d), PInt z =>
      f ← float_of_int z;
      le_encode n <$> encode_ieee (ieee_params c).1 (ieee_params c).2 f
  | S_s k, PBytes b => Ok (take k (b ++ replicate k x00))
  | _, _ => Raise StructError
  end.

Fixpoint struct_pack (cs : list scode) (vs : list pyval) : result (list byte) :=
  match cs, vs with
  | [], [] => Ok []
  | c :: cs', v :: vs' =>
      b ← pack_field c v;
      r ← struct_pack cs' vs';
      Ok (b ++ r)
  | _, _ => Raise StructError
  end.

(** [array.array('h', b)] for a byte string, and [a.tobytes()]; the
    machine is taken little-endian. *)
Fixpoint array_h_go (bs : list byte) : list Z :=
  match bs with
  | lo :: hi :: bs' => to_signed 16 (bz lo + 256 * bz hi) :: array_h_go bs'
  | _ => []
  end.

Definition array_h (v : pyval) : result pyval :=
  match v with
  | PBytes b =>
      if bool_decide (Z.of_nat (length b) `mod` 2 = 0) then Ok (PArray (array_h_go b))
      else Raise ValueError
  | PArray a => Ok (PArray a)
  | _ => Raise TypeError
  end.

Definition array_tobytes (a : list Z) : list byte :=
  a ≫= (λ z, le_encode 2 (z `mod` 2 ^ 16)).

(** ** Encoding a record

    [DFMessage.get_msgbuf].  The value of column [i] is read by name with
    [__getattr__], under the name [ModeNum] for the column [Mode] of a
    format that has both; a [str] is encoded (as ASCII, or as UTF-8 when
    it is not ASCII: the UTF-8 bytes in both cases), an array is turned
    into its bytes, and a value with a multiplier is divided by it and
    rounded. *)
Definition msgbuf_name (self : DFMessage.t) (name : string) : string :=
  if String.eqb name "Mode"
     && bool_decide ("ModeNum" ∈ DFFormat.columns (DFMessage.fmt self))
  then "ModeNum" else name.

Definition msgbuf_value `{Externals} (self : DFMessage.t) (i : nat)
    (name : string) : result pyval :=
  mul ← of_option IndexError (DFFormat.msg_mults (DFMessage.fmt self) !! i);
  v ← DFMessage.__getattr__ self (msgbuf_name self name);
  let v := match v with
           | PStr s => PBytes (list_byte_of_string s)
           | PArray a => PBytes (array_tobytes a)
           | _ => v
           end in
  match mul with
  | Some mu =>
      q ← py_truediv_val v (PFloat mu);
      match q with
      | PFloat q => PInt <$> py_round q
      | _ => Raise TypeError
      end
  | None => Ok v
  end.

(** [get_msgbuf]: [None] when [struct.pack] refuses the values. *)
Definition get_msgbuf `{Externals} (self : DFMessage.t)
    : result (option (list byte)) :=
  let fmt := DFMessage.fmt self in
  values ← mapM (λ ic, msgbuf_value self ic.1 ic.2)
              (take (length (DFFormat.msg_mults fmt))
                 (imap pair (DFFormat.columns fmt)));
  ret1 ← struct_pack [S_B; S_B; S_B] [PInt 163; PInt 149; PInt (DFFormat.type fmt)];
  match struct_pack (DFFormat.msg_struct fmt) values with
  | Ok ret2 => Ok (Some (ret1 ++ ret2))
  | Raise _ => Ok None
  end.

(** ** DFReader_binary *)

Module DFReader_binary.

(** What the reader prints on the error stream. *)
Inductive diag :=
| Skipped (skip_bytes skip_start : Z) (skip_type : byte * byte * byte)
          (prev_type : option Z)
| OutOfData
| UnpackError
| FailedToParse (name : string) (body_len remaining : Z)
| FailedArray
| BadMsg (offset : Z) (e : exn)
| BadHeader (h1 h2 : byte) (ofs : Z)
| UnknownMsgType (mtype : Z) (ofs : Z).

(** The reader.  [data_map] is the whole file; [data_len] is its length. *)
Record t := mk {
  base : DFReader.t;
  data_map : list byte;
  formats : gmap Z DFFormat.t;
  unpackers : gmap Z (list scode);
  _zero_time_base : bool;
  prev_type : option Z;
  offset : Z;
  remaining : Z;
  type_nums : option (list Z);
  indexes : list Z;
  offsets : list (list Z);
  counts : list Z;
  name_to_id : gmap string Z;
  id_to_name : gmap Z string;
  _count : Z;
  stderr : list diag;
}.

Definition data_len (self : t) : Z := Z.of_nat (length (data_map self)).

Definition set_base (x : DFReader.t) (r : t) : t :=
  mk x (data_map r) (formats r) (unpackers r) (_zero_time_base r) (prev_type
     r) (offset r) (remaining r) (type_nums r) (indexes r) (offsets r) (counts
     r) (name_to_id r) (id_to_name r) (_count r) (stderr r).
Definition set_formats (x : gmap Z DFFormat.t) (r : t) : t :=
  mk (base r) (data_map r) x (unpackers r) (_zero_time_base r) (prev_type r)
     (offset r) (remaining r) (type_nums r) (indexes r) (offsets r) (counts r)
     (name_to_id r) (id_to_name r) (_count r) (stderr r).
Definition set_unpackers (x : gmap Z (list scode)) (r : t) : t :=
  mk (base r) (data_map r) (formats r) x (_zero_time_base r) (prev_type r)
     (offset r) (remaining r) (type_nums r) (indexes r) (offsets r) (counts r)
     (name_to_id r) (id_to_name r) (_count r) (stderr r).
Definition set_prev_type (x : option Z) (r : t) : t :=
  mk (base r) (data_map r) (formats r) (unpackers r) (_zero_time_base r) x
     (offset r) (remaining r) (type_nums r) (indexes r) (offsets r) (counts r)
     (name_to_id r) (id_to_name r) (_count r) (stderr r).
Definition set_offset (x : Z) (r : t) : t :=
  mk (base r) (data_map r) (formats r) (unpackers r) (_zero_time_base r)
     (prev_type r) x (remaining r) (type_nums r) (indexes r) (offsets r)
     (counts r) (name_to_id r) (id_to_name r) (_count r) (stderr r).
Definition set_remaining (x : Z) (r : t) : t :=
  mk (base r) (data_map r) (formats r) (unpackers r) (_zero_time_base r)
     (prev_type r) (offset r) x (type_nums r) (indexes r) (offsets r) (counts
     r) (name_to_id r) (id_to_name r) (_count r) (stderr r).
Definition set_type_nums (x : option (list Z)) (r : t) : t :=
  mk (base r) (data_map r) (formats r) (unpackers r) (_zero_time_base r)
     (prev_type r) (offset r) (remaining r) x (indexes r) (offsets r) (counts
     r) (name_to_id r) (id_to_name r) (_count r) (stderr r).
Definition set_indexes (x : list Z) (r : t) : t :=
  mk (base r) (data_map r) (formats r) (unpackers r) (_zero_time_base r)
     (prev_type r) (offset r) (remaining r) (type_nums r) x (offsets r)
     (counts r) (name_to_id r) (id_to_name r) (_count r) (stderr r).
Definition set_offsets (x : list (list Z)) (r : t) : t :=
  mk (base r) (data_map r) (formats r) (unpackers r) (_zero_time_base r)
     (prev_type r) (offset r) (remaining r) (type_nums r) (indexes r) x
     (counts r) (name_to_id r) (id_to_name r) (_count r) (stderr r).
Definition set_counts (x : list Z) (r : t) : t :=
  mk (base r) (data_map r) (formats r) (unpackers r) (_zero_time_base r)
     (prev_type r) (offset r) (remaining r) (type_nums r) (indexes r) (offsets
     r) x (name_to_id r) (id_to_name r) (_count r) (stderr r).
Definition set_name_to_id (x : gmap string Z) (r : t) : t :=
  mk (base r) (data_map r) (formats r) (unpackers r) (_zero_time_base r)
     (prev_type r) (offset r) (remaining r) (type_nums r) (indexes r) (offsets
     r) (counts r) x (id_to_name r) (_count r) (stderr r).
Definition set_id_to_name (x : gmap Z string) (r : t) : t :=
  mk (base r) (data_map r) (formats r) (unpackers r) (_zero_time_base r)
     (prev_type r) (offset r) (remaining r) (type_nums r) (indexes r) (offsets
     r) (counts r) (name_to_id r) x (_count r) (stderr r).
Definition set_stderr (x : list diag) (r : t) : t :=
  mk (base r) (data_map r) (formats r) (unpackers r) (_zero_time_base r)
     (prev_type r) (offset r) (remaining r) (type_nums r) (indexes r) (offsets
     r) (counts r) (name_to_id r) (id_to_name r) (_count r) x.

Definition emit (d : diag) (r : t) : t := set_stderr (stderr r ++ [d]) r.

Definition HEAD1 : Z := 163.
Definition HEAD2 : Z := 149.

(** [data[a:b]] for [0 <= a]. *)
Definition slice {A} (l : list A) (a b : Z) : list A :=
  take (Z.to_nat (b - a)) (drop (Z.to_nat a) l).

(** The built-in format of the FMT record. *)
Definition FMT_format : result DFFormat.t :=
  DFFormat.init 128 "FMT" 89 "BBnNZ" "Type,Length,Name,Format,Columns" None.

(** [_rewind]. *)
Definition _rewind (keep_messages : bool) (self : t) : result t :=
  b ← DFReader._rewind keep_messages (base self);
  let self := set_base (DFReader.set_timestamp (PInt 0) b) self in
  Ok (set_type_nums None (set_remaining (data_len self) (set_offset 0 self))).

Definition rewind (self : t) : result t := _rewind false self.

(** The message types [skip_to_type] adds unless [strict]. *)
Definition key_types : gset string :=
  list_to_set ["MODE"; "MSG"; "PARM"; "STAT"; "ORGN"; "VER"].

(** One step of the scan for the smallest next offset: [acc] is
    [(smallest_index, smallest_offset)]. *)
Definition skip_scan_step (self : t) (nums : list Z) (acc : result (Z * Z))
    (i : nat) : result (Z * Z) :=
  a ← acc;
  mtype ← of_option IndexError (nums !! i);
  idx ← of_option IndexError (indexes self !! i);
  cnt ← of_option IndexError (counts self !! Z.to_nat mtype);
  if bool_decide (cnt ≤ idx) then Ok a
  else
    ofs ← of_option IndexError
            (offsets self !! Z.to_nat mtype ≫= (.!! Z.to_nat idx));
    if bool_decide (ofs < a.2) then Ok (Z.of_nat i, ofs) else Ok a.

(** [skip_to_type]: the type set is a [set] of names. *)
Definition skip_to_type (type : gset string) (strict : bool) (self : t)
    : result t :=
  let self :=
    match type_nums self with
    | Some _ => self
    | None =>
        let type := if strict then type else type ∪ key_types in
        let nums := omap (λ t, name_to_id self !! t) (elements type) in
        set_indexes (replicate (length nums) 0) (set_type_nums (Some nums) self)
    end in
  let nums := default [] (type_nums self) in
  a ← foldl (skip_scan_step self nums) (Ok (-1, data_len self))
        (seq 0 (length nums));
  if bool_decide (0 ≤ a.1) then
    idx ← of_option IndexError (indexes self !! Z.to_nat a.1);
    Ok (set_offset a.2
          (set_indexes (<[Z.to_nat a.1 := idx + 1]> (indexes self)) self))
  else Ok (set_offset (data_len self) self).

(** One turn of the resynchronisation loop at the head of [_parse_next],
    on the header [h0 h1 h2] at the cursor.  [skip] holds [skip_type] and
    [skip_start] while a run of skipped bytes is open.  The turn ends the
    loop with the message type found ([inr]), or moves one byte on ([inl]). *)
Definition resync_turn (h0 h1 h2 : byte) (skip : option (byte * byte * byte * Z))
    (self : t) : (t * option (byte * byte * byte * Z)) + (t * Z) :=
  let sig := bool_decide (bz h0 = HEAD1) && bool_decide (bz h1 = HEAD2) in
  let self :=
    match skip with
    | Some (skip_type, skip_start) =>
        if sig && bool_decide (528 ≤ remaining self)
        then emit (Skipped (offset self - skip_start) skip_start
                     skip_type (prev_type self)) self
        else self
    | None => self
    end in
  let skip := if sig then None else skip in
  if sig && bool_decide (is_Some (formats self !! bz h2))
  then inr (set_prev_type (Some (bz h2)) self, bz h2)
  else
    let skip :=
      match skip with
      | None => Some (h0, h1, h2, offset self)
      | Some _ => skip
      end in
    inl (set_remaining (remaining self - 1) (set_offset (offset self + 1) self),
         skip).

(** The loop.  [suffix] is [data_map[offset:]]; the result is the message
    type found, or [None] when fewer than three bytes are left. *)
Fixpoint resync (suffix : list byte) (skip : option (byte * byte * byte * Z))
    (self : t) : t * option Z :=
  if bool_decide (data_len self - offset self < 3) then (self, None)
  else
    match suffix with
    | h0 :: rest =>
        match rest with
        | h1 :: h2 :: _ =>
            match resync_turn h0 h1 h2 skip self with
            | inr (self, msg_type) => (self, Some msg_type)
            | inl (self, skip) => resync rest skip self
            end
        | _ => (self, None)
        end
    | [] => (self, None)
    end.

(** The FMT branch of [_parse_next]: the format a FMT record declares.  Any
    exception is caught by the caller. *)
Definition format_of_FMT (self : t) (elements : list pyval) : result DFFormat.t :=
  ftype ← of_option IndexError (elements !! 0%nat);
  e2 ← of_option IndexError (elements !! 2%nat);
  name ← null_term_val e2;
  flen ← of_option IndexError (elements !! 1%nat);
  e3 ← of_option IndexError (elements !! 3%nat);
  format ← null_term_val e3;
  e4 ← of_option IndexError (elements !! 4%nat);
  columns ← null_term_val e4;
  match ftype, flen with
  | PInt ftype, PInt flen =>
      DFFormat.init ftype name flen format columns (formats self !! ftype)
  | _, _ => Raise Unmodelled
  end.

(** [int(v)] with no base. *)
Definition py_int `{Externals} (v : pyval) : result Z :=
  match v with
  | PInt z => Ok z
  | PFloat f => py_trunc f
  | PStr s => int_of_str s
  | PBytes _ => Raise Unmodelled
  | _ => Raise TypeError
  end.

(** The FMTU branch of [_parse_next]; its exceptions are not caught. *)
Definition apply_FMTU `{Externals} (self : t) (elements : list pyval) : result t :=
  e0 ← of_option IndexError (elements !! 0%nat);
  FmtType ← py_int e0;
  UnitIds ← of_option IndexError (elements !! 1%nat);
  MultIds ← of_option IndexError (elements !! 2%nat);
  match formats self !! FmtType with
  | None => Ok self
  | Some fmt =>
      fmt ← DFFormat.set_unit_ids fmt UnitIds (DFReader.unit_lookup (base self));
      fmt ← DFFormat.set_mult_ids fmt MultIds (DFReader.mult_lookup (base self));
      Ok (set_formats (<[FmtType := fmt]> (formats self)) self)
  end.

(** The array fields, turned into arrays after unpacking. *)
Definition transform_arrays (fmt : DFFormat.t) (self : t) (elements : list pyval)
    : t * list pyval :=
  foldl (λ (acc : t * list pyval) a_index,
           match acc.2 !! a_index ≫= (λ v, match array_h v with
                                            | Ok a => Some a
                                            | Raise _ => None
                                            end) with
           | Some a => (acc.1, <[a_index := a]> acc.2)
           | None => (emit FailedArray acc.1, acc.2)
           end)
        (self, elements) (DFFormat.a_indexes fmt).

(** [100.0 * (offset / float(data_len))]. *)
Definition percent_of (self : t) : result pyval :=
  d ← float_of_int (data_len self);
  q ← py_truediv_val (PInt (offset self)) (PFloat d);
  py_mul (PFloat 100.0) q.

(** [_parse_next].  The source calls itself after a record that fails to
    unpack and after a FMT record that declares no usable format; each such
    call starts three bytes further, and [fuel] bounds their number. *)
Fixpoint _parse_next_fuel `{Externals} (fuel : nat) (self : t)
    : result (t * option DFMessage.t) :=
  match fuel with
  | O => Raise OutOfFuel
  | S fuel' =>
      let r := resync (drop (Z.to_nat (offset self)) (data_map self)) None self in
      match r.2 with
      | None => Ok (r.1, None)
      | Some msg_type =>
          let self := set_offset (offset r.1 + 3) r.1 in
          let self := set_remaining (data_len self - offset self) self in
          fmt ← of_option KeyError (formats self !! msg_type);
          if bool_decide (remaining self < DFFormat.len fmt - 3) then
            Ok (if DFReader.verbose (base self) then emit OutOfData self else self,
                None)
          else
            let body := slice (data_map self) (offset self)
                          (offset self + DFFormat.len fmt - 3) in
            let codes := default (DFFormat.msg_struct fmt)
                           (unpackers self !! msg_type) in
            let self := set_unpackers (<[msg_type := codes]> (unpackers self)) self in
            match struct_unpack codes body with
            | Raise _ =>
                let self := emit UnpackError self in
                if bool_decide (remaining self < 528) then Ok (self, None)
                else
                  _parse_next_fuel fuel'
                    (emit (FailedToParse (DFFormat.name fmt)
                             (Z.of_nat (length body)) (remaining self)) self)
            | Ok elements =>
                let name := DFFormat.name fmt in
                let te := transform_arrays fmt self elements in
                let self := te.1 in
                let elements := te.2 in
                let registered :=
                  if String.eqb name "FMT" then
                    match format_of_FMT self elements with
                    | Ok mfmt =>
                        Some (set_formats
                                (<[DFFormat.type mfmt := mfmt]> (formats self)) self)
                    | Raise _ => None
                    end
                  else Some self in
                match registered with
                | None => _parse_next_fuel fuel' self
                | Some self =>
                    let self := set_offset (offset self + (DFFormat.len fmt - 3)) self in
                    let self := set_remaining (data_len self - offset self) self in
                    let m := DFMessage.mk fmt elements true None in
                    self ← (if String.eqb (DFFormat.name (DFMessage.fmt m)) "FMTU"
                            then apply_FMTU self elements else Ok self);
                    let am := DFReader._add_msg (base self) m in
                    let self := set_base am.1.1 self in
                    let self :=
                      match am.2 with
                      | Ok _ => self
                      | Raise e => emit (BadMsg (offset self) e) self
                      end in
                    pc ← percent_of self;
                    Ok (set_base (DFReader.set_percent pc (base self)) self,
                        Some am.1.2)
                end
            end
      end
  end.

Definition _parse_next `{Externals} (self : t) : result (t * option DFMessage.t) :=
  _parse_next_fuel (S (length (data_map self))) self.

Definition recv_msg `{Externals} (self : t) : result (t * option DFMessage.t) :=
  _parse_next self.

(** One turn of the scan of [last_timestamp]: [acc] is
    [(highest_offset, second_highest_offset)]. *)
Definition last_scan_step (self : t) (acc : result (Z * Z)) (i : nat)
    : result (Z * Z) :=
  a ← acc;
  cnt ← of_option IndexError (counts self !! i);
  if bool_decide (cnt = -1) then Ok a
  else
    offs ← of_option IndexError (offsets self !! i);
    match last offs with
    | None => Ok a
    | Some ofs =>
        if bool_decide (a.1 < ofs) then Ok (ofs, a.1)
        else if bool_decide (a.2 < ofs) then Ok (a.1, ofs)
        else Ok a
    end.

(** [last_timestamp]. *)
Definition last_timestamp `{Externals} (self : t) : result (t * pyval) :=
  hs ← foldl (last_scan_step self) (Ok (0, 0)) (seq 0 256);
  r ← recv_msg (set_offset hs.1 self);
  r ← match r.2 with
      | None => recv_msg (set_offset hs.2 r.1)
      | Some _ => Ok r
      end;
  m ← of_option AttributeError r.2;
  ts ← of_option AttributeError (DFMessage._timestamp m);
  Ok (r.1, ts).

(** [find_unused_format]: the numbers 254 down to 2 are tried in turn. *)
Definition find_unused_format (self : t) : option Z :=
  List.find (λ i, bool_decide (formats self !! i = None)) (reverse (seqZ 2 253)).

(** [add_format]: the format is given the number found and registered. *)
Definition add_format (self : t) (fmt : DFFormat.t) : t * option DFFormat.t :=
  match find_unused_format self with
  | None => (self, None)
  | Some new_type =>
      let fmt := DFFormat.with_type fmt new_type in
      (set_formats (<[new_type := fmt]> (formats self)) self, Some fmt)
  end.

(** [make_msgbuf]. *)
Definition make_msgbuf (fmt : DFFormat.t) (values : list pyval)
    : result (list byte) :=
  ret ← struct_pack [S_B; S_B; S_B] [PInt 163; PInt 149; PInt (DFFormat.type fmt)];
  body ← struct_pack (DFFormat.msg_struct fmt) values;
  Ok (ret ++ body).

(** [s.encode('ascii')]; the error is a [UnicodeEncodeError], which is a
    [ValueError]. *)
Definition encode_ascii (s : string) : result (list byte) :=
  if forallb (λ b, bool_decide (bz b < 128)) (list_byte_of_string s)
  then Ok (list_byte_of_string s)
  else Raise ValueError.

(** [make_format_msgbuf]: the FMT record that declares [fmt]. *)
Definition make_format_msgbuf (self : t) (fmt : DFFormat.t) : result (list byte) :=
  fmt_fmt ← of_option KeyError (formats self !! 128);
  ret ← struct_pack [S_B; S_B; S_B] [PInt 163; PInt 149; PInt 128];
  name ← encode_ascii (DFFormat.name fmt);
  format ← encode_ascii (DFFormat.format fmt);
  columns ← encode_ascii (String.concat "," (DFFormat.columns fmt));
  body ← struct_pack (DFFormat.msg_struct fmt_fmt)
            [PInt (DFFormat.type fmt);
             PInt (calcsize (DFFormat.msg_struct fmt) + 3);
             PBytes name; PBytes format; PBytes columns];
  Ok (ret ++ body).

End DFReader_binary.

(** ** Byte strings *)

(** [data.find(sub, start)]: the first index at or after [start] where
    [sub] occurs, or [-1]; a negative [start] counts from the end. *)
Fixpoint find_go (sub l : list byte) (i : Z) : Z :=
  if bool_decide (sub `prefix_of` l) then i
  else match l with
       | [] => -1
       | _ :: l' => find_go sub l' (i + 1)
       end.

Definition find_bytes (sub data : list byte) (start : Z) : Z :=
  let n := Z.of_nat (length data) in
  let start := if bool_decide (start < 0) then Z.max 0 (start + n) else start in
  if bool_decide (n < start) then -1
  else find_go sub (drop (Z.to_nat start) data) start.

(** [data[a:b]], with the negative bounds of Python slices. *)
Definition py_slice {A} (l : list A) (a b : Z) : list A :=
  let n := Z.of_nat (length l) in
  let norm i := if bool_decide (i < 0) then Z.max 0 (i + n) else Z.min i n in
  take (Z.to_nat (norm b - norm a)) (drop (Z.to_nat (norm a)) l).

Definition is_space_byte (b : byte) : bool :=
  bool_decide (bz b ∈ [9; 10; 11; 12; 13; 32]).

(** [b.rstrip()]. *)
Definition rstrip_bytes (bs : list byte) : list byte :=
  reverse (drop_while is_space_byte (reverse bs)).

(** [s.rstrip('\0')]. *)
Definition rstrip_nul (s : string) : string :=
  String.rev (string_of_list_ascii
    (drop_while (λ c, Ascii.eqb c "000") (list_ascii_of_string (String.rev s)))).

(** [b.decode('utf-8')]. *)
Definition utf8_decode (bs : list byte) : result string :=
  if utf8_valid bs then Ok (string_of_list_byte bs) else Raise UnicodeDecodeError.

(** [chr(z)], as UTF-8. *)
Definition py_chr (v : pyval) : result string :=
  match v with
  | PInt z =>
      if bool_decide (0 ≤ z < 128) then Ok (string_of_list_byte [zb z])
      else if bool_decide (128 ≤ z < 2048)
      then Ok (string_of_list_byte [zb (192 + z `div` 64); zb (128 + z `mod` 64)])
      else if bool_decide (2048 ≤ z < 65536)
      then Ok (string_of_list_byte
                 [zb (224 + z `div` 4096); zb (128 + (z `div` 64) `mod` 64);
                  zb (128 + z `mod` 64)])
      else if bool_decide (65536 ≤ z < 1114112)
      then Ok (string_of_list_byte
                 [zb (240 + z `div` 262144); zb (128 + (z `div` 4096) `mod` 64);
                  zb (128 + (z `div` 64) `mod` 64); zb (128 + z `mod` 64)])
      else Raise ValueError
  | _ => Raise TypeError
  end.

(** ** DFReader_text *)

Module DFReader_text.

Record t := mk {
  base : DFReader.t;
  data_map : list byte;
  name_to_id : gmap string Z;
  id_to_name : gmap Z string;
  formats : gmap string DFFormat.t;
  offset : Z;
  delimiter : string;
  _zero_time_base : bool;
  type_list : option (list string);
  indexes : list Z;
  offsets : gmap string (list Z);
  counts : gmap string Z;
  _count : Z;
}.

Definition data_len (self : t) : Z := Z.of_nat (length (data_map self)).

Definition set_base (x : DFReader.t) (r : t) : t :=
  mk x (data_map r) (name_to_id r) (id_to_name r) (formats r) (offset r)
     (delimiter r) (_zero_time_base r) (type_list r) (indexes r) (offsets r)
     (counts r) (_count r).
Definition set_name_to_id (x : gmap string Z) (r : t) : t :=
  mk (base r) (data_map r) x (id_to_name r) (formats r) (offset r) (delimiter
     r) (_zero_time_base r) (type_list r) (indexes r) (offsets r) (counts r)
     (_count r).
Definition set_id_to_name (x : gmap Z string) (r : t) : t :=
  mk (base r) (data_map r) (name_to_id r) x (formats r) (offset r) (delimiter
     r) (_zero_time_base r) (type_list r) (indexes r) (offsets r) (counts r)
     (_count r).
Definition set_formats (x : gmap string DFFormat.t) (r : t) : t :=
  mk (base r) (data_map r) (name_to_id r) (id_to_name r) x (offset r)
     (delimiter r) (_zero_time_base r) (type_list r) (indexes r) (offsets r)
     (counts r) (_count r).
Definition set_offset (x : Z) (r : t) : t :=
  mk (base r) (data_map r) (name_to_id r) (id_to_name r) (formats r) x
     (delimiter r) (_zero_time_base r) (type_list r) (indexes r) (offsets r)
     (counts r) (_count r).
Definition set_delimiter (x : string) (r : t) : t :=
  mk (base r) (data_map r) (name_to_id r) (id_to_name r) (formats r) (offset
     r) x (_zero_time_base r) (type_list r) (indexes r) (offsets r) (counts r)
     (_count r).
Definition set_type_list (x : option (list string)) (r : t) : t :=
  mk (base r) (data_map r) (name_to_id r) (id_to_name r) (formats r) (offset
     r) (delimiter r) (_zero_time_base r) x (indexes r) (offsets r) (counts r)
     (_count r).
Definition set_indexes (x : list Z) (r : t) : t :=
  mk (base r) (data_map r) (name_to_id r) (id_to_name r) (formats r) (offset
     r) (delimiter r) (_zero_time_base r) (type_list r) x (offsets r) (counts
     r) (_count r).
Definition set_offsets (x : gmap string (list Z)) (r : t) : t :=
  mk (base r) (data_map r) (name_to_id r) (id_to_name r) (formats r) (offset
     r) (delimiter r) (_zero_time_base r) (type_list r) (indexes r) x (counts
     r) (_count r).
Definition set_counts (x : gmap string Z) (r : t) : t :=
  mk (base r) (data_map r) (name_to_id r) (id_to_name r) (formats r) (offset
     r) (delimiter r) (_zero_time_base r) (type_list r) (indexes r) (offsets
     r) x (_count r).

(** [_rewind]. *)
Definition _rewind (keep_messages : bool) (self : t) : result t :=
  b ← DFReader._rewind keep_messages (base self);
  let self := set_base b self in
  let ofs := find_bytes (list_byte_of_string "FMT, ") (data_map self) 0 in
  let self :=
    if bool_decide (ofs = -1) then
      let ofs := find_bytes (list_byte_of_string "FMT,") (data_map self) 0 in
      let self := set_offset ofs self in
      if bool_decide (ofs ≠ -1) then set_delimiter "," self else self
    else set_offset ofs self in
  Ok (set_type_list None self).

Definition rewind (self : t) : result t := _rewind false self.

(** One step of the scan of [skip_to_type]. *)
Definition skip_scan_step (self : t) (types : list string) (acc : result (Z * Z))
    (i : nat) : result (Z * Z) :=
  a ← acc;
  mtype ← of_option IndexError (types !! i);
  match counts self !! mtype with
  | None => Ok a
  | Some cnt =>
      idx ← of_option IndexError (indexes self !! i);
      if bool_decide (cnt ≤ idx) then Ok a
      else
        ofs ← of_option KeyError (offsets self !! mtype)
                ≫= (λ l, of_option IndexError (l !! Z.to_nat idx));
        if bool_decide (ofs < a.2) then Ok (Z.of_nat i, ofs) else Ok a
  end.

(** [skip_to_type]. *)
Definition skip_to_type (type : gset string) (strict : bool) (self : t)
    : result t :=
  let self :=
    match type_list self with
    | Some _ => self
    | None =>
        let type := if strict then type
                    else type ∪ DFReader_binary.key_types in
        let types := elements type in
        set_indexes (replicate (length types) 0) (set_type_list (Some types) self)
    end in
  let types := default [] (type_list self) in
  a ← foldl (skip_scan_step self types) (Ok (-1, data_len self))
        (seq 0 (length types));
  if bool_decide (0 ≤ a.1) then
    idx ← of_option IndexError (indexes self !! Z.to_nat a.1);
    Ok (set_offset a.2
          (set_indexes (<[Z.to_nat a.1 := idx + 1]> (indexes self)) self))
  else Ok self.

(** The line loop at the head of [_parse_next]: the fields of the next
    line that has at least two, or [None] when the loop stops at the end
    of the data. *)
Fixpoint next_line (fuel : nat) (self : t) : result (t * option (list string)) :=
  match fuel with
  | O => Raise OutOfFuel
  | S fuel' =>
      let found := find_bytes [x0a] (data_map self) (offset self) in
      let endline := if bool_decide (found = -1) then data_len self else found in
      if bool_decide (found = -1) && bool_decide (endline < offset self)
      then Ok (self, None)
      else
        s ← utf8_decode (rstrip_bytes (py_slice (data_map self) (offset self) endline));
        let elements := py_split (delimiter self) s in
        let self := set_offset (endline + 1) self in
        if bool_decide (2 ≤ length elements)%nat then Ok (self, Some elements)
        else next_line fuel' self
  end.

(** [",".join(l)]. *)
Definition join_comma (l : list string) : string := String.concat "," l.

(** The FMT branch: the format declared, and the fields as the branch
    leaves them. *)
Definition format_of_FMT `{Externals} (self : t) (elements : list string)
    : result (DFFormat.t * string * list string) :=
  e0 ← of_option IndexError (elements !! 0%nat);
  ftype ← int_of_str e0;
  fname ← of_option IndexError (elements !! 2%nat);
  let elements :=
    if String.eqb (delimiter self) ","
    then take 4 elements ++ [join_comma (drop 4 elements)]
    else elements in
  columns ← of_option IndexError (elements !! 4%nat);
  let columns :=
    if String.eqb fname "FMT" && String.eqb columns "Type,Length,Name,Format"
    then "Type,Length,Name,Format,Columns" else columns in
  e1 ← of_option IndexError (elements !! 1%nat);
  flen ← int_of_str e1;
  format ← of_option IndexError (elements !! 3%nat);
  (* [self.formats.get(ftype, None)]: the formats are keyed by name, the
     lookup is by number, so no earlier format is ever found *)
  new_fmt ← DFFormat.init ftype fname flen format columns None;
  Ok (new_fmt, fname, elements).

Definition percent_of (self : t) : result pyval :=
  d ← float_of_int (data_len self);
  q ← py_truediv_val (PInt (offset self)) (PFloat d);
  py_mul (PFloat 100.0) q.

(** The handling of FMTU, UNIT and MULT records after the record is built. *)
Definition apply_FMTU `{Externals} (m : DFMessage.t) (self : t) : result t :=
  let attr f := getattr_default (DFMessage.__getattr__ m f) in
  fmtid ← attr "FmtType";
  k ← match fmtid with Some v => int_key v | None => Ok None end;
  match k ≫= (id_to_name self !!.) with
  | None => Ok self
  | Some name =>
      fmtu ← of_option KeyError (formats self !! name);
      UnitIds ← attr "UnitIds";
      fmtu ← DFFormat.set_unit_ids fmtu (default PNone UnitIds)
               (DFReader.unit_lookup (base self));
      MultIds ← attr "MultIds";
      fmtu ← DFFormat.set_mult_ids fmtu (default PNone MultIds)
               (DFReader.mult_lookup (base self));
      Ok (set_formats (<[name := fmtu]> (formats self)) self)
  end.

Definition apply_UNIT `{Externals} (m : DFMessage.t) (self : t) : result t :=
  let attr f := getattr_default (DFMessage.__getattr__ m f) in
  unitid ← attr "Id";
  label ← attr "Label";
  l ← null_term_val (default PNone label);
  k ← py_chr (default PNone unitid);
  Ok (set_base (DFReader.set_unit_lookup
                  (<[k := l]> (DFReader.unit_lookup (base self))) (base self)) self).

Definition apply_MULT `{Externals} (m : DFMessage.t) (self : t) : result t :=
  let attr f := getattr_default (DFMessage.__getattr__ m f) in
  multid ← attr "Id";
  mult ← attr "Mult";
  f ← match mult with
      | Some (PFloat f) => Ok f
      | Some (PInt z) => float_of_int z
      | _ => Raise TypeError
      end;
  mult ← float_of_str (format_7g f);
  k ← py_chr (default PNone multid);
  Ok (set_base (DFReader.set_mult_lookup
                  (<[k := mult]> (DFReader.mult_lookup (base self))) (base self)) self).

(** [_parse_next].  The source calls itself on a line of an unknown type
    and on a line with too few fields; [fuel] bounds the number of lines. *)
Fixpoint _parse_next_fuel `{Externals} (fuel : nat) (self : t)
    : result (t * option DFMessage.t) :=
  match fuel with
  | O => Raise OutOfFuel
  | S fuel' =>
      r ← next_line (S (S (length (data_map self)))) self;
      let self := r.1 in
      match r.2 with
      | None => Ok (self, None)
      | Some elements =>
          if bool_decide (data_len self < offset self) then Ok (self, None)
          else
            let elements :=
              if bool_decide (length elements = 5%nat)
                 && bool_decide (last elements = Some ",")
              then take 4 elements ++ [EmptyString; EmptyString]
              else elements in
            pc ← percent_of self;
            let self := set_base (DFReader.set_percent pc (base self)) self in
            msg_type ← of_option IndexError (elements !! 0%nat);
            match formats self !! msg_type with
            | None => _parse_next_fuel fuel' self
            | Some fmt =>
                if bool_decide
                     (length elements < String.length (DFFormat.format fmt) + 1)%nat
                then _parse_next_fuel fuel' self
                else
                  let elements := drop 1 elements in
                  let name := rstrip_nul (DFFormat.name fmt) in
                  se ← (if String.eqb name "FMT" then
                          fe ← format_of_FMT self elements;
                          let new_fmt := fe.1.1 in
                          let fname := fe.1.2 in
                          Ok (set_name_to_id
                                (<[fname := DFFormat.type new_fmt]> (name_to_id self))
                                (set_id_to_name
                                   (<[DFFormat.type new_fmt := fname]> (id_to_name self))
                                   (set_formats (<[fname := new_fmt]> (formats self))
                                      self)),
                              fe.2)
                        else Ok (self, elements));
                  let self := se.1 in
                  let m := DFMessage.mk fmt (PStr <$> se.2) false None in
                  let type := DFMessage.get_type m in
                  self ← (if String.eqb type "FMTU" then apply_FMTU m self
                          else Ok self);
                  self ← (if String.eqb type "UNIT" then apply_UNIT m self
                          else Ok self);
                  self ← (if String.eqb type "MULT" then apply_MULT m self
                          else Ok self);
                  let am := DFReader._add_msg (base self) m in
                  _ ← am.2;
                  Ok (set_base am.1.1 self, Some am.1.2)
            end
      end
  end.

Definition _parse_next `{Externals} (self : t) : result (t * option DFMessage.t) :=
  _parse_next_fuel (S (S (length (data_map self)))) self.

Definition recv_msg `{Externals} (self : t) : result (t * option DFMessage.t) :=
  _parse_next self.

(** [last_timestamp]. *)
Definition last_timestamp `{Externals} (self : t) : result (t * pyval) :=
  highest_offset ←
    foldl (λ acc mtype,
             a ← acc;
             offs ← of_option KeyError (offsets self !! mtype);
             match last offs with
             | None => Ok a
             | Some ofs => if bool_decide (a < ofs) then Ok ofs else Ok a
             end)
          (Ok 0) (map_to_list (counts self)).*1;
  r ← recv_msg (set_offset highest_offset self);
  m ← of_option AttributeError r.2;
  ts ← of_option AttributeError (DFMessage._timestamp m);
  Ok (r.1, ts).

End DFReader_text.

(** ** Methods of the base class that call the subclass

    [recv_match] and [flightmode_list] are defined by [DFReader] and call
    [skip_to_type], [recv_msg], [_rewind] and [last_timestamp] of the
    reader they are invoked on. *)

(** [mavutil.evaluate_condition(condition, self.messages)]. *)
Class Conditions := {
  evaluate_condition : option string → gmap string DFMessage.t → result bool;
}.

Class Reader (R : Type) := {
  reader_base : R → DFReader.t;
  reader_set_base : DFReader.t → R → R;
  reader_rewind : bool → R → result R;                  (* _rewind(keep_messages) *)
  reader_skip_to_type : gset string → bool → R → result R;
  reader_recv_msg : R → result (R * option DFMessage.t);
  reader_last_timestamp : R → result (R * pyval);
}.

#[global] Instance binary_Reader `{Externals} : Reader DFReader_binary.t := {|
  reader_base := DFReader_binary.base;
  reader_set_base := DFReader_binary.set_base;
  reader_rewind := DFReader_binary._rewind;
  reader_skip_to_type := DFReader_binary.skip_to_type;
  reader_recv_msg := DFReader_binary.recv_msg;
  reader_last_timestamp := DFReader_binary.last_timestamp;
|}.

#[global] Instance text_Reader `{Externals} : Reader DFReader_text.t := {|
  reader_base := DFReader_text.base;
  reader_set_base := DFReader_text.set_base;
  reader_rewind := DFReader_text._rewind;
  reader_skip_to_type := DFReader_text.skip_to_type;
  reader_recv_msg := DFReader_text.recv_msg;
  reader_last_timestamp := DFReader_text.last_timestamp;
|}.

(** [recv_match], with [type] a set of names or [None]; [fuel] bounds the
    number of records passed over. *)
Fixpoint recv_match `{Conditions} {R} `{Reader R} (fuel : nat)
    (condition : option string) (type : option (gset string)) (strict : bool)
    (self : R) : result (R * option DFMessage.t) :=
  match fuel with
  | O => Raise OutOfFuel
  | S fuel' =>
      self ← match type with
             | Some ty => reader_skip_to_type ty strict self
             | None => Ok self
             end;
      r ← reader_recv_msg self;
      match r.2 with
      | None => Ok (r.1, None)
      | Some m =>
          if match type with
             | Some ty => bool_decide (DFMessage.get_type m ∉ ty)
             | None => false
             end
          then recv_match fuel' condition type strict r.1
          else
            c ← evaluate_condition condition (DFReader.messages (reader_base r.1));
            if c : bool then Ok (r.1, Some m)
            else recv_match fuel' condition type strict r.1
      end
  end.

(** A span of [_flightmodes]: [(mode, t0, t1)], with [t1] not yet known
    while the span is the last one. *)
Definition span : Type := string * pyval * option pyval.

Definition _flightmodes_of {R} `{Reader R} (self : R) : option (list span) :=
  DFReader._flightmodes (reader_base self).

Definition set__flightmodes {R} `{Reader R} (l : list span) (self : R) : R :=
  reader_set_base (DFReader.set_flightmodes (Some l) (reader_base self)) self.

(** [self._flightmodes[-1]]. *)
Definition last_span {R} `{Reader R} (self : R) : result span :=
  fms ← of_option TypeError (_flightmodes_of self);
  of_option IndexError (last fms).

(** [self._flightmodes[-1] = sp]. *)
Definition set_last_span {R} `{Reader R} (sp : span) (self : R) : result R :=
  fms ← of_option TypeError (_flightmodes_of self);
  if bool_decide (fms = []) then Raise IndexError
  else Ok (set__flightmodes (<[pred (length fms) := sp]> fms) self).

(** The loop of [flightmode_list]; it ends with the last [tstamp]. *)
Fixpoint flightmode_scan `{Conditions} {R} `{Reader R} (fuel : nat)
    (tstamp : option pyval) (fmode : option string) (self : R)
    : result (R * option pyval) :=
  match fuel with
  | O => Raise OutOfFuel
  | S fuel' =>
      r ← recv_match fuel None (Some {["MODE"; "PARM"]}) true self;
      match r.2 with
      | None => Ok (r.1, tstamp)
      | Some m =>
          let self := r.1 in
          tstamp ← of_option AttributeError (DFMessage._timestamp m);
          let flightmode := DFReader.flightmode (reader_base self) in
          if bool_decide (Some flightmode = fmode)
          then flightmode_scan fuel' (Some tstamp) fmode self
          else
            fms ← of_option TypeError (_flightmodes_of self);
            self ← (if bool_decide (0 < length fms)%nat
                    then sp ← last_span self;
                         set_last_span (sp.1.1, sp.1.2, Some tstamp) self
                    else Ok self);
            fms ← of_option TypeError (_flightmodes_of self);
            let self := set__flightmodes (fms ++ [(flightmode, tstamp, None)]) self in
            flightmode_scan fuel' (Some tstamp) (Some flightmode) self
      end
  end.

(** [flightmode_list]: the reader it leaves and the list it returns. *)
Definition flightmode_list `{Conditions} {R} `{Reader R} (fuel : nat) (self : R)
    : result (R * option (list span)) :=
  self ←
    match _flightmodes_of self with
    | None =>
        self ← reader_rewind false self;
        let self := set__flightmodes [] self in
        r ← flightmode_scan fuel None None self;
        match r.2 with
        | Some _ =>
            sp ← last_span r.1;
            lt ← reader_last_timestamp r.1;
            set_last_span (sp.1.1, sp.1.2, Some lt.2) lt.1
        | None => Ok r.1
        end
    | Some _ => Ok self
    end;
  self ← reader_rewind false self;
  Ok (self, _flightmodes_of self).

(** ** The detector of text logs

    [open(filename, 'r')] opens the file in text mode: the bytes are
    decoded with the encoding of the platform, here the parameter
    [decode], whose result holds the text as UTF-8; every line ending
    [\r\n] or [\r] is read as [\n]; [read(n)] returns the first [n]
    characters of that text, or fewer at the end of the file.  The model
    takes the contents of the file.  It decodes the file as a whole, and
    so raises for every file that does not decode; the reader of Python
    decodes by blocks and raises only when it reaches the block with the
    undecodable byte. *)






(** ** Closed examples

    An environment for the closed examples below.  They reach no function
    of [Externals] but [str_upper], and that on upper-case names only, so
    it is the identity here and the others are given an inert value. *)

Definition bare_externals : Externals := {|
  int_of_str := λ _, Raise Unmodelled;
  float_of_str := λ _, Raise Unmodelled;
  str_of_float := λ _, EmptyString;
  format_4g := λ _, EmptyString;
  format_7g := λ _, EmptyString;
  str_upper := λ s, s;
  MAV_TYPE_FIXED_WING := 1;
  MAV_TYPE_QUADROTOR := 2;
  MAV_TYPE_HELICOPTER := 4;
  MAV_TYPE_ANTENNA_TRACKER := 5;
  MAV_TYPE_AIRSHIP := 7;
  MAV_TYPE_GROUND_ROVER := 10;
  MAV_TYPE_SUBMARINE := 12;
  mode_mapping_bynumber := λ _, None;
  mode_string_acm := λ _, Raise Unmodelled;
  mode_string_px4 := λ _, Raise Unmodelled;
|}.

(** A record of a freshly declared format, as the binary parser builds it. *)
Definition example_msg (ty : Z) (name : string) (flen : Z) (fmt cols : string)
    (els : list pyval) : result DFMessage.t :=
  f ← DFFormat.init ty name flen fmt cols None;
  Ok (DFMessage.mk f els true None).

Definition example_gps : result DFMessage.t :=
  example_msg 130 "GPS" 17 "QHI" "TimeUS,GWk,GMS"
    [PInt 1000000; PInt 2200; PInt 100000].

Definition example_att (us : Z) : result DFMessage.t :=
  example_msg 131 "ATT" 13 "Qc" "TimeUS,Roll" [PInt us; PInt 123].

(** The value of a computation that succeeds. *)
Definition unwrap {A} (r : result A) : match r with Ok _ => A | Raise _ => unit end :=
  match r with Ok a => a | Raise _ => tt end.

Definition gps0 : DFMessage.t := unwrap example_gps.
Definition att_at (us : Z) : DFMessage.t :=
  DFMessage.mk (DFMessage.fmt (unwrap (example_att 0))) [PInt us; PInt 123] true None.


(** ** Specification-side definitions for the microsecond clock *)

(** [timebase + m.<field> * scale], the stamp a time field yields. *)
Definition stamp_formula `{Externals} (self : DFReaderClock_usec.t)
    (m : DFMessage.t) (field : string) (scale : float) : result pyval :=
  v ← DFMessage.__getattr__ m field;
  d ← py_mul v (PFloat scale);
  py_add (DFReaderClock_usec.timebase self) d.





(** A record of a format that declares no column. *)
Definition example_bare : result DFMessage.t :=
  example_msg 133 "NUL" 3 "" "" [].
Definition bare0 : DFMessage.t := unwrap example_bare.

(** A reader that has chosen the microsecond clock [c]. *)
Definition usec_reader `{Externals} (c : DFReaderClock_usec.t) : DFReader.t :=
  DFReader.set_clock (Some (Clock_usec c)) DFReader.init.


(** The unit-binding scenario: type [T] with columns [X,Y] and format [iI];
    the lookup tables as the UNIT record ['d' -> "deg"] and the MULT record
    ['-' -> 0.01] leave them; then the FMTU strings ["d#"] and ["--"].
    The result is [T]'s instance field and units. *)
Definition unit_binding_scenario `{Externals}
    : result (option string * option (list string)) :=
  let unit_lookup : gmap string string := {[ "d" := "deg" ]} in
  let mult_lookup : gmap string float := {[ "-" := 0.01%float ]} in
  T ← DFFormat.init 200 "T" 11 "iI" "X,Y" None;
  T ← DFFormat.set_unit_ids T (PStr "d#") unit_lookup;
  T ← DFFormat.set_mult_ids T (PStr "--") mult_lookup;
  Ok (DFFormat.instance_field T, DFFormat.units T).

(** A binary reader over [data] as [__init__] sets it up and [_rewind]
    leaves it, with no index built and no clock chosen: only the built-in
    FMT format is known. *)
Definition example_reader `{Externals} (data : list byte) : DFReader_binary.t :=
  DFReader_binary.mk DFReader.init data
    (match DFReader_binary.FMT_format with
     | Ok f => {[ 128 := f ]}
     | Raise _ => ∅
     end)
    ∅ false None 0 (Z.of_nat (length data)) None [] (replicate 256 [])
    (replicate 256 0) ∅ ∅ 0 [].

(** One garbage byte, then a FMT record; 529 bytes in all, so that 528
    bytes remain where the signature is found again. *)
Definition file_528_remaining : list byte :=
  [x00; xa3; x95; x80] ++ replicate 525 x00.



(** [mavutil.evaluate_condition] returns true when there is no condition. *)
Definition no_condition : Conditions := {|
  evaluate_condition c _ :=
    match c with None => Ok true | Some _ => Raise Unmodelled end;
|}.

(** A string in a field of [n] bytes. *)
Definition padded (n : nat) (s : string) : list byte :=
  take n (list_byte_of_string s ++ replicate n x00).

(** A MODE record of the log below: [TimeUS] and [Mode]. *)
Definition mode_record (us : Z) (mode : string) : list byte :=
  [xa3; x95; x81] ++ le_encode 8 us ++ padded 16 mode.

(** A log of four records: the FMT record that declares MODE as type 129
    with the fields [TimeUS] ([Q]) and [Mode] ([N]), then MODE records at
    0, 10 and 20 seconds with the modes A, A and B. *)
Definition mode_log : list byte :=
  [xa3; x95; x80] ++ [x81; x1b] ++ padded 4 "MODE" ++ padded 16 "QN"
    ++ padded 64 "TimeUS,Mode"
  ++ mode_record 0 "A" ++ mode_record 10000000 "A" ++ mode_record 20000000 "B".

(** The binary reader over [mode_log] once opened: the format of MODE is
    the one the parser registers on reading the FMT record; the index is
    the one of the four records (the FMT record at 0, the MODE records at
    89, 116 and 143); no GPS record gives a time base, so the clock is the
    microsecond clock with time base 0. *)
Definition mode_reader `{Externals} : DFReader_binary.t :=
  let r := example_reader mode_log in
  let r := match DFReader_binary._parse_next r with
           | Ok (r, _) => r
           | Raise _ => r
           end in
  let r :=
    DFReader_binary.set_name_to_id {[ "MODE" := 129 ]}
      (DFReader_binary.set_id_to_name {[ 129 := "MODE" ]}
         (DFReader_binary.set_counts
            (<[129%nat := 3]> (<[128%nat := 1]> (replicate 256 0)))
            (DFReader_binary.set_offsets
               (<[129%nat := [89; 116; 143]]> (<[128%nat := [0]]> (replicate 256 [])))
               r))) in
  let r :=
    DFReader_binary.set_base
      (DFReader.set_clock (Some (Clock_usec DFReaderClock_usec.init))
         (DFReader_binary.base r)) r in
  match DFReader_binary._rewind true r with
  | Ok r => r
  | Raise _ => r
  end.

(** ** Specification-side definitions for the resynchronisation *)



(** ** Specification-side definitions for the readers *)

(** What a read leaves alone in a binary reader: the data, the index, the
    type filter and the list of flight modes. *)
Definition binary_frame (a b : DFReader_binary.t) : Prop :=
  DFReader_binary.data_map b = DFReader_binary.data_map a ∧
  DFReader_binary.type_nums b = DFReader_binary.type_nums a ∧
  DFReader_binary.indexes b = DFReader_binary.indexes a ∧
  DFReader_binary.offsets b = DFReader_binary.offsets a ∧
  DFReader_binary.counts b = DFReader_binary.counts a ∧
  DFReader_binary.name_to_id b = DFReader_binary.name_to_id a ∧
  DFReader._flightmodes (DFReader_binary.base b)
    = DFReader._flightmodes (DFReader_binary.base a).

(** The same for a text reader; reading a FMT line adds to [name_to_id]. *)
Definition text_frame (a b : DFReader_text.t) : Prop :=
  DFReader_text.data_map b = DFReader_text.data_map a ∧
  DFReader_text.type_list b = DFReader_text.type_list a ∧
  DFReader_text.indexes b = DFReader_text.indexes a ∧
  DFReader_text.offsets b = DFReader_text.offsets a ∧
  DFReader_text.counts b = DFReader_text.counts a ∧
  DFReader._flightmodes (DFReader_text.base b)
    = DFReader._flightmodes (DFReader_text.base a).

(** A call on an open reader between two rewinds, as [recv_match] makes
    them: [skip_to_type] with a type set and [strict], or [recv_msg]. *)
Inductive reader_call :=
  | Call_skip_to_type (type : gset string) (strict : bool)
  | Call_recv_msg.

(** Two calls of the same method, whatever their arguments. *)
Definition same_method (a b : reader_call) : Prop :=
  match a, b with
  | Call_skip_to_type _ _, Call_skip_to_type _ _ => True
  | Call_recv_msg, Call_recv_msg => True
  | _, _ => False
  end.

(** A sequence of calls on a binary reader: the reader it leaves and the
    messages it returned. *)
Fixpoint binary_session `{Externals} (calls : list reader_call)
    (self : DFReader_binary.t)
    : result (DFReader_binary.t * list (option DFMessage.t)) :=
  match calls with
  | [] => Ok (self, [])
  | Call_skip_to_type type strict :: calls =>
      self ← DFReader_binary.skip_to_type type strict self;
      binary_session calls self
  | Call_recv_msg :: calls =>
      r ← DFReader_binary.recv_msg self;
      q ← binary_session calls r.1;
      Ok (q.1, r.2 :: q.2)
  end.

(** The same on a text reader. *)
Fixpoint text_session `{Externals} (calls : list reader_call)
    (self : DFReader_text.t)
    : result (DFReader_text.t * list (option DFMessage.t)) :=
  match calls with
  | [] => Ok (self, [])
  | Call_skip_to_type type strict :: calls =>
      self ← DFReader_text.skip_to_type type strict self;
      text_session calls self
  | Call_recv_msg :: calls =>
      r ← DFReader_text.recv_msg self;
      q ← text_session calls r.1;
      Ok (q.1, r.2 :: q.2)
  end.

(** A binary reader over [file_528_remaining] with the index of its one
    FMT record built. *)
Definition indexed_reader `{Externals} : DFReader_binary.t :=
  let r := example_reader file_528_remaining in
  DFReader_binary.set_name_to_id {[ "FMT" := 128 ]}
    (DFReader_binary.set_counts (<[128%nat := 1]> (replicate 256 0))
       (DFReader_binary.set_offsets (<[128%nat := [1]]> (replicate 256 [])) r)).

(** ** Specification-side definitions for the multiplier flag *)

(** Two records that differ at most in their stamp. *)
Definition same_record (a b : DFMessage.t) : Prop :=
  DFMessage.fmt b = DFMessage.fmt a ∧
  DFMessage._elements b = DFMessage._elements a ∧
  DFMessage._apply_multiplier b = DFMessage._apply_multiplier a.

(** The scalar multiplier of a format character: 0.01 for [c], [C], [e]
    and [E], 1e-7 for [L], none for the others. *)
Definition scalar_of_char (c : ascii) : option float :=
  if bool_decide (c ∈ ["c"; "C"; "e"; "E"]%char) then Some 0.01%float
  else if bool_decide (c = "L"%char) then Some 1.0e-7%float
  else None.

(** The record read through a format that has no multiplier on any field:
    access to it gives the stored value as converted, without scaling. *)
Definition without_mults (m : DFMessage.t) : DFMessage.t :=
  let f := DFMessage.fmt m in
  DFMessage.mk
    (DFFormat.mk (DFFormat.type f) (DFFormat.name f) (DFFormat.len f)
       (DFFormat.format f) (DFFormat.columns f) (DFFormat.instance_field f)
       (DFFormat.units f) (DFFormat.msg_struct f) (DFFormat.msg_types f)
       ((λ _, None) <$> DFFormat.msg_mults f) (DFFormat.msg_fmts f)
       (DFFormat.colhash f) (DFFormat.a_indexes f) (DFFormat.instance_ofs f)
       (DFFormat.instance_len f))
    (DFMessage._elements m) (DFMessage._apply_multiplier m)
    (DFMessage._timestamp m).

(** Scaling by a multiplier [mu]: division by [1/mu] when [0 < mu < 1],
    multiplication by [mu] otherwise. *)
Definition scaled_by (mu : float) (v : pyval) : result pyval :=
  if PrimFloat.ltb 0 mu && PrimFloat.ltb mu 1
  then py_div_float v (PrimFloat.div 1 mu)
  else py_mul v (PFloat mu).

(** A step in the monad [SE] keeps a property of the state, whether it
    raises or not. *)
Definition se_keeps {S A} (P : S → Prop) (c : SE S A) : Prop :=
  ∀ s, P s → P (c s).1.

(** The column [i] of a record holds the contents of a FILE record, which
    are returned as they are stored. *)
Definition is_FILE_contents (m : DFMessage.t) (i : nat) : Prop :=
  DFFormat.msg_fmts (DFMessage.fmt m) !! i = Some "Z"%char ∧
  DFFormat.name (DFMessage.fmt m) = "FILE".

(** ** Specification-side definitions for the list of flight modes *)

(** The base of a reader is a field of it, and the methods of the subclass
    leave the list of flight modes alone. *)
Definition keeps_flightmodes (R : Type) `{Reader R} : Prop :=
  (∀ b (s : R), reader_base (reader_set_base b s) = b) ∧
  (∀ k (s s' : R), reader_rewind k s = Ok s' →
     _flightmodes_of s' = _flightmodes_of s) ∧
  (∀ ty strict (s s' : R), reader_skip_to_type ty strict s = Ok s' →
     _flightmodes_of s' = _flightmodes_of s) ∧
  (∀ (s s' : R) m, reader_recv_msg s = Ok (s', m) →
     _flightmodes_of s' = _flightmodes_of s) ∧
  (∀ (s s' : R) ts, reader_last_timestamp s = Ok (s', ts) →
     _flightmodes_of s' = _flightmodes_of s).

(** Each span ends where the next one starts, and the next one has
    another mode. *)
Fixpoint chained (l : list span) : Prop :=
  match l with
  | a :: (b :: _) as tl => a.2 = Some b.1.2 ∧ a.1.1 ≠ b.1.1 ∧ chained tl
  | _ => True
  end.

(** The list of flight modes while the loop of [flightmode_list] runs:
    the last span is open and its mode is [fmode]; the list is empty as
    long as no record was seen. *)
Definition open_spans (l : list span) (tstamp : option pyval)
    (fmode : option string) : Prop :=
  chained l ∧
  match last l with
  | None => tstamp = None ∧ fmode = None
  | Some sp => fmode = Some sp.1.1 ∧ is_Some tstamp
  end.

(** ** Specification-side definitions for the detector of text logs *)



(** ** Specification-side definitions for the round trip *)

(** A format as [DFFormat.__init__] builds it: the layout, the types and
    the multipliers are those of the format characters, [colhash] gives a
    column its index, and [a_indexes] lists the array columns. *)
Definition wf_format (fmt : DFFormat.t) : Prop :=
  length (DFFormat.msg_struct fmt) = length (DFFormat.msg_fmts fmt) ∧
  length (DFFormat.msg_mults fmt) = length (DFFormat.msg_fmts fmt) ∧
  (∀ j c, DFFormat.msg_fmts fmt !! j = Some c →
     ∃ e, FORMAT_TO_STRUCT c = Some e ∧
          DFFormat.msg_struct fmt !! j = Some e.1.1 ∧
          DFFormat.msg_mults fmt !! j = Some e.1.2 ∧
          DFFormat.msg_types fmt !! j
            = Some (if Ascii.eqb c "a" then T_array else e.2)) ∧
  (∀ f j, DFFormat.colhash fmt !! f = Some j →
     DFFormat.columns fmt !! j = Some f) ∧
  (∀ j, j ∈ DFFormat.a_indexes fmt ↔ DFFormat.msg_fmts fmt !! j = Some "a"%char).

(** An unpacked array field as the parser leaves it: an array when the
    conversion succeeds. *)
Definition as_array (v : pyval) : pyval :=
  match array_h v with Ok a => a | Raise _ => v end.

(** [100.0 * (n / float(n))], the progress at the end of [n] bytes. *)
Definition percent_at_end (n : Z) : result pyval :=
  d ← float_of_int n;
  q ← py_truediv_val (PInt n) (PFloat d);
  py_mul (PFloat 100.0) q.





(** A binary reader over the bytes [buf] alone that knows the format
    [fmt], the cursor at the start. *)
Definition reader_of `{Externals} (fmt : DFFormat.t) (buf : list byte)
    : DFReader_binary.t :=
  let r := example_reader buf in
  DFReader_binary.set_formats
    (<[DFFormat.type fmt := fmt]> (DFReader_binary.formats r)) r.


(** A record as the binary parser decodes it, with an integer, a scaled
    value, a text and a float: [TimeUS] 2000000, [Roll] 1.23 (stored as
    123), [Name] "AB" and [Val] 1.5. *)
Definition example_rec_fmt : DFFormat.t :=
  match DFFormat.init 140 "REC" 33 "QcNf" "TimeUS,Roll,Name,Val" None with
  | Ok f => f
  | Raise _ => DFMessage.fmt (att_at 0)
  end.

Definition example_rec : DFMessage.t :=
  DFMessage.mk example_rec_fmt
    [PInt 2000000; PInt 123; PBytes (padded 16 "AB"); PFloat 1.5] true None.

(** The buffer [get_msgbuf] returns for it. *)
Definition example_rec_buf : list byte :=
  match get_msgbuf (H:=bare_externals) example_rec with
  | Ok (Some b) => b
  | _ => []
  end.

(** ** Specification-side definitions for the index scan *)

(** The wanted type at position [i] of the filter [nums] has a record that
    was not returned yet, and the next one is at offset [ofs]. *)
Definition binary_pending (self : DFReader_binary.t) (nums : list Z) (i : nat)
    (ofs : Z) : Prop :=
  ∃ mtype idx cnt,
    nums !! i = Some mtype ∧
    DFReader_binary.indexes self !! i = Some idx ∧
    DFReader_binary.counts self !! Z.to_nat mtype = Some cnt ∧
    idx < cnt ∧
    DFReader_binary.offsets self !! Z.to_nat mtype ≫= (.!! Z.to_nat idx) = Some ofs.

(** The reader as [skip_to_type] scans it: on the first call after a
    rewind every index starts at 0. *)
Definition scanned (self : DFReader_binary.t) (nums : list Z) : DFReader_binary.t :=
  match DFReader_binary.type_nums self with
  | Some _ => self
  | None =>
      DFReader_binary.set_indexes (replicate (length nums) 0)
        (DFReader_binary.set_type_nums (Some nums) self)
  end.

(** ** Specification-side definitions for the declaration of a format *)

(** A text that a field of [n] bytes of a FMT record holds as it is: it
    has no NUL and its bytes fit the field. *)
Definition fits_field (n : nat) (s : string) : Prop :=
  null_term s = s ∧ (length (list_byte_of_string s) ≤ n)%nat.

(** ** A text reader

    A text reader over [data] that knows the format of MODE, the cursor at
    the start; and one over the line [MODE, 5, A]. *)
Definition text_reader_over `{Externals} (data : string) : DFReader_text.t :=
  DFReader_text.mk DFReader.init (list_byte_of_string data) ∅ ∅
    (match DFFormat.init 129 "MODE" 27 "QN" "TimeUS,Mode" None with
     | Ok f => {[ "MODE" := f ]}
     | Raise _ => ∅
     end)
    0 ", " false None [] ∅ ∅ 0.

Definition text_example_reader `{Externals} : DFReader_text.t :=
  text_reader_over ("MODE, 5, A" +:+ String "010" EmptyString).

(* ===================================================================== *)
(** * Theorems *)
(* ===================================================================== *)


#[local] Arguments String.eqb : simpl never.
#[local] Arguments String.prefix : simpl never.
#[local] Arguments Ascii.eqb : simpl never.
#[local] Arguments DFReader_binary.resync : simpl never.

(** ** The error monad *)

Lemma bind_Ok {A B} (m : result A) (k : A → result B) (b : B) :
  m ≫= k = Ok b ↔ ∃ a, m = Ok a ∧ k a = Ok b.
Proof.
  destruct m as [a|e]; simpl; split.
  - intros Hk. by exists a.
  - by intros (a' & [= ->] & Hk).
  - intros [=].
  - by intros (a' & [=] & _).
Qed.

Lemma fmap_Ok {A B} (f : A → B) (m : result A) (b : B) :
  f <$> m = Ok b ↔ ∃ a, m = Ok a ∧ b = f a.
Proof.
  destruct m as [a|e]; simpl; split.
  - intros [= <-]. by exists a.
  - by intros (a' & [= ->] & ->).
  - intros [=].
  - by intros (a' & [=] & _).
Qed.

Lemma of_option_Ok {A} e (o : option A) a : of_option e o = Ok a ↔ o = Some a.
Proof. destruct o; simpl; split; congruence. Qed.

(** Split the successful run of a monadic sequence into its steps. *)
Ltac ok_steps :=
  repeat match goal with
  | H : _ ≫= _ = Ok _ |- _ =>
      apply bind_Ok in H; destruct H as (? & ? & H)
  | H : _ <$> _ = Ok _ |- _ =>
      apply fmap_Ok in H; destruct H as (? & H & ?)
  | H : of_option _ _ = Ok _ |- _ => apply of_option_Ok in H
  | H : Ok _ = Ok _ |- _ => injection H as H
  | H : Raise _ = Ok _ |- _ => discriminate H
  end.

(** ** Clocks *)

Lemma epoch_value : DFReaderClock.epoch = Ok 315964800.
Proof. vm_compute. reflexivity. Qed.

(** C3. The GPS-to-Unix conversion is [315964800 + 604800*w + ms*0.001 - 18]
    in Python arithmetic, for every week [w] and millisecond count [ms]; and
    for a GPS record with TimeUS=1000000, GWk=2200, GMS=100000 the
    microsecond clock's timebase is that conversion of (2200, 100000) minus
    1.0, and a following ATT record with TimeUS=2000000 is stamped
    timebase + 2.0. *)
Theorem gps_time_and_usec_timebase (E : Externals) :
  (∀ w ms : pyval,
     DFReaderClock._gpsTimeToTime w ms =
       (a ← py_mul (PInt 604800) w;
        b ← py_add (PInt 315964800) a;
        c ← py_mul ms (PFloat 0.001);
        d ← py_add b c;
        py_sub d (PInt 18))) ∧
  ∃ gps att clock,
    example_gps = Ok gps ∧ example_att 2000000 = Ok att ∧
    DFReaderClock_usec.find_time_base DFReaderClock_usec.init gps
      (Some (PInt 1000000)) = Ok clock ∧
    (conv ← DFReaderClock._gpsTimeToTime (PInt 2200) (PInt 100000);
     py_sub conv (PFloat 1.0)) = Ok (DFReaderClock_usec.timebase clock) ∧
    DFReaderClock_usec.timebase clock = PFloat 1646524881 ∧
    (DFMessage._timestamp ∘ snd) <$>
      DFReaderClock_usec.set_message_timestamp clock att =
      Some <$> py_add (DFReaderClock_usec.timebase clock) (PFloat 2.0).
Proof.
  split.
  - intros w ms. unfold DFReaderClock._gpsTimeToTime.
    rewrite epoch_value. reflexivity.
  - do 3 eexists. repeat split; vm_compute; reflexivity.
Qed.


Lemma usec_set_message_timestamp_inv (E : Externals) self m self' m' :
  DFReaderClock_usec.set_message_timestamp self m = Ok (self', m') →
  ∃ f0 stamp,
    DFMessage._fieldnames m !! 0%nat = Some f0 ∧
    m' = DFMessage.with_timestamp m stamp ∧
    self' = DFReaderClock_usec.mk (DFReaderClock_usec.timebase self) stamp
              (DFReaderClock_usec.first_us_stamp self) ∧
    (if String.eqb "TimeUS" f0 then stamp_formula self m "TimeUS" 0.000001 = Ok stamp
     else ∃ use, DFReaderClock_usec.should_use_msec_field0 self m = Ok use ∧
       if use then stamp_formula self m "TimeMS" 0.001 = Ok stamp
       else stamp = DFReaderClock_usec.timestamp self).
Proof.
  unfold DFReaderClock_usec.set_message_timestamp. intros Hs.
  apply bind_Ok in Hs as (f0 & Hf0%of_option_Ok & Hs).
  apply bind_Ok in Hs as (stamp & Hst & [= <- <-]).
  exists f0, stamp. repeat split; [done|].
  destruct (String.eqb "TimeUS" f0); [done|].
  apply bind_Ok in Hst as (use & Huse & Hst). exists use. split; [done|].
  destruct use; [done|]. by injection Hst.
Qed.

Lemma should_use_msec_field0_true (E : Externals) self m :
  DFReaderClock_usec.should_use_msec_field0 self m = Ok true ↔
  DFReaderClock_usec.type_has_good_TimeMS (DFMessage.get_type m) = true ∧
  DFMessage._fieldnames m !! 0%nat = Some "TimeMS" ∧
  ∃ cand, stamp_formula self m "TimeMS" 0.001 = Ok cand ∧
          py_lt cand (DFReaderClock_usec.timestamp self) = Ok false.
Proof.
  unfold DFReaderClock_usec.should_use_msec_field0, stamp_formula.
  destruct (DFReaderClock_usec.type_has_good_TimeMS _); simpl;
    [|split; [done|by intros [[=] _]]].
  destruct (DFMessage._fieldnames m !! 0%nat) as [f0|]; simpl;
    [|split; [done|by intros (_ & [=] & _)]].
  destruct (String.eqb_spec "TimeMS" f0) as [<-|Hne]; simpl;
    [|split; [done|intros (_ & [= ->] & _); done]].
  destruct (DFMessage.__getattr__ m "TimeMS") as [v|]; simpl;
    [|split; [done|by intros (_ & _ & ? & [=] & _)]].
  destruct (py_mul v (PFloat 0.001)) as [d|]; simpl;
    [|split; [done|by intros (_ & _ & ? & [=] & _)]].
  destruct (py_add _ d) as [cand|]; simpl;
    [|split; [done|by intros (_ & _ & ? & [=] & _)]].
  split.
  - intros Hlt. repeat split. exists cand. split; [done|].
    destruct (py_lt cand _) as [[]|]; simplify_eq/=; done.
  - intros (_ & _ & c & [= <-] & ->). done.
Qed.






(** C2 fails as stated: a record with no column, stamped when the running
    latest stamp of the clock is 5.0, is stamped with the reader's
    [timestamp], 0, and the running latest stamp stays 5.0. *)
Lemma usec_no_column_stamp :
  let c := DFReaderClock_usec.mk (PInt 0) (PFloat 5) None in
  let self := usec_reader (H:=bare_externals) c in
  DFMessage._fieldnames bare0 = [] ∧
  DFReader._set_time (H:=bare_externals) (self, bare0) =
    ((self, DFMessage.with_timestamp bare0 (PInt 0)), Ok ()) ∧
  DFReader.clock self = Some (Clock_usec c) ∧
  DFReaderClock_usec.timestamp c = PFloat 5 ∧
  py_lt (PInt 0) (PFloat 5) = Ok true.
Proof. split_and!; vm_compute; reflexivity. Qed.







(** ** Units *)

Lemma set_instance_field_inv self idx self' :
  DFFormat.set_instance_field self idx = Ok self' →
  DFFormat.instance_field self' = DFFormat.columns self !! idx ∧
  is_Some (DFFormat.instance_field self') ∧
  DFFormat.columns self' = DFFormat.columns self.
Proof.
  unfold DFFormat.set_instance_field. intros Hs. ok_steps.
  subst self'. simpl. by rewrite H.
Qed.

(** C4, as the code has it.  The column at the position of ['#'] in the
    unit-id string becomes the instance field; in the scenario the
    instance field of [T] is ["Y"] and its units are [["cdeg"; ""]]: the
    id ['#'] is bound to no unit label, so column [Y] keeps the empty
    unit and no prefix is put before it. *)
Theorem unit_binding (E : Externals) :
  (∀ f ids lookup f',
     DFFormat.set_unit_ids f (PStr ids) lookup = Ok f' →
     find_char "#" ids ≠ -1 →
     DFFormat.instance_field f' =
       DFFormat.columns f !! Z.to_nat (find_char "#" ids) ∧
     is_Some (DFFormat.instance_field f')) ∧
  unit_binding_scenario = Ok (Some "Y", Some ["cdeg"; ""]).
Proof.
  split; [|vm_compute; reflexivity].
  intros f ids lookup f' Hs Hidx. unfold DFFormat.set_unit_ids in Hs.
  rewrite decide_True in Hs by done.
  apply bind_Ok in Hs as (f1 & Hf1 & [= <-]).
  apply set_instance_field_inv in Hf1 as (? & ? & ?). done.
Qed.

Lemma unit_binding_witness :
  let T := unwrap (DFFormat.init 200 "T" 11 "iI" "X,Y" None) in
  let T' := unwrap (DFFormat.set_unit_ids T (PStr "d#") ∅) in
  DFFormat.set_unit_ids T (PStr "d#") ∅ = Ok T' ∧
  find_char "#" "d#" ≠ -1 ∧
  DFFormat.instance_field T' = DFFormat.columns T !! Z.to_nat (find_char "#" "d#").
Proof.
  intros T T'.
  assert (DFFormat.set_unit_ids T (PStr "d#") ∅ = Ok T') as H1
    by (vm_compute; reflexivity).
  assert (find_char "#" "d#" ≠ -1) as H2 by (vm_compute; discriminate).
  split_and!; [exact H1|exact H2|].
  exact (proj1 (proj1 (unit_binding bare_externals) _ _ _ _ H1 H2)).
Defined.

(** C4 fails as stated: the units are not [["cdeg"; "cdeg"]]. *)
Lemma unit_binding_units_differ :
  snd <$> unit_binding_scenario (H:=bare_externals) ≠ Ok (Some ["cdeg"; "cdeg"]).
Proof. vm_compute. discriminate. Qed.


(** ** Resynchronisation *)

Lemma resync_cons h0 h1 h2 tl skip (self : DFReader_binary.t) :
  3 ≤ DFReader_binary.data_len self - DFReader_binary.offset self →
  DFReader_binary.resync (h0 :: h1 :: h2 :: tl) skip self =
    match DFReader_binary.resync_turn h0 h1 h2 skip self with
    | inr (self, msg_type) => (self, Some msg_type)
    | inl (self, skip) => DFReader_binary.resync (h1 :: h2 :: tl) skip self
    end.
Proof.
  intros Hlen.
  change (DFReader_binary.resync (h0 :: h1 :: h2 :: tl) skip self) with
    (if bool_decide (DFReader_binary.data_len self - DFReader_binary.offset self < 3)
     then (self, None)
     else match DFReader_binary.resync_turn h0 h1 h2 skip self with
          | inr (self, msg_type) => (self, Some msg_type)
          | inl (self, skip) => DFReader_binary.resync (h1 :: h2 :: tl) skip self
          end).
  by rewrite bool_decide_false by lia.
Qed.

Lemma resync_found h0 h1 h2 tl skip (self : DFReader_binary.t) :
  3 ≤ DFReader_binary.data_len self - DFReader_binary.offset self →
  bz h0 = DFReader_binary.HEAD1 → bz h1 = DFReader_binary.HEAD2 →
  is_Some (DFReader_binary.formats self !! bz h2) →
  DFReader_binary.resync (h0 :: h1 :: h2 :: tl) skip self =
    (DFReader_binary.set_prev_type (Some (bz h2))
       match skip with
       | Some (ty, start) =>
           if bool_decide (528 ≤ DFReader_binary.remaining self)
           then DFReader_binary.emit
                  (DFReader_binary.Skipped (DFReader_binary.offset self - start)
                     start ty (DFReader_binary.prev_type self)) self
           else self
       | None => self
       end, Some (bz h2)).
Proof.
  intros Hlen H0 H1 Hfmt. rewrite resync_cons by done.
  unfold DFReader_binary.resync_turn.
  rewrite (bool_decide_true (bz h0 = _)), (bool_decide_true (bz h1 = _)) by done.
  cbn [andb].
  destruct skip as [[ty start]|];
    [destruct (bool_decide (528 ≤ DFReader_binary.remaining self))|]; simpl;
    by rewrite bool_decide_true.
Qed.








(** ** Steps that keep a property of the state *)

Lemma se_keeps_bind {S A B} (P : S → Prop) (m : SE S A) (k : A → SE S B) :
  se_keeps P m → (∀ a, se_keeps P (k a)) → se_keeps P (m ≫= k).
Proof.
  intros Hm Hk s Hs. unfold mbind, SE_bind. specialize (Hm s Hs).
  destruct (m s) as [s' [a|e]]; simpl in *; [by apply Hk|done].
Qed.

Lemma se_keeps_ret {S A} (P : S → Prop) (a : A) : se_keeps P (mret a).
Proof. by intros s Hs. Qed.

Lemma se_keeps_get {S} (P : S → Prop) : se_keeps P se_get.
Proof. by intros s Hs. Qed.

Lemma se_keeps_lift {S A} (P : S → Prop) (r : result A) : se_keeps P (se_lift r).
Proof. by intros s Hs. Qed.

Lemma se_keeps_when {S} (P : S → Prop) b (m : SE S unit) :
  se_keeps P m → se_keeps P (se_when b m).
Proof. destruct b; [done|]. intros _. apply se_keeps_ret. Qed.

Lemma se_keeps_on_reader {A} (P : A → Prop) f :
  se_keeps (λ s : DFReader.t * A, P s.2) (DFReader.on_reader f).
Proof. by intros s Hs. Qed.

Ltac se_keeps_step :=
  match goal with
  | |- se_keeps _ (_ ≫= _) => apply se_keeps_bind; [|intros ?]
  | |- se_keeps _ (mret _) => apply se_keeps_ret
  | |- se_keeps _ se_get => apply se_keeps_get
  | |- se_keeps _ (se_lift _) => apply se_keeps_lift
  | |- se_keeps _ (DFReader.on_reader _) => apply se_keeps_on_reader
  | |- se_keeps _ (se_when _ _) => apply se_keeps_when
  | |- se_keeps _ (if ?b then _ else _) => destruct b
  | |- se_keeps _ (match ?x with _ => _ end) => destruct x
  end.

Lemma se_keeps_on_reader_base {A} (P : DFReader.t → Prop) f :
  (∀ r, P r → P (f r)) →
  se_keeps (λ s : DFReader.t * A, P s.1) (DFReader.on_reader f).
Proof. intros Hf s Hs. by apply Hf. Qed.

Lemma add_msg_steps_flightmodes (E : Externals) x :
  se_keeps (λ s : DFReader.t * DFMessage.t, DFReader._flightmodes s.1 = x)
    DFReader._add_msg_steps.
Proof.
  unfold DFReader._add_msg_steps.
  apply se_keeps_bind; [apply se_keeps_get|]. intros s. cbn zeta.
  repeat first
    [ apply (se_keeps_on_reader_base (λ r, DFReader._flightmodes r = x));
      by intros r Hr
    | se_keeps_step
    | by intros [self m] Hs; simpl; destruct (DFReader.clock self)
    | by intros [self m] Hs; unfold DFReader._set_time; simpl;
      repeat case_match ].
Qed.

Lemma add_msg_flightmodes (E : Externals) self m :
  DFReader._flightmodes (DFReader._add_msg self m).1.1 = DFReader._flightmodes self.
Proof.
  unfold DFReader._add_msg. simpl.
  apply (add_msg_steps_flightmodes E (DFReader._flightmodes self) (self, m)).
  reflexivity.
Qed.

(** ** The type filter of [skip_to_type] *)

Lemma binary_frame_refl self : binary_frame self self.
Proof. by repeat split. Qed.

Lemma binary_frame_trans a b c :
  binary_frame a b → binary_frame b c → binary_frame a c.
Proof.
  unfold binary_frame. intros (?&?&?&?&?&?&?) (?&?&?&?&?&?&?).
  split_and!; congruence.
Qed.

Lemma resync_turn_frame h0 h1 h2 skip (self : DFReader_binary.t) :
  match DFReader_binary.resync_turn h0 h1 h2 skip self with
  | inl (self', _) | inr (self', _) => binary_frame self self'
  end.
Proof.
  unfold DFReader_binary.resync_turn.
  repeat case_match; simplify_eq; by repeat split.
Qed.

Lemma resync_frame suffix : ∀ skip (self : DFReader_binary.t),
  binary_frame self (DFReader_binary.resync suffix skip self).1.
Proof.
  induction suffix as [|h0 rest IH]; intros skip self.
  - unfold DFReader_binary.resync. case_bool_decide; apply binary_frame_refl.
  - destruct rest as [|h1 [|h2 tl]];
      try (unfold DFReader_binary.resync; case_bool_decide; apply binary_frame_refl).
    change (DFReader_binary.resync (h0 :: h1 :: h2 :: tl) skip self) with
      (if bool_decide (DFReader_binary.data_len self - DFReader_binary.offset self < 3)
       then (self, None)
       else match DFReader_binary.resync_turn h0 h1 h2 skip self with
            | inr (self, msg_type) => (self, Some msg_type)
            | inl (self, skip) => DFReader_binary.resync (h1 :: h2 :: tl) skip self
            end).
    case_bool_decide; [apply binary_frame_refl|].
    pose proof (resync_turn_frame h0 h1 h2 skip self) as Hturn.
    destruct (DFReader_binary.resync_turn h0 h1 h2 skip self)
      as [[self1 skip1]|[self1 ty]]; [|done].
    eapply binary_frame_trans; [done|apply IH].
Qed.

Lemma transform_arrays_frame fmt (self : DFReader_binary.t) elements :
  binary_frame self (DFReader_binary.transform_arrays fmt self elements).1.
Proof.
  unfold DFReader_binary.transform_arrays.
  generalize (DFFormat.a_indexes fmt). intros l. revert self elements.
  induction l as [|a l IH]; intros self elements; [apply binary_frame_refl|].
  simpl. case_match.
  - apply IH.
  - eapply binary_frame_trans; [|apply IH]. by repeat split.
Qed.

Lemma binary_apply_FMTU_frame (E : Externals) self elements self' :
  DFReader_binary.apply_FMTU self elements = Ok self' → binary_frame self self'.
Proof.
  unfold DFReader_binary.apply_FMTU. intros Hs. ok_steps.
  case_match; ok_steps; simplify_eq; by repeat split.
Qed.

Lemma binary_parse_next_frame (E : Externals) fuel : ∀ self self' m,
  DFReader_binary._parse_next_fuel fuel self = Ok (self', m) →
  binary_frame self self'.
Proof.
  induction fuel as [|fuel IH]; intros self self' m Hp; [done|].
  cbn [DFReader_binary._parse_next_fuel] in Hp.
  pose proof (resync_frame
    (drop (Z.to_nat (DFReader_binary.offset self)) (DFReader_binary.data_map self))
    None self) as Hr.
  destruct (DFReader_binary.resync _ None self) as [self1 [ty|]]; simpl in Hr;
    cbn [fst snd] in Hp; [|by simplify_eq].
  apply bind_Ok in Hp as (fmt & _ & Hp).
  case_bool_decide.
  { injection Hp as <- <-. eapply binary_frame_trans; [done|].
    case_match; by repeat split. }
  destruct (struct_unpack _ _) as [elements|].
  2: { case_bool_decide.
       - injection Hp as <- <-. eapply binary_frame_trans; [done|]. by repeat split.
       - apply IH in Hp. eapply binary_frame_trans; [done|].
         eapply binary_frame_trans; [|done]. by repeat split. }
  cbn zeta in Hp.
  match type of Hp with
  | context [DFReader_binary.transform_arrays ?f ?s ?e] =>
      pose proof (transform_arrays_frame f s e) as Ht;
      destruct (DFReader_binary.transform_arrays f s e) as [self2 elements2]
  end.
  cbn [fst snd] in Hp, Ht.
  assert (binary_frame self self2) as Hs2.
  { eapply binary_frame_trans; [done|].
    eapply binary_frame_trans; [|done]. by repeat split. }
  clear Ht Hr.
  match type of Hp with
  | match ?reg with _ => _ end = _ =>
      assert (∀ s3, reg = Some s3 → binary_frame self s3) as Hreg;
      [|destruct reg as [self3|]]
  end.
  { intros s3 Hs3. repeat case_match; by simplify_eq. }
  2: { apply IH in Hp. eapply binary_frame_trans; [exact Hs2|exact Hp]. }
  specialize (Hreg _ eq_refl).
  apply bind_Ok in Hp as (self4 & H4 & Hp).
  assert (binary_frame self self4) as Hs4.
  { cbn [DFMessage.fmt] in H4. destruct (String.eqb _ _) in H4; simplify_eq.
    - apply binary_apply_FMTU_frame in H4.
      eapply binary_frame_trans; [done|].
      eapply binary_frame_trans; [|done]. by repeat split.
    - eapply binary_frame_trans; [done|]. by repeat split. }
  apply bind_Ok in Hp as (pc & _ & [= <- <-]).
  eapply binary_frame_trans; [done|].
  match goal with
  | |- binary_frame _ (DFReader_binary.set_base _ ?X) =>
      apply (binary_frame_trans _ X); [|by repeat split]
  end.
  match goal with
  | |- binary_frame _ (match ?r with _ => _ end) => destruct r
  end; split_and!; try done; apply add_msg_flightmodes.
Qed.

Lemma text_frame_refl self : text_frame self self.
Proof. by repeat split. Qed.

Lemma text_frame_trans a b c :
  text_frame a b → text_frame b c → text_frame a c.
Proof.
  unfold text_frame. intros (?&?&?&?&?&?) (?&?&?&?&?&?).
  split_and!; congruence.
Qed.

Lemma next_line_frame fuel : ∀ self self' r,
  DFReader_text.next_line fuel self = Ok (self', r) → text_frame self self'.
Proof.
  induction fuel as [|fuel IH]; intros self self' r Hn; [done|].
  simpl in Hn.
  destruct (_ && _); [injection Hn as <- <-; apply text_frame_refl|].
  apply bind_Ok in Hn as (s & _ & Hn).
  case_bool_decide.
  - injection Hn as <- <-. by repeat split.
  - apply IH in Hn. eapply text_frame_trans; [|done]. by repeat split.
Qed.

Lemma text_apply_FMTU_frame (E : Externals) m self self' :
  DFReader_text.apply_FMTU m self = Ok self' → text_frame self self'.
Proof.
  unfold DFReader_text.apply_FMTU. intros Hs. ok_steps.
  case_match; ok_steps; simplify_eq; by repeat split.
Qed.

Lemma text_apply_UNIT_frame (E : Externals) m self self' :
  DFReader_text.apply_UNIT m self = Ok self' → text_frame self self'.
Proof.
  unfold DFReader_text.apply_UNIT. intros Hs. ok_steps.
  simplify_eq. by repeat split.
Qed.

Lemma text_apply_MULT_frame (E : Externals) m self self' :
  DFReader_text.apply_MULT m self = Ok self' → text_frame self self'.
Proof.
  unfold DFReader_text.apply_MULT. intros Hs. ok_steps.
  simplify_eq. by repeat split.
Qed.

Lemma text_parse_next_frame (E : Externals) fuel : ∀ self self' m,
  DFReader_text._parse_next_fuel fuel self = Ok (self', m) →
  text_frame self self'.
Proof.
  induction fuel as [|fuel IH]; intros self self' m Hp; [done|].
  cbn [DFReader_text._parse_next_fuel] in Hp.
  apply bind_Ok in Hp as ([self1 r] & Hl & Hp).
  apply next_line_frame in Hl. cbn [fst snd] in Hp.
  destruct r as [elements|]; [|by simplify_eq].
  case_bool_decide; [by simplify_eq|].
  cbn zeta in Hp.
  apply bind_Ok in Hp as (pc & _ & Hp).
  apply bind_Ok in Hp as (msg_type & _ & Hp).
  assert (text_frame self
            (DFReader_text.set_base
               (DFReader.set_percent pc (DFReader_text.base self1)) self1)) as Hs1.
  { eapply text_frame_trans; [done|]. by repeat split. }
  cbn [DFReader_text.formats DFReader_text.set_base] in Hp.
  destruct (DFReader_text.formats self1 !! msg_type) as [fmt|];
    [|apply IH in Hp; by eapply text_frame_trans].
  case_bool_decide; [apply IH in Hp; by eapply text_frame_trans|].
  apply bind_Ok in Hp as ([self2 els] & H2 & Hp).
  assert (text_frame self self2) as Hs2.
  { destruct (String.eqb _ "FMT") in H2; ok_steps; simplify_eq; [|done].
    eapply text_frame_trans; [done|]. by repeat split. }
  cbn [fst snd] in Hp.
  apply bind_Ok in Hp as (self3 & H3 & Hp).
  assert (text_frame self2 self3) as Hs3.
  { destruct (String.eqb _ "FMTU") in H3;
      [by eapply text_apply_FMTU_frame|injection H3 as <-; apply text_frame_refl]. }
  apply bind_Ok in Hp as (self4 & H4 & Hp).
  assert (text_frame self3 self4) as Hs4.
  { destruct (String.eqb _ "UNIT") in H4;
      [by eapply text_apply_UNIT_frame|injection H4 as <-; apply text_frame_refl]. }
  apply bind_Ok in Hp as (self5 & H5 & Hp).
  assert (text_frame self4 self5) as Hs5.
  { destruct (String.eqb _ "MULT") in H5;
      [by eapply text_apply_MULT_frame|injection H5 as <-; apply text_frame_refl]. }
  apply bind_Ok in Hp as (u & _ & [= <- <-]).
  do 4 (eapply text_frame_trans; [done|]).
  split_and!; try done; apply add_msg_flightmodes.
Qed.

Lemma binary_skip_to_type_type_nums type strict (self self' : DFReader_binary.t) :
  DFReader_binary.skip_to_type type strict self = Ok self' →
  DFReader_binary.type_nums self' =
    match DFReader_binary.type_nums self with
    | Some nums => Some nums
    | None =>
        Some (omap (λ t, DFReader_binary.name_to_id self !! t)
                (elements (if strict then type
                           else type ∪ DFReader_binary.key_types)))
    end.
Proof.
  unfold DFReader_binary.skip_to_type. intros Hs.
  apply bind_Ok in Hs as (a & _ & Hs).
  destruct (DFReader_binary.type_nums self) as [nums|] eqn:Hn;
    case_bool_decide; ok_steps; by simplify_eq.
Qed.

Lemma binary_skip_to_type_stored type strict type' strict'
    (self : DFReader_binary.t) nums :
  DFReader_binary.type_nums self = Some nums →
  DFReader_binary.skip_to_type type strict self =
  DFReader_binary.skip_to_type type' strict' self.
Proof. unfold DFReader_binary.skip_to_type. by intros ->. Qed.

Lemma text_skip_to_type_type_list type strict (self self' : DFReader_text.t) :
  DFReader_text.skip_to_type type strict self = Ok self' →
  DFReader_text.type_list self' =
    match DFReader_text.type_list self with
    | Some types => Some types
    | None =>
        Some (elements (if strict then type
                        else type ∪ DFReader_binary.key_types))
    end.
Proof.
  unfold DFReader_text.skip_to_type. intros Hs.
  apply bind_Ok in Hs as (a & _ & Hs).
  destruct (DFReader_text.type_list self) as [types|] eqn:Hn;
    case_bool_decide; ok_steps; by simplify_eq.
Qed.

Lemma text_skip_to_type_stored type strict type' strict'
    (self : DFReader_text.t) types :
  DFReader_text.type_list self = Some types →
  DFReader_text.skip_to_type type strict self =
  DFReader_text.skip_to_type type' strict' self.
Proof. unfold DFReader_text.skip_to_type. by intros ->. Qed.

Lemma binary_session_stored (E : Externals) calls calls' :
  Forall2 same_method calls calls' →
  ∀ (self : DFReader_binary.t) nums,
    DFReader_binary.type_nums self = Some nums →
    binary_session calls self = binary_session calls' self ∧
    ∀ self' ms, binary_session calls self = Ok (self', ms) →
      DFReader_binary.type_nums self' = Some nums.
Proof.
  induction 1 as [|c c' calls calls' Hc _ IH]; intros self nums Hn.
  { split; [done|]. by intros self' ms [= <- <-]. }
  destruct c as [type strict|], c' as [type' strict'|]; try done; simpl.
  - rewrite (binary_skip_to_type_stored type strict type' strict' self nums Hn).
    destruct (DFReader_binary.skip_to_type type' strict' self) as [self1|e] eqn:Hs;
      simpl; [|done].
    apply binary_skip_to_type_type_nums in Hs. rewrite Hn in Hs.
    apply (IH _ _ Hs).
  - destruct (DFReader_binary.recv_msg self) as [[self1 m]|e] eqn:Hr; simpl; [|done].
    apply binary_parse_next_frame in Hr as (_ & Hr & _). rewrite Hn in Hr.
    destruct (IH _ _ Hr) as [-> IH2]. split; [done|].
    intros self' ms Hq. ok_steps. destruct x. simplify_eq. by eapply IH2.
Qed.

Lemma text_session_stored (E : Externals) calls calls' :
  Forall2 same_method calls calls' →
  ∀ (self : DFReader_text.t) types,
    DFReader_text.type_list self = Some types →
    text_session calls self = text_session calls' self ∧
    ∀ self' ms, text_session calls self = Ok (self', ms) →
      DFReader_text.type_list self' = Some types.
Proof.
  induction 1 as [|c c' calls calls' Hc _ IH]; intros self types Hn.
  { split; [done|]. by intros self' ms [= <- <-]. }
  destruct c as [type strict|], c' as [type' strict'|]; try done; simpl.
  - rewrite (text_skip_to_type_stored type strict type' strict' self types Hn).
    destruct (DFReader_text.skip_to_type type' strict' self) as [self1|e] eqn:Hs;
      simpl; [|done].
    apply text_skip_to_type_type_list in Hs. rewrite Hn in Hs.
    apply (IH _ _ Hs).
  - destruct (DFReader_text.recv_msg self) as [[self1 m]|e] eqn:Hr; simpl; [|done].
    apply text_parse_next_frame in Hr as (_ & Hr & _). rewrite Hn in Hr.
    destruct (IH _ _ Hr) as [-> IH2]. split; [done|].
    intros self' ms Hq. ok_steps. destruct x. simplify_eq. by eapply IH2.
Qed.

(** C9.  In a binary and in a text reader, a [skip_to_type] call that
    finds no stored filter stores the type set it is given, joined with
    MODE, MSG, PARM, STAT, ORGN and VER unless [strict] (the binary reader
    stores the numbers of those of its names that the log declares); once
    a filter is stored, any sequence of [skip_to_type] and [recv_msg]
    calls gives the same reader and messages whatever type sets and
    [strict] flags the [skip_to_type] calls are passed, and leaves the
    stored filter as it was; [_rewind] clears the stored filter. *)
Theorem skip_to_type_filter_fixed (E : Externals) :
  (∀ type strict (self self' : DFReader_binary.t),
     DFReader_binary.type_nums self = None →
     DFReader_binary.skip_to_type type strict self = Ok self' →
     DFReader_binary.type_nums self' =
       Some (omap (λ t, DFReader_binary.name_to_id self !! t)
               (elements (if strict then type
                          else type ∪ {["MODE"; "MSG"; "PARM"; "STAT"; "ORGN"; "VER"]})))) ∧
  (∀ calls calls' (self : DFReader_binary.t) nums,
     DFReader_binary.type_nums self = Some nums →
     Forall2 same_method calls calls' →
     binary_session calls self = binary_session calls' self ∧
     ∀ self' ms, binary_session calls self = Ok (self', ms) →
       DFReader_binary.type_nums self' = Some nums) ∧
  (∀ keep_messages (self self' : DFReader_binary.t),
     DFReader_binary._rewind keep_messages self = Ok self' →
     DFReader_binary.type_nums self' = None) ∧
  (∀ type strict (self self' : DFReader_text.t),
     DFReader_text.type_list self = None →
     DFReader_text.skip_to_type type strict self = Ok self' →
     DFReader_text.type_list self' =
       Some (elements (if strict then type
                       else type ∪ {["MODE"; "MSG"; "PARM"; "STAT"; "ORGN"; "VER"]}))) ∧
  (∀ calls calls' (self : DFReader_text.t) types,
     DFReader_text.type_list self = Some types →
     Forall2 same_method calls calls' →
     text_session calls self = text_session calls' self ∧
     ∀ self' ms, text_session calls self = Ok (self', ms) →
       DFReader_text.type_list self' = Some types) ∧
  (∀ keep_messages (self self' : DFReader_text.t),
     DFReader_text._rewind keep_messages self = Ok self' →
     DFReader_text.type_list self' = None).
Proof.
  assert (DFReader_binary.key_types
          = {["MODE"; "MSG"; "PARM"; "STAT"; "ORGN"; "VER"]}) as Hk.
  { unfold DFReader_binary.key_types. simpl. set_solver. }
  split_and!.
  - intros type strict self self' Hn Hs.
    apply binary_skip_to_type_type_nums in Hs. rewrite Hn, Hk in Hs. exact Hs.
  - intros calls calls' self nums Hn Hc. by apply binary_session_stored.
  - intros k self self' Hr. unfold DFReader_binary._rewind in Hr.
    ok_steps. by simplify_eq.
  - intros type strict self self' Hn Hs.
    apply text_skip_to_type_type_list in Hs. rewrite Hn, Hk in Hs. exact Hs.
  - intros calls calls' self types Hn Hc. by apply text_session_stored.
  - intros k self self' Hr. unfold DFReader_text._rewind in Hr.
    ok_steps. by simplify_eq.
Qed.

Lemma skip_to_type_filter_fixed_witness :
  match DFReader_binary.skip_to_type {["FMT"]} true
          (indexed_reader (H:=bare_externals)) with
  | Ok r =>
      DFReader_binary.type_nums r = Some [128] ∧
      binary_session (H:=bare_externals)
        [Call_skip_to_type {["FMT"]} true; Call_recv_msg] r =
      binary_session (H:=bare_externals)
        [Call_skip_to_type {["ATT"]} false; Call_recv_msg] r
  | Raise _ => False
  end.
Proof.
  destruct (DFReader_binary.skip_to_type {["FMT"]} true
              (indexed_reader (H:=bare_externals)))
    as [r|e] eqn:Hs; [|by vm_compute in Hs].
  pose proof (proj1 (skip_to_type_filter_fixed bare_externals)
                {["FMT"]} true (indexed_reader (H:=bare_externals)) r
                eq_refl Hs) as Hn.
  change (DFReader_binary.type_nums r = Some [128]) in Hn.
  split; [exact Hn|].
  apply (proj1 (proj2 (skip_to_type_filter_fixed bare_externals)) _ _ r [128] Hn).
  repeat constructor.
Defined.

(** ** The multiplier flag *)

Lemma same_record_refl m : same_record m m.
Proof. by repeat split. Qed.

Lemma same_record_trans a b c : same_record a b → same_record b c → same_record a c.
Proof. unfold same_record. intros (?&?&?) (?&?&?). split_and!; congruence. Qed.

Lemma same_record_with_timestamp m ts :
  same_record m (DFMessage.with_timestamp m ts).
Proof. by repeat split. Qed.

Lemma clock_set_message_timestamp_same (E : Externals) c m c' m' :
  clock_set_message_timestamp c m = Ok (c', m') → same_record m m'.
Proof.
  destruct c as [c|c|c|c]; simpl; intros Hs;
    apply fmap_Ok in Hs as ([c1 m1] & Hs & [= -> ->]); simpl.
  - unfold DFReaderClock_usec.set_message_timestamp in Hs.
    apply bind_Ok in Hs as (f0 & _ & Hs). apply bind_Ok in Hs as (st & _ & Hs).
    injection Hs as <- <-. apply same_record_with_timestamp.
  - unfold DFReaderClock_msec.set_message_timestamp in Hs.
    apply bind_Ok in Hs as (f0 & _ & Hs). apply bind_Ok in Hs as (st & _ & Hs).
    injection Hs as <- <-. apply same_record_with_timestamp.
  - unfold DFReaderClock_px4.set_message_timestamp in Hs.
    apply bind_Ok in Hs as (st & _ & Hs).
    injection Hs as <- <-. apply same_record_with_timestamp.
  - unfold DFReaderClock_gps_interpolated.set_message_timestamp in Hs.
    apply bind_Ok in Hs as (z & _ & Hs). apply bind_Ok in Hs as (d & _ & Hs).
    apply bind_Ok in Hs as (st & _ & Hs).
    injection Hs as <- <-. apply same_record_with_timestamp.
Qed.

Lemma set_time_same (E : Externals) m0 :
  se_keeps (λ s : DFReader.t * DFMessage.t, same_record m0 s.2) DFReader._set_time.
Proof.
  intros [self m] Hs. unfold DFReader._set_time. simpl in *.
  pose proof (same_record_with_timestamp m (DFReader.timestamp self)) as Hw.
  destruct (DFMessage._fieldnames _); [by eapply same_record_trans|].
  destruct (DFReader.clock self) as [c|]; [|by eapply same_record_trans].
  destruct (clock_set_message_timestamp c _) as [[c' m']|e] eqn:Hc; simpl;
    [|by eapply same_record_trans].
  apply clock_set_message_timestamp_same in Hc.
  eapply same_record_trans; [done|]. by eapply same_record_trans.
Qed.

Lemma add_msg_steps_same (E : Externals) m0 :
  se_keeps (λ s : DFReader.t * DFMessage.t, same_record m0 s.2)
    DFReader._add_msg_steps.
Proof.
  unfold DFReader._add_msg_steps.
  apply se_keeps_bind; [apply se_keeps_get|]. intros s. cbn zeta.
  repeat first
    [ apply set_time_same
    | se_keeps_step
    | by intros [self m] Hs; simpl; destruct (DFReader.clock self) ].
Qed.

Lemma add_msg_same (E : Externals) self m :
  same_record m (DFReader._add_msg self m).1.2.
Proof.
  unfold DFReader._add_msg. simpl.
  apply (add_msg_steps_same E m (self, m)). apply same_record_refl.
Qed.

Lemma binary_parse_next_record (E : Externals) fuel : ∀ self self' m,
  DFReader_binary._parse_next_fuel fuel self = Ok (self', Some m) →
  ∃ fmt elements, same_record (DFMessage.mk fmt elements true None) m.
Proof.
  induction fuel as [|fuel IH]; intros self self' m Hp; [done|].
  cbn [DFReader_binary._parse_next_fuel] in Hp. cbn zeta in Hp.
  destruct (DFReader_binary.resync _ None self) as [self1 [ty|]];
    cbn [fst snd] in Hp; [|by simplify_eq].
  apply bind_Ok in Hp as (fmt & _ & Hp).
  case_bool_decide; [by simplify_eq|].
  destruct (struct_unpack _ _) as [elements|].
  2: { case_bool_decide; [by simplify_eq|by apply IH in Hp]. }
  cbn zeta in Hp.
  match type of Hp with
  | context [DFReader_binary.transform_arrays ?f ?s ?e] =>
      destruct (DFReader_binary.transform_arrays f s e) as [self2 elements2]
  end.
  cbn [fst snd] in Hp.
  match type of Hp with
  | match ?reg with _ => _ end = _ => destruct reg as [self3|]
  end; [|by apply IH in Hp].
  apply bind_Ok in Hp as (self4 & _ & Hp).
  apply bind_Ok in Hp as (pc & _ & [= _ <-]).
  eexists _, _. apply add_msg_same.
Qed.

Lemma text_parse_next_record (E : Externals) fuel : ∀ self self' m,
  DFReader_text._parse_next_fuel fuel self = Ok (self', Some m) →
  ∃ fmt elements, same_record (DFMessage.mk fmt (PStr <$> elements) false None) m.
Proof.
  induction fuel as [|fuel IH]; intros self self' m Hp; [done|].
  cbn [DFReader_text._parse_next_fuel] in Hp.
  apply bind_Ok in Hp as ([self1 r] & _ & Hp). cbn [fst snd] in Hp.
  destruct r as [elements|]; [|by simplify_eq].
  case_bool_decide; [by simplify_eq|].
  cbn zeta in Hp.
  apply bind_Ok in Hp as (pc & _ & Hp).
  apply bind_Ok in Hp as (msg_type & _ & Hp).
  cbn [DFReader_text.formats DFReader_text.set_base] in Hp.
  destruct (DFReader_text.formats self1 !! msg_type) as [fmt|];
    [|by apply IH in Hp].
  case_bool_decide; [by apply IH in Hp|].
  apply bind_Ok in Hp as ([self2 els] & _ & Hp).
  cbn [fst snd] in Hp.
  apply bind_Ok in Hp as (self3 & _ & Hp).
  apply bind_Ok in Hp as (self4 & _ & Hp).
  apply bind_Ok in Hp as (self5 & _ & Hp).
  apply bind_Ok in Hp as (u & _ & [= _ <-]).
  eexists _, _. apply add_msg_same.
Qed.

Lemma mapM_result_lookup {A B} (f : A → result B) l : ∀ k i a,
  mapM f l = Ok k → l !! i = Some a → ∃ b, f a = Ok b ∧ k !! i = Some b.
Proof.
  induction l as [|x l IH]; intros k i a Hm Hl; [done|].
  simpl in Hm. apply bind_Ok in Hm as (y & Hy & Hm).
  apply bind_Ok in Hm as (k' & Hk & [= <-]).
  destruct i as [|i]; simpl in *.
  - injection Hl as ->. by exists y.
  - by apply (IH k').
Qed.

Lemma FORMAT_TO_STRUCT_scalar c e :
  FORMAT_TO_STRUCT c = Some e → e.1.2 = scalar_of_char c.
Proof.
  destruct c as [[] [] [] [] [] [] [] []]; vm_compute; intros [= <-]; reflexivity.
Qed.

Lemma set_instance_field_mults self idx self' :
  DFFormat.set_instance_field self idx = Ok self' →
  DFFormat.msg_mults self' = DFFormat.msg_mults self ∧
  DFFormat.msg_fmts self' = DFFormat.msg_fmts self.
Proof.
  unfold DFFormat.set_instance_field. intros Hs. ok_steps. by simplify_eq.
Qed.

Lemma init_msg_mults type name flen format columns oldfmt fmt i c :
  DFFormat.init type name flen format columns oldfmt = Ok fmt →
  DFFormat.msg_fmts fmt !! i = Some c →
  DFFormat.msg_mults fmt !! i = Some (scalar_of_char c).
Proof.
  unfold DFFormat.init. intros Hi Hc.
  apply bind_Ok in Hi as (tbl & Ht & Hi).
  assert (∀ c, list_ascii_of_string format !! i = Some c →
               (snd ∘ fst <$> tbl) !! i = Some (scalar_of_char c)) as Hm.
  { intros c' Hc'.
    destruct (mapM_result_lookup _ _ _ _ _ Ht Hc') as (e & He & Hl).
    apply of_option_Ok, FORMAT_TO_STRUCT_scalar in He.
    rewrite list_lookup_fmap, Hl. simpl. by rewrite He. }
  destruct oldfmt as [old|]; [|injection Hi as <-; by apply Hm].
  destruct (DFFormat.instance_field old) as [f|];
    [|injection Hi as <-; by apply Hm].
  apply bind_Ok in Hi as (idx & _ & Hi).
  apply set_instance_field_mults in Hi as [Hi1 Hi2].
  rewrite Hi1. rewrite Hi2 in Hc. by apply Hm.
Qed.

Lemma getattr_unscaled (E : Externals) m field i mu :
  DFFormat.colhash (DFMessage.fmt m) !! field = Some i →
  DFFormat.msg_mults (DFMessage.fmt m) !! i = Some (Some mu) →
  DFMessage._apply_multiplier m = false →
  DFMessage.__getattr__ m field = DFMessage.__getattr__ (without_mults m) field.
Proof.
  intros Hi Hmu Hf. unfold DFMessage.__getattr__, without_mults.
  cbn [DFMessage.fmt DFMessage._elements DFMessage._apply_multiplier
       DFFormat.colhash DFFormat.msg_fmts DFFormat.name DFFormat.msg_types
       DFFormat.msg_mults].
  rewrite Hf, !Hi. simpl. rewrite list_lookup_fmap, Hmu. simpl.
  destruct (DFFormat.msg_fmts _ !! i) as [c|]; [simpl|done].
  destruct (DFMessage._elements m !! i) as [e|]; [simpl|done].
  destruct (_ && _); [done|].
  destruct (DFFormat.msg_types _ !! i) as [ty|]; [simpl|done].
  match goal with |- ?a ≫= _ = _ => destruct a as [v|]; [simpl|done] end.
  match goal with |- ?a ≫= _ = _ => by destruct a end.
Qed.

Lemma getattr_scaled (E : Externals) m field i mu :
  DFFormat.colhash (DFMessage.fmt m) !! field = Some i →
  DFFormat.msg_mults (DFMessage.fmt m) !! i = Some (Some mu) →
  DFMessage._apply_multiplier m = true →
  ¬ is_FILE_contents m i →
  DFMessage.__getattr__ m field =
  DFMessage.__getattr__ (without_mults m) field ≫= scaled_by mu.
Proof.
  intros Hi Hmu Hf HF. unfold DFMessage.__getattr__, without_mults.
  cbn [DFMessage.fmt DFMessage._elements DFMessage._apply_multiplier
       DFFormat.colhash DFFormat.msg_fmts DFFormat.name DFFormat.msg_types
       DFFormat.msg_mults].
  rewrite Hf, !Hi. simpl. rewrite list_lookup_fmap, Hmu. simpl.
  unfold is_FILE_contents in HF.
  destruct (DFFormat.msg_fmts _ !! i) as [c|]; [simpl|done].
  destruct (DFMessage._elements m !! i) as [e|]; [simpl|done].
  destruct (Ascii.eqb c "Z") eqn:Hc; simpl.
  { apply Ascii.eqb_eq in Hc as ->.
    destruct (String.eqb _ "FILE") eqn:Hn; [|clear HF].
    { apply String.eqb_eq in Hn. by destruct HF. }
    destruct (DFFormat.msg_types _ !! i) as [ty|]; [simpl|done].
    match goal with |- ?a ≫= _ = _ => destruct a as [v|]; [simpl|done] end.
    match goal with |- ?a ≫= _ = _ => by destruct a end. }
  clear HF.
  destruct (DFFormat.msg_types _ !! i) as [ty|]; [simpl|done].
  match goal with |- ?a ≫= _ = _ => destruct a as [v|]; [simpl|done] end.
  match goal with |- ?a ≫= _ = _ => by destruct a end.
Qed.

(** C10.  A record returned by the text parser carries the
    apply-multiplier flag false, one returned by the binary parser carries
    it true.  A format built by [DFFormat] gives a field the multiplier of
    its format character: 0.01 for c, C, e and E, 1e-7 for L, none for the
    others.  On a field whose multiplier is [mu], access to a record with
    the flag false returns what access returns when the format has no
    multiplier at all, the stored value as converted; access to a record
    with the flag true returns that value scaled by [mu] (the contents of
    a FILE record apart, which have no multiplier in a format built by
    [DFFormat]). *)
Theorem multiplier_flag_by_parser (E : Externals) :
  (∀ fuel self self' m,
     DFReader_text._parse_next_fuel fuel self = Ok (self', Some m) →
     DFMessage._apply_multiplier m = false) ∧
  (∀ fuel self self' m,
     DFReader_binary._parse_next_fuel fuel self = Ok (self', Some m) →
     DFMessage._apply_multiplier m = true) ∧
  (∀ type name flen format columns oldfmt fmt i c,
     DFFormat.init type name flen format columns oldfmt = Ok fmt →
     DFFormat.msg_fmts fmt !! i = Some c →
     DFFormat.msg_mults fmt !! i = Some (scalar_of_char c)) ∧
  (∀ m field i mu,
     DFFormat.colhash (DFMessage.fmt m) !! field = Some i →
     DFFormat.msg_mults (DFMessage.fmt m) !! i = Some (Some mu) →
     (DFMessage._apply_multiplier m = false →
      DFMessage.__getattr__ m field =
      DFMessage.__getattr__ (without_mults m) field) ∧
     (DFMessage._apply_multiplier m = true →
      ¬ is_FILE_contents m i →
      DFMessage.__getattr__ m field =
      DFMessage.__getattr__ (without_mults m) field ≫= scaled_by mu)).
Proof.
  split_and!.
  - intros fuel self self' m Hp.
    apply text_parse_next_record in Hp as (fmt & els & _ & _ & Hf). by rewrite Hf.
  - intros fuel self self' m Hp.
    apply binary_parse_next_record in Hp as (fmt & els & _ & _ & Hf). by rewrite Hf.
  - intros. by eapply init_msg_mults.
  - intros m field i mu Hi Hmu. split.
    + by apply (getattr_unscaled E m field i mu).
    + by apply (getattr_scaled E m field i mu).
Qed.

Lemma multiplier_flag_by_parser_witness :
  DFMessage.__getattr__ (H:=bare_externals) (att_at 2000000) "Roll" =
  DFMessage.__getattr__ (H:=bare_externals) (without_mults (att_at 2000000)) "Roll"
    ≫= scaled_by 0.01.
Proof.
  apply (proj2 (proj2 (proj2 (proj2 (multiplier_flag_by_parser bare_externals)))
                  (att_at 2000000) "Roll" 1%nat 0.01%float eq_refl eq_refl)).
  - reflexivity.
  - intros [Hz _]. vm_compute in Hz. discriminate Hz.
Defined.

(** ** The list of flight modes *)

Lemma chained_snoc_replace l a a' :
  chained (l ++ [a]) → a'.1 = a.1 → chained (l ++ [a']).
Proof.
  intros Hc Ha. induction l as [|x [|y l] IH]; simpl in *; [done| |].
  - destruct Hc as (H1 & H2 & _). by rewrite Ha.
  - destruct Hc as (H1 & H2 & H3). split_and!; [done|done|by apply IH].
Qed.

Lemma chained_snoc l a b :
  chained (l ++ [a]) → a.2 = Some b.1.2 → a.1.1 ≠ b.1.1 →
  chained ((l ++ [a]) ++ [b]).
Proof.
  intros Hc H1 H2. induction l as [|x [|y l] IH]; simpl in *; [done| |].
  - destruct Hc as (H3 & H4 & _). done.
  - destruct Hc as (H3 & H4 & H5). split_and!; [done|done|by apply IH].
Qed.

Lemma recv_match_flightmodes (C : Conditions) R (HR : Reader R) :
  keeps_flightmodes R →
  ∀ fuel condition type strict (self self' : R) m,
    recv_match fuel condition type strict self = Ok (self', m) →
    _flightmodes_of self' = _flightmodes_of self.
Proof.
  intros (_ & _ & Hskip & Hrecv & _) fuel condition type strict.
  induction fuel as [|fuel IH]; intros self self' m Hm; [done|].
  simpl in Hm. apply bind_Ok in Hm as (self1 & H1 & Hm).
  assert (_flightmodes_of self1 = _flightmodes_of self) as E1.
  { destruct type; [by eapply Hskip|by injection H1 as ->]. }
  apply bind_Ok in Hm as ([self2 r] & H2 & Hm). apply Hrecv in H2.
  cbn [fst snd] in Hm. rewrite <- E1, <- H2.
  destruct r as [msg|]; [|by injection Hm as <- <-].
  match type of Hm with (if ?b then _ else _) = _ => destruct b end;
    [by eapply IH|].
  apply bind_Ok in Hm as (c & _ & Hm).
  destruct c; [by injection Hm as <- <-|by eapply IH].
Qed.

Lemma set__flightmodes_of R (HR : Reader R) l (self : R) :
  keeps_flightmodes R → _flightmodes_of (set__flightmodes l self) = Some l.
Proof.
  intros (Hb & _). unfold _flightmodes_of, set__flightmodes. by rewrite Hb.
Qed.

Lemma set_last_span_Ok R (HR : Reader R) sp (self self' : R) l a :
  keeps_flightmodes R →
  _flightmodes_of self = Some (l ++ [a]) →
  set_last_span sp self = Ok self' →
  _flightmodes_of self' = Some (l ++ [sp]).
Proof.
  intros HK Hl Hs. unfold set_last_span in Hs. rewrite Hl in Hs. simpl in Hs.
  case_bool_decide; [done|]. injection Hs as <-.
  rewrite set__flightmodes_of by done. f_equal.
  rewrite length_app. simpl. replace (pred (length l + 1)) with (length l + 0)%nat by lia.
  by rewrite insert_app_r.
Qed.

Lemma flightmode_scan_spans (C : Conditions) R (HR : Reader R) :
  keeps_flightmodes R →
  ∀ fuel tstamp fmode (self self' : R) ts' l,
    _flightmodes_of self = Some l →
    open_spans l tstamp fmode →
    flightmode_scan fuel tstamp fmode self = Ok (self', ts') →
    ∃ l' fmode', _flightmodes_of self' = Some l' ∧ open_spans l' ts' fmode'.
Proof.
  intros HK. induction fuel as [|fuel IH];
    intros tstamp fmode self self' ts' l Hl Ho Hs; [done|].
  cbn [flightmode_scan] in Hs.
  apply bind_Ok in Hs as ([self1 r] & Hr & Hs).
  apply (recv_match_flightmodes C R HR HK) in Hr. rewrite Hl in Hr.
  cbn [fst snd] in Hs.
  destruct r as [m|]; [|injection Hs as <- <-; by exists l, fmode].
  apply bind_Ok in Hs as (ts & _ & Hs).
  destruct Ho as [Hc Hlast].
  case_bool_decide as Hmode.
  { apply (IH _ _ _ _ _ l Hr) in Hs; [done|]. split; [done|].
    destruct (last l) as [sp|]; [by destruct Hlast|].
    destruct Hlast as [_ ->]. done. }
  apply bind_Ok in Hs as (fms & Hfms & Hs).
  apply of_option_Ok in Hfms. rewrite Hr in Hfms. injection Hfms as <-.
  apply bind_Ok in Hs as (self2 & H2 & Hs).
  apply bind_Ok in Hs as (fms2 & Hfms2 & Hs). apply of_option_Ok in Hfms2.
  destruct l as [|x l0] using rev_ind.
  - simpl in H2. injection H2 as <-. rewrite Hr in Hfms2. injection Hfms2 as <-.
    eapply IH in Hs; [done|by apply set__flightmodes_of|]. by split.
  - clear IHl0. rewrite last_snoc in Hlast. destruct Hlast as [-> _].
    rewrite length_app in H2. simpl in H2.
    case_bool_decide; [|lia].
    apply bind_Ok in H2 as (sp & Hsp & H2).
    unfold last_span in Hsp. rewrite Hr in Hsp. simpl in Hsp.
    rewrite last_snoc in Hsp. injection Hsp as <-.
    eapply set_last_span_Ok in H2; [|done|done].
    rewrite H2 in Hfms2. injection Hfms2 as <-.
    eapply IH in Hs; [done|by apply set__flightmodes_of|].
    split; [|by rewrite last_snoc].
    destruct x as [[xm x0] x1]. simpl in *.
    apply chained_snoc;
      [by apply (chained_snoc_replace _ (xm, x0, x1))|done|simpl; congruence].
Qed.

(** More fuel does not change a result. *)
Lemma recv_match_fuel_mono (C : Conditions) R (HR : Reader R) condition type strict :
  ∀ fuel fuel' (self : R) r,
    (fuel ≤ fuel')%nat →
    recv_match fuel condition type strict self = Ok r →
    recv_match fuel' condition type strict self = Ok r.
Proof.
  induction fuel as [|fuel IH]; intros fuel' self r Hle Hm; [done|].
  destruct fuel' as [|fuel']; [lia|]. simpl in *.
  destruct (match type with Some _ => _ | None => _ end) as [self1|];
    simpl in *; [|done].
  destruct (reader_recv_msg self1) as [[self2 [m|]]|]; simpl in *; [|done|done].
  match type of Hm with (if ?b then _ else _) = _ => destruct b end;
    [apply IH; [lia|done]|].
  destruct (evaluate_condition _ _) as [[]|]; simpl in *; [done| |done].
  apply IH; [lia|done].
Qed.

Lemma flightmode_scan_fuel_mono (C : Conditions) R (HR : Reader R) :
  ∀ fuel fuel' tstamp fmode (self : R) r,
    (fuel ≤ fuel')%nat →
    flightmode_scan fuel tstamp fmode self = Ok r →
    flightmode_scan fuel' tstamp fmode self = Ok r.
Proof.
  induction fuel as [|fuel IH]; intros fuel' tstamp fmode self r Hle Hs; [done|].
  destruct fuel' as [|fuel']; [lia|].
  cbn [flightmode_scan] in *.
  apply bind_Ok in Hs as ([self1 m] & Hm & Hs).
  rewrite (recv_match_fuel_mono C R HR _ _ _ (S fuel) (S fuel') _ _ Hle Hm).
  simpl in *. destruct m as [m|]; [|done].
  destruct (of_option AttributeError _) as [ts|]; simpl in *; [|done].
  case_bool_decide; [apply IH; [lia|done]|].
  destruct (of_option TypeError (_flightmodes_of self1)) as [fms|];
    simpl in *; [|done].
  match type of Hs with ?a ≫= _ = _ => destruct a as [self2|] end;
    simpl in *; [|done].
  destruct (of_option TypeError (_flightmodes_of self2)) as [fms2|];
    simpl in *; [|done].
  apply IH; [lia|done].
Qed.

Lemma flightmode_list_fuel_mono (C : Conditions) R (HR : Reader R) fuel fuel'
    (self : R) r :
  (fuel ≤ fuel')%nat →
  flightmode_list fuel self = Ok r → flightmode_list fuel' self = Ok r.
Proof.
  intros Hle Hf. unfold flightmode_list in *.
  destruct (_flightmodes_of self); [done|].
  apply bind_Ok in Hf as (self1 & H1 & Hf).
  apply bind_Ok in H1 as (self2 & H2 & H1).
  apply bind_Ok in H1 as (q & Hq & H1).
  rewrite H2. simpl.
  rewrite (flightmode_scan_fuel_mono C R HR _ _ _ _ _ _ Hle Hq). simpl.
  rewrite H1. simpl. exact Hf.
Qed.

Lemma base_rewind_flightmodes k (self self' : DFReader.t) :
  DFReader._rewind k self = Ok self' →
  DFReader._flightmodes self' = DFReader._flightmodes self.
Proof.
  unfold DFReader._rewind. intros Hr.
  repeat case_match; ok_steps; by simplify_eq.
Qed.

Lemma binary_recv_msg_flightmodes (E : Externals) (s s' : DFReader_binary.t) m :
  DFReader_binary.recv_msg s = Ok (s', m) →
  DFReader._flightmodes (DFReader_binary.base s')
  = DFReader._flightmodes (DFReader_binary.base s).
Proof. intros Hr. by apply binary_parse_next_frame in Hr as (_&_&_&_&_&_&Hr). Qed.

Lemma text_recv_msg_flightmodes (E : Externals) (s s' : DFReader_text.t) m :
  DFReader_text.recv_msg s = Ok (s', m) →
  DFReader._flightmodes (DFReader_text.base s')
  = DFReader._flightmodes (DFReader_text.base s).
Proof. intros Hr. by apply text_parse_next_frame in Hr as (_&_&_&_&_&Hr). Qed.

Lemma binary_keeps_flightmodes (E : Externals) : keeps_flightmodes DFReader_binary.t.
Proof.
  unfold keeps_flightmodes, _flightmodes_of. simpl. split_and!.
  - done.
  - intros k s s' Hr. unfold DFReader_binary._rewind in Hr.
    apply bind_Ok in Hr as (b & Hb & [= <-]). simpl.
    by apply base_rewind_flightmodes in Hb.
  - intros ty strict s s' Hs. unfold DFReader_binary.skip_to_type in Hs.
    apply bind_Ok in Hs as (a & _ & Hs).
    destruct (DFReader_binary.type_nums s); case_bool_decide; ok_steps;
      by simplify_eq.
  - apply binary_recv_msg_flightmodes.
  - intros s s' ts Hl. unfold DFReader_binary.last_timestamp in Hl.
    apply bind_Ok in Hl as (hs & _ & Hl).
    apply bind_Ok in Hl as ([s1 m1] & H1 & Hl).
    apply binary_recv_msg_flightmodes in H1. simpl in H1.
    apply bind_Ok in Hl as ([s2 m2] & H2 & Hl).
    assert (DFReader._flightmodes (DFReader_binary.base s2)
            = DFReader._flightmodes (DFReader_binary.base s)) as <-.
    { destruct m1; simpl in H2; [by simplify_eq|].
      apply binary_recv_msg_flightmodes in H2. simpl in H2. congruence. }
    ok_steps. by simplify_eq.
Qed.

Lemma text_keeps_flightmodes (E : Externals) : keeps_flightmodes DFReader_text.t.
Proof.
  unfold keeps_flightmodes, _flightmodes_of. simpl. split_and!.
  - done.
  - intros k s s' Hr. unfold DFReader_text._rewind in Hr.
    apply bind_Ok in Hr as (b & Hb & [= <-]).
    apply base_rewind_flightmodes in Hb. rewrite <- Hb.
    by repeat case_bool_decide.
  - intros ty strict s s' Hs. unfold DFReader_text.skip_to_type in Hs.
    apply bind_Ok in Hs as (a & _ & Hs).
    destruct (DFReader_text.type_list s); case_bool_decide; ok_steps;
      by simplify_eq.
  - apply text_recv_msg_flightmodes.
  - intros s s' ts Hl. unfold DFReader_text.last_timestamp in Hl.
    apply bind_Ok in Hl as (hs & _ & Hl).
    apply bind_Ok in Hl as ([s1 m1] & H1 & Hl).
    apply text_recv_msg_flightmodes in H1. simpl in H1.
    ok_steps. by simplify_eq.
Qed.

Lemma flightmode_list_memo (C : Conditions) R (HR : Reader R) fuel (self : R) l :
  keeps_flightmodes R →
  _flightmodes_of self = Some l →
  flightmode_list fuel self = (λ s, (s, Some l)) <$> reader_rewind false self.
Proof.
  intros (_ & Hrew & _) Hl. unfold flightmode_list. rewrite Hl. simpl.
  destruct (reader_rewind false self) as [s|] eqn:Hr; simpl; [|done].
  apply Hrew in Hr. by rewrite Hr, Hl.
Qed.

Lemma flightmode_list_first (C : Conditions) R (HR : Reader R) fuel
    (self self' : R) r :
  keeps_flightmodes R →
  _flightmodes_of self = None →
  flightmode_list fuel self = Ok (self', r) →
  ∃ l, r = Some l ∧ _flightmodes_of self' = Some l ∧ chained l ∧
       (∀ sp, last l = Some sp →
          ∃ (s0 s1 : R) q ts,
            reader_rewind false self = Ok s0 ∧
            flightmode_scan fuel None None (set__flightmodes [] s0) = Ok q ∧
            reader_last_timestamp q.1 = Ok (s1, ts) ∧ sp.2 = Some ts) ∧
       (∃ s, reader_rewind false s = Ok self').
Proof.
  intros HK Hn Hf. pose proof HK as (_ & Hrew & _ & _ & Hlast).
  unfold flightmode_list in Hf. rewrite Hn in Hf.
  apply bind_Ok in Hf as (self3 & H3 & Hf).
  apply bind_Ok in Hf as (self4 & H4 & [= <- <-]).
  apply bind_Ok in H3 as (s0 & H0 & H3).
  apply bind_Ok in H3 as ([s1 ts'] & Hq & H3).
  pose proof Hq as Hscan.
  eapply (flightmode_scan_spans C R HR HK) in Hscan
    as (l' & fmode' & Hl' & Hc & Hlast');
    [|by apply set__flightmodes_of|by split].
  cbn [fst snd] in H3.
  assert (∃ l, _flightmodes_of self3 = Some l ∧ chained l ∧
            ∀ sp, last l = Some sp →
              ∃ (s2 : R) ts, reader_last_timestamp s1 = Ok (s2, ts) ∧
                             sp.2 = Some ts) as (l & Hl & Hcl & Hsp).
  { destruct ts' as [ts'|].
    - apply bind_Ok in H3 as (sp & Hsp & H3).
      apply bind_Ok in H3 as ([s2 ts] & Hts & H3). cbn [fst snd] in H3.
      unfold last_span in Hsp. rewrite Hl' in Hsp. simpl in Hsp.
      apply of_option_Ok in Hsp.
      apply last_Some in Hsp as (l0 & ->).
      pose proof (Hlast _ _ _ Hts) as Hl2. rewrite Hl' in Hl2.
      eapply set_last_span_Ok in H3; [|done|done].
      exists (l0 ++ [(sp.1.1, sp.1.2, Some ts)]). split_and!; [done| |].
      + destruct sp as [[m0 t0] t1]. by apply (chained_snoc_replace _ (m0, t0, t1)).
      + intros sp'. rewrite last_snoc. intros [= <-]. by exists s2, ts.
    - injection H3 as <-. exists l'. split_and!; [done|done|].
      intros sp Hl0. rewrite Hl0 in Hlast'. destruct Hlast' as [_ []]. done. }
  exists l. pose proof (Hrew _ _ _ H4) as Hl4. rewrite Hl in Hl4.
  split_and!; [by rewrite Hl4|done|done| |by exists self3].
  intros sp Hsp'. destruct (Hsp sp Hsp') as (s2 & ts & Hts & Hts').
  by exists s0, s2, (s1, ts'), ts.
Qed.

(** C7.  For a reader whose methods leave the list of flight modes alone,
    as those of the binary and of the text reader do: when the list is
    already stored, [flightmode_list] only rewinds and returns the stored
    list; otherwise the list it returns is stored in the reader, each of
    its spans ends where the next one starts and the next one has another
    mode, the last span ends at the value of [last_timestamp] called
    where the scan ended, the reader it leaves is the result of a
    [_rewind], and more fuel gives the same result.  In the binary reader
    [_rewind] puts the cursor at offset 0.  On the log of MODE records at
    0, 10 and 20 seconds with the modes A, A and B the list is
    [("A", 0, 20); ("B", 20, 20)], 20 being the last timestamp. *)
Theorem flightmode_list_spans :
  (∀ (C : Conditions) R (HR : Reader R),
     keeps_flightmodes R →
     (∀ fuel (self : R) l,
        _flightmodes_of self = Some l →
        flightmode_list fuel self
        = (λ s, (s, Some l)) <$> reader_rewind false self) ∧
     (∀ fuel (self self' : R) r,
        _flightmodes_of self = None →
        flightmode_list fuel self = Ok (self', r) →
        (∃ l, r = Some l ∧ _flightmodes_of self' = Some l ∧ chained l ∧
              (∀ sp, last l = Some sp →
                 ∃ (s0 s1 : R) q ts,
                   reader_rewind false self = Ok s0 ∧
                   flightmode_scan fuel None None (set__flightmodes [] s0) = Ok q ∧
                   reader_last_timestamp q.1 = Ok (s1, ts) ∧ sp.2 = Some ts) ∧
              (∃ s, reader_rewind false s = Ok self')) ∧
        (∀ fuel', (fuel ≤ fuel')%nat →
           flightmode_list fuel' self = Ok (self', r)))) ∧
  (∀ E : Externals,
     keeps_flightmodes DFReader_binary.t ∧ keeps_flightmodes DFReader_text.t ∧
     ∀ k (s s' : DFReader_binary.t),
       DFReader_binary._rewind k s = Ok s' →
       DFReader_binary.offset s' = 0 ∧
       DFReader_binary.remaining s' = DFReader_binary.data_len s') ∧
  snd <$> flightmode_list (H:=no_condition) (H0:=binary_Reader (H:=bare_externals))
            4 (mode_reader (H:=bare_externals))
  = Ok (Some [("A", PFloat 0, Some (PFloat 20)); ("B", PFloat 20, Some (PFloat 20))]).
Proof.
  split_and!.
  - intros C R HR HK. split.
    + intros fuel self l. by apply flightmode_list_memo.
    + intros fuel self self' r Hn Hf. split.
      * by apply (flightmode_list_first C R HR fuel self self' r).
      * intros fuel' Hle. by apply (flightmode_list_fuel_mono C R HR fuel).
  - intros E. split_and!.
    + apply binary_keeps_flightmodes.
    + apply text_keeps_flightmodes.
    + intros k s s' Hr. unfold DFReader_binary._rewind in Hr.
      apply bind_Ok in Hr as (b & _ & [= <-]). done.
  - vm_compute. reflexivity.
Qed.

Lemma flightmode_list_spans_witness :
  match flightmode_list (H:=no_condition) (H0:=binary_Reader (H:=bare_externals))
          4 (mode_reader (H:=bare_externals)) with
  | Ok (self', r) =>
      ∃ l, r = Some l ∧
           _flightmodes_of (H:=binary_Reader (H:=bare_externals)) self' = Some l ∧
           chained l ∧
           flightmode_list (H:=no_condition)
             (H0:=binary_Reader (H:=bare_externals)) 9 self'
           = (λ s, (s, Some l)) <$> DFReader_binary._rewind false self'
  | Raise _ => False
  end.
Proof.
  destruct (flightmode_list (H:=no_condition)
              (H0:=binary_Reader (H:=bare_externals))
              4 (mode_reader (H:=bare_externals)))
    as [[self' r]|e] eqn:Hf; [|by vm_compute in Hf].
  pose proof (proj1 flightmode_list_spans no_condition DFReader_binary.t
                (binary_Reader (H:=bare_externals))
                (binary_keeps_flightmodes bare_externals)) as [Hmemo Hfirst].
  destruct (Hfirst 4%nat (mode_reader (H:=bare_externals)) self' r eq_refl Hf)
    as [(l & Hr & Hl & Hc & _) _].
  exists l. split_and!; [done|done|done|].
  by apply Hmemo.
Defined.

(** ** The detector of text logs *)







(** ** Encoding a record and decoding it again *)


Lemma bz_zb z : 0 ≤ z < 256 → bz (zb z) = z.
Proof.
  intros Hz. unfold bz, zb.
  destruct (Byte.of_N (Z.to_N z)) as [b|] eqn:Hb; simpl.
  - apply Byte.to_of_N in Hb. rewrite Hb. lia.
  - apply Byte.of_N_None_iff in Hb. lia.
Qed.

Lemma bz_range b : 0 ≤ bz b < 256.
Proof. unfold bz. pose proof (Byte.to_N_bounded b). lia. Qed.

Lemma length_le_encode n : ∀ z, length (le_encode n z) = n.
Proof. induction n as [|n IH]; intros z; simpl; [done|]. by rewrite IH. Qed.

Lemma le_decode_encode n : ∀ z, le_decode (le_encode n z) = z `mod` 2 ^ (8 * Z.of_nat n).
Proof.
  induction n as [|n IH]; intros z; simpl le_encode; simpl le_decode.
  - by rewrite Z.mod_1_r.
  - rewrite IH, bz_zb by (apply Z.mod_pos_bound; lia).
    replace (8 * Z.of_nat (S n)) with (8 + 8 * Z.of_nat n) by lia.
    rewrite Z.pow_add_r by lia.
    change (2 ^ 8) with 256.
    rewrite (Z.rem_mul_r z 256 (2 ^ (8 * Z.of_nat n))) by lia. done.
Qed.

Lemma to_signed_mod bits z :
  0 < bits → - 2 ^ (bits - 1) ≤ z < 2 ^ (bits - 1) →
  to_signed bits (z `mod` 2 ^ bits) = z.
Proof.
  intros Hb Hz. unfold to_signed.
  assert (2 ^ bits = 2 * 2 ^ (bits - 1)) as Hp.
  { rewrite <- Z.pow_succ_r by lia. f_equal. lia. }
  destruct (decide (0 ≤ z)).
  - rewrite Z.mod_small by lia. case_bool_decide; lia.
  - replace (z `mod` 2 ^ bits) with (z + 2 ^ bits).
    + case_bool_decide; lia.
    + symmetry. rewrite <- (Z.mod_add z 1) by lia.
      rewrite Z.mod_small; lia.
Qed.

Lemma scode_size_pos c : 0 ≤ scode_size c.
Proof. destruct c; simpl; lia. Qed.

Lemma length_pack_field c v b :
  pack_field c v = Ok b → Z.of_nat (length b) = scode_size c.
Proof.
  unfold pack_field. intros Hp.
  destruct c, v; simplify_eq; try case_bool_decide; simplify_eq; ok_steps;
    simplify_eq; rewrite ?length_le_encode; simpl; try lia.
  rewrite length_take, length_app, length_replicate. lia.
Qed.

#[local] Arguments le_encode : simpl never.
#[local] Arguments le_decode : simpl never.
#[local] Arguments Z.pow : simpl never.
#[local] Arguments Z.mul : simpl never.

Lemma reread_int c z b :
  pack_field c (PInt z) = Ok b →
  match c with
  | S_e | S_f | S_d | S_s _ => True
  | _ => unpack_field c b = PInt z
  end.
Proof.
  intros Hp. destruct c; try done; unfold pack_field in Hp; simpl in Hp;
    case_bool_decide; simplify_eq; unfold unpack_field; simpl scode_size;
    rewrite le_decode_encode, Z2Nat.id by lia; f_equal;
    first [ apply Z.mod_small; lia
          | rewrite Z.mod_mod by lia; apply to_signed_mod; lia ].
Qed.

Lemma struct_unpack_pack cs : ∀ vs bs,
  struct_pack cs vs = Ok bs →
  length vs = length cs ∧
  Z.of_nat (length bs) = calcsize cs ∧
  ∀ j c v, cs !! j = Some c → vs !! j = Some v →
    ∃ b, pack_field c v = Ok b ∧ unpack_fields cs bs !! j = Some (unpack_field c b).
Proof.
  induction cs as [|c cs IH]; intros [|v vs] bs Hp; simpl in Hp; try done.
  { injection Hp as <-. split_and!; [done|done|]. by intros []. }
  apply bind_Ok in Hp as (b & Hb & Hp). apply bind_Ok in Hp as (r & Hr & [= <-]).
  destruct (IH _ _ Hr) as (Hlen & Hsz & Hj).
  pose proof (length_pack_field _ _ _ Hb) as Hlb.
  split_and!.
  - simpl. by rewrite Hlen.
  - rewrite length_app. simpl. lia.
  - intros [|j] c' v' Hc Hv; simpl in *.
    + simplify_eq. exists b. split; [done|].
      f_equal. f_equal. rewrite <- Hlb, Nat2Z.id. by rewrite take_app_length.
    + rewrite <- Hlb, Nat2Z.id, drop_app_length. by apply Hj.
Qed.

Lemma mapM_result_length {A B} (f : A → result B) l : ∀ k,
  mapM f l = Ok k → length k = length l.
Proof.
  induction l as [|x l IH]; intros k Hm; simpl in Hm.
  - by injection Hm as <-.
  - apply bind_Ok in Hm as (y & _ & Hm). apply bind_Ok in Hm as (k' & Hk & [= <-]).
    simpl. f_equal. by apply IH.
Qed.

Lemma colhash_lookup (cols : list (nat * string)) : ∀ (h : gmap string nat) f j,
  foldl (λ h ic, <[ic.2 := ic.1]> h) h cols !! f = Some j →
  (j, f) ∈ cols ∨ h !! f = Some j.
Proof.
  induction cols as [|[i c] cols IH]; intros h f j Hl; simpl in *; [by right|].
  apply IH in Hl as [Hl|Hl]; [left; by right|].
  destruct (decide (c = f)) as [->|Hne].
  - rewrite lookup_insert_eq in Hl. injection Hl as ->. left. by left.
  - rewrite lookup_insert_ne in Hl by done. by right.
Qed.

Lemma wf_format_layout fmt0 fmt :
  wf_format fmt0 →
  DFFormat.msg_struct fmt = DFFormat.msg_struct fmt0 →
  DFFormat.msg_types fmt = DFFormat.msg_types fmt0 →
  DFFormat.msg_mults fmt = DFFormat.msg_mults fmt0 →
  DFFormat.msg_fmts fmt = DFFormat.msg_fmts fmt0 →
  DFFormat.colhash fmt = DFFormat.colhash fmt0 →
  DFFormat.columns fmt = DFFormat.columns fmt0 →
  DFFormat.a_indexes fmt = DFFormat.a_indexes fmt0 →
  wf_format fmt.
Proof. unfold wf_format. by intros Hwf -> -> -> -> -> -> ->. Qed.

Lemma init_wf_format type name flen format columns oldfmt fmt :
  DFFormat.init type name flen format columns oldfmt = Ok fmt → wf_format fmt.
Proof.
  unfold DFFormat.init. intros Hi.
  apply bind_Ok in Hi as (tbl & Ht & Hi).
  match type of Hi with
  | match _ with None => Ok ?f | _ => _ end = _ => set (fmt0 := f) in *
  end.
  assert (wf_format fmt0) as Hwf.
  { unfold wf_format, fmt0. simpl.
    pose proof (mapM_result_length _ _ _ Ht) as Hlen.
    split_and!.
    - by rewrite length_fmap.
    - by rewrite length_fmap.
    - intros j c Hc.
      destruct (mapM_result_lookup _ _ _ _ _ Ht Hc) as (e & He & Hl).
      apply of_option_Ok in He. exists e.
      rewrite !list_lookup_fmap, Hl. split_and!; [done|done|done|].
      rewrite lookup_zip_with, Hc. simpl. by rewrite Hl.
    - intros f j Hl. apply colhash_lookup in Hl as [Hl|Hl]; [|done].
      apply elem_of_lookup_imap in Hl as (i & x & [= -> ->] & Hx). done.
    - intros j. rewrite list_elem_of_omap. split.
      + intros ([i c] & Hin & Hs). simpl in Hs.
        apply elem_of_lookup_imap in Hin as (i' & x & [= -> ->] & Hx).
        destruct (Ascii.eqb x "a") eqn:Hx'; [|done].
        apply Ascii.eqb_eq in Hx' as ->. by injection Hs as <-.
      + intros Hc. exists (j, "a"%char). split; [|done].
        apply elem_of_lookup_imap. by exists j, "a"%char. }
  destruct oldfmt as [old|]; [|by injection Hi as <-].
  destruct (DFFormat.instance_field old) as [f|].
  - apply bind_Ok in Hi as (idx & _ & Hi).
    unfold DFFormat.set_instance_field in Hi. ok_steps. simplify_eq.
    by eapply wf_format_layout.
  - injection Hi as <-. by eapply wf_format_layout.
Qed.

Lemma as_array_idem v : as_array (as_array v) = as_array v.
Proof.
  unfold as_array. destruct (array_h v) as [a|e] eqn:Ha; [|by rewrite Ha].
  unfold array_h in Ha. destruct v; simplify_eq; try case_bool_decide; by simplify_eq.
Qed.

Lemma transform_arrays_lookup fmt (self : DFReader_binary.t) elements j :
  (DFReader_binary.transform_arrays fmt self elements).2 !! j =
  if decide (j ∈ DFFormat.a_indexes fmt) then as_array <$> elements !! j
  else elements !! j.
Proof.
  unfold DFReader_binary.transform_arrays.
  generalize (DFFormat.a_indexes fmt). intros l. revert self elements.
  induction l as [|a l IH]; intros self elements; [done|].
  cbn [foldl fst snd].
  assert (∀ (P Q : Prop) `{Decision P, Decision Q} {A} (x y : A),
            (P ↔ Q) → (if decide P then x else y) = (if decide Q then x else y))
    as Hiff by (intros; repeat case_decide; tauto).
  assert (∀ {A} (x y : A), (if decide (a ∈ a :: l) then x else y) = x) as Hhd.
  { intros A x y. rewrite decide_True; [done|left]. }
  destruct (elements !! a) as [e|] eqn:He; simpl.
  - destruct (array_h e) as [arr|err] eqn:Ha; simpl.
    + rewrite IH. destruct (decide (j = a)) as [->|Hne].
      * rewrite Hhd, He. simpl.
        rewrite list_lookup_insert_eq by (by eapply lookup_lt_Some). simpl.
        assert (as_array e = arr) as He' by (unfold as_array; by rewrite Ha).
        assert (as_array arr = arr) as Harr.
        { rewrite <- He'. apply as_array_idem. }
        rewrite He', Harr. by destruct (decide (a ∈ l)).
      * rewrite list_lookup_insert_ne by done. apply Hiff.
        rewrite elem_of_cons. split; [by right|by intros [?|?]].
    + rewrite IH. destruct (decide (j = a)) as [->|Hne].
      * rewrite Hhd, He. simpl.
        unfold as_array. rewrite Ha. by destruct (decide (a ∈ l)).
      * apply Hiff. rewrite elem_of_cons. split; [by right|by intros [?|?]].
  - rewrite IH. destruct (decide (j = a)) as [->|Hne].
    + rewrite Hhd, He. by destruct (decide (a ∈ l)).
    + apply Hiff. rewrite elem_of_cons. split; [by right|by intros [?|?]].
Qed.

Lemma transform_arrays_state fmt (self : DFReader_binary.t) elements :
  ∃ d, (DFReader_binary.transform_arrays fmt self elements).1
       = DFReader_binary.set_stderr d self.
Proof.
  unfold DFReader_binary.transform_arrays.
  generalize (DFFormat.a_indexes fmt). intros l. revert self elements.
  induction l as [|a l IH]; intros self elements; cbn [foldl fst snd].
  { exists (DFReader_binary.stderr self). by destruct self. }
  destruct (_ ≫= _) as [arr|]; [apply IH|].
  destruct (IH (DFReader_binary.emit DFReader_binary.FailedArray self) elements)
    as (d & ->).
  by exists d.
Qed.

Lemma percent_at_end_Ok n : 0 < n ≤ 255 → ∃ pc, percent_at_end n = Ok pc.
Proof.
  intros Hn.
  assert (forallb (λ k, match percent_at_end k with Ok _ => true | Raise _ => false end)
            (seqZ 1 255) = true) as Hall by (vm_compute; reflexivity).
  rewrite forallb_forall in Hall. specialize (Hall n).
  destruct (percent_at_end n) as [pc|]; [by exists pc|].
  discriminate Hall. apply list_elem_of_In, elem_of_seqZ. lia.
Qed.

Lemma binary_parse_next_one (E : Externals) (self : DFReader_binary.t) fmt t body els :
  DFReader_binary.data_map self = xa3 :: x95 :: t :: body →
  DFReader_binary.offset self = 0 →
  DFReader_binary.formats self !! bz t = Some fmt →
  default (DFFormat.msg_struct fmt) (DFReader_binary.unpackers self !! bz t)
    = DFFormat.msg_struct fmt →
  DFFormat.len fmt = 3 + Z.of_nat (length body) →
  DFFormat.len fmt ≤ 255 →
  struct_unpack (DFFormat.msg_struct fmt) body = Ok els →
  DFFormat.name fmt ≠ "FMT" → DFFormat.name fmt ≠ "FMTU" →
  ∃ self' m els',
    DFReader_binary._parse_next self = Ok (self', Some m) ∧
    (∀ j, els' !! j = if decide (j ∈ DFFormat.a_indexes fmt)
                      then as_array <$> els !! j else els !! j) ∧
    same_record (DFMessage.mk fmt els' true None) m.
Proof.
  intros Hdata Hoff Hfmt Hunp Hlen Hmax Hels Hn1 Hn2.
  unfold DFReader_binary._parse_next.
  generalize (length (DFReader_binary.data_map self)). intros fuel.
  cbn [DFReader_binary._parse_next_fuel]. cbn zeta.
  rewrite Hoff. change (Z.to_nat 0) with 0%nat. rewrite drop_0, Hdata.
  assert (DFReader_binary.data_len self = DFFormat.len fmt) as Hdl.
  { unfold DFReader_binary.data_len. rewrite Hdata. simpl length. lia. }
  rewrite resync_found; [|rewrite Hdl, Hoff; lia|done|done|by rewrite Hfmt].
  cbn [fst snd DFReader_binary.base DFReader_binary.data_map
       DFReader_binary.formats DFReader_binary.unpackers
       DFReader_binary.offset DFReader_binary.remaining
       DFReader_binary.set_base DFReader_binary.set_formats
       DFReader_binary.set_unpackers DFReader_binary.set_prev_type
       DFReader_binary.set_offset DFReader_binary.set_remaining
       DFReader_binary.data_len].
  rewrite Hfmt. cbn [of_option mbind result_bind]. rewrite Hunp, Hoff, Hdata.
  assert (DFReader_binary.slice (xa3 :: x95 :: t :: body) (0 + 3)
            (0 + 3 + DFFormat.len fmt - 3) = body) as ->.
  { unfold DFReader_binary.slice.
    assert (Z.to_nat (0 + 3 + DFFormat.len fmt - 3 - (0 + 3)) = length body)
      as -> by (clear -Hlen; lia).
    change (Z.to_nat (0 + 3)) with 3%nat. cbn [drop]. apply firstn_all. }
  rewrite Hels.
  unfold DFReader_binary.data_len in *.
  cbn [DFReader_binary.data_map DFReader_binary.set_offset
       DFReader_binary.set_prev_type DFReader_binary.set_remaining
       DFReader_binary.set_unpackers].
  rewrite Hdata.
  rewrite bool_decide_false by (simpl length; clear -Hlen; lia).
  destruct (String.eqb_spec (DFFormat.name fmt) "FMT") as [|_]; [done|].
  cbn [DFMessage.fmt].
  destruct (String.eqb_spec (DFFormat.name fmt) "FMTU") as [|_]; [done|].
  cbn [of_option mbind result_bind].
  match goal with
  | |- context [DFReader_binary.transform_arrays fmt ?s els] =>
      pose proof (transform_arrays_lookup fmt s els) as Hta;
      destruct (transform_arrays_state fmt s els) as (d & Hst);
      destruct (DFReader_binary.transform_arrays fmt s els) as [self2 els2]
  end.
  cbn [fst snd] in *. subst self2.
  cbn [DFReader_binary.base DFReader_binary.data_map DFReader_binary.offset
       DFReader_binary.set_offset DFReader_binary.set_stderr
       DFReader_binary.set_prev_type DFReader_binary.set_remaining
       DFReader_binary.set_unpackers DFReader_binary.set_base].
  rewrite Hdata.
  match goal with
  | |- context [DFReader._add_msg ?b ?m] =>
      pose proof (add_msg_same E b m) as Hsame;
      destruct (DFReader._add_msg b m) as [[b' m'] r]
  end.
  cbn [fst snd] in *.
  destruct (percent_at_end_Ok (DFFormat.len fmt)) as (pc & Hpc);
    [clear -Hlen Hmax; lia|].
  assert (Z.of_nat (length (xa3 :: x95 :: t :: body)) = DFFormat.len fmt) as Hl1
    by (simpl length; clear -Hlen; lia).
  assert (0 + 3 + (DFFormat.len fmt - 3) = DFFormat.len fmt) as Hl2 by lia.
  unfold percent_at_end in Hpc.
  destruct r as [u|e]; unfold DFReader_binary.percent_of, DFReader_binary.data_len;
    cbn [DFReader_binary.base DFReader_binary.data_map DFReader_binary.offset
         DFReader_binary.set_offset DFReader_binary.set_stderr
         DFReader_binary.set_prev_type DFReader_binary.set_remaining
         DFReader_binary.set_unpackers DFReader_binary.set_base
         DFReader_binary.emit];
    rewrite Hdata, Hl1, Hl2, Hpc; cbn [mbind result_bind];
    eexists _, m', els2; (split_and!; [done|exact Hta|done]).
Qed.

Lemma utf8_valid_app zs :
  utf8_valid zs = true → ∀ bs, utf8_valid bs = true → utf8_valid (bs ++ zs) = true.
Proof.
  intros Hz bs.
  induction bs as [bs IH] using (induction_ltof1 _ (@length byte)).
  unfold ltof in IH. intros Hb.
  destruct bs as [|b0 r0]; [done|]. simpl in Hb |- *.
  destruct (bool_decide (bz b0 < 128)); [apply IH; [simpl; lia|done]|].
  destruct r0 as [|b1 r1]; [done|]. simpl in Hb |- *.
  destruct (between 194 223 b0).
  { apply andb_true_iff in Hb as [-> Hb]. simpl. apply IH; [simpl; lia|done]. }
  destruct r1 as [|b2 r2]; [done|]. simpl in Hb |- *.
  destruct (between 224 239 b0).
  { apply andb_true_iff in Hb as [-> Hb]. simpl. apply IH; [simpl; lia|done]. }
  destruct r2 as [|b3 r3]; [done|]. simpl in Hb |- *.
  apply andb_true_iff in Hb as [-> Hb]. simpl. apply IH; [simpl; lia|done].
Qed.

Lemma utf8_valid_zeros n : utf8_valid (replicate n x00) = true.
Proof. induction n as [|n IH]; [done|]. simpl. exact IH. Qed.

Lemma null_term_zeros n : null_term (string_of_list_byte (replicate n x00)) = EmptyString.
Proof. by destruct n. Qed.

Lemma null_term_app_zeros s n :
  null_term s = s →
  null_term (string_of_list_byte (list_byte_of_string s ++ replicate n x00)) = s.
Proof.
  induction s as [|c s IH]; intros Hs; simpl in *; [apply null_term_zeros|].
  rewrite ascii_of_byte_of_ascii.
  destruct (Ascii.eqb c "000"); [done|]. f_equal. apply IH. by injection Hs.
Qed.


Lemma take_pad {A} (b : list A) k x :
  (length b ≤ k)%nat → take k (b ++ replicate k x) = b ++ replicate (k - length b) x.
Proof.
  intros Hk. rewrite take_app. f_equal.
  - by apply firstn_all2.
  - rewrite take_replicate. f_equal. lia.
Qed.





(** Access to a column of a record whose lookups are known. *)
Lemma getattr_at (E : Externals) m field j c e ty mul :
  DFFormat.colhash (DFMessage.fmt m) !! field = Some j →
  DFFormat.msg_fmts (DFMessage.fmt m) !! j = Some c →
  DFMessage._elements m !! j = Some e →
  DFFormat.msg_types (DFMessage.fmt m) !! j = Some ty →
  DFFormat.msg_mults (DFMessage.fmt m) !! j = Some mul →
  DFMessage.__getattr__ m field =
    if Ascii.eqb c "Z" && String.eqb (DFFormat.name (DFMessage.fmt m)) "FILE"
    then Ok e
    else
      let v := match e with PBytes b => PStr (decode_bytes b) | _ => e end in
      v ← (if Ascii.eqb c "a" then Ok v
           else if negb (Ascii.eqb c "M") || DFMessage._apply_multiplier m
                then type_conv ty v else Ok v);
      v ← (match ty, v with
           | T_str, PStr s => Ok (PStr (null_term s))
           | T_str, _ => Raise AttributeError
           | _, _ => Ok v
           end);
      match mul with
      | Some mu => if DFMessage._apply_multiplier m then scaled_by mu v else Ok v
      | None => Ok v
      end.
Proof.
  intros Hj Hc He Hty Hmul. unfold DFMessage.__getattr__.
  rewrite Hj. cbn [of_option mbind result_bind].
  rewrite Hc, He. cbn [of_option mbind result_bind].
  destruct (_ && _); [done|].
  rewrite Hty. cbn [of_option mbind result_bind].
  rewrite Hmul. cbn [of_option mbind result_bind]. done.
Qed.





Lemma header_pack type ret1 :
  struct_pack [S_B; S_B; S_B] [PInt 163; PInt 149; PInt type] = Ok ret1 →
  ∃ t, ret1 = [xa3; x95; t] ∧ bz t = type.
Proof.
  intros Hp. cbn [struct_pack] in Hp.
  apply bind_Ok in Hp as (b1 & H1 & Hp). apply bind_Ok in Hp as (r1 & Hr1 & [= <-]).
  apply bind_Ok in Hr1 as (b2 & H2 & Hr1). apply bind_Ok in Hr1 as (r2 & Hr2 & [= <-]).
  apply bind_Ok in Hr2 as (b3 & H3 & Hr2). injection Hr2 as <-.
  assert (b1 = [xa3]) as -> by (vm_compute in H1; by injection H1).
  assert (b2 = [x95]) as -> by (vm_compute in H2; by injection H2).
  unfold pack_field in H3. case_bool_decide as Hr; [|done]. injection H3 as <-.
  exists (zb (type `mod` 256)). split; [done|].
  change (8 * scode_size S_B) with 8 in Hr. change (2 ^ 8) with 256 in Hr.
  rewrite bz_zb by (apply Z.mod_pos_bound; lia). apply Z.mod_small. lia.
Qed.




(* ===================================================================== *)
(** * Further properties of the code *)
(* ===================================================================== *)

(** ** Further properties of the helpers *)

(** X1 (null_term): the result is the part of the string before its first
    NUL: it holds no NUL, and what was cut off is empty or starts with a
    NUL. *)
Theorem null_term_cut s :
  ∃ rest, s = (null_term s +:+ rest) ∧
    ("000"%char ∉ list_ascii_of_string (null_term s)) ∧
    (rest = EmptyString ∨ ∃ r, rest = String "000" r).
Proof.
  induction s as [|c s (rest & Hs & Hn & Hr)]; simpl.
  - exists EmptyString. split_and!; [done|by intros ?%elem_of_nil|by left].
  - destruct (Ascii.eqb c "000") eqn:Hc.
    + apply Ascii.eqb_eq in Hc as ->. exists (String "000" s).
      split_and!; [done|by intros ?%elem_of_nil|right; by eexists].
    + exists rest. simpl. split_and!; [exact (f_equal (String c) Hs)| |done].
      intros [<-|?]%elem_of_cons; [|done].
      by rewrite Ascii.eqb_refl in Hc.
Qed.

Lemma decode_backslashreplace_go_skip k : ∀ bs,
  decode_backslashreplace_go k bs =
  string_of_list_byte (take k bs) +:+ decode_backslashreplace_go 0 (drop k bs).
Proof.
  induction k as [|k IH]; intros bs.
  - by rewrite take_0, drop_0.
  - destruct bs as [|b bs]; [done|]. simpl. by rewrite IH.
Qed.

Lemma utf8_valid_head bs :
  utf8_valid bs = true → bs ≠ [] →
  ∃ n, utf8_head_len bs = S n ∧ utf8_valid (drop (S n) bs) = true.
Proof.
  intros Hv Hne. destruct bs as [|b0 r0]; [done|]. clear Hne.
  unfold utf8_head_len. simpl in Hv.
  case_bool_decide as Hb; [by exists 0%nat|].
  destruct r0 as [|b1 r1]; [done|].
  destruct (between 194 223 b0) eqn:H2.
  { apply andb_true_iff in Hv as [Hc Hv]. exists 1%nat.
    assert (utf8_valid (take 2 (b0 :: b1 :: r1)) = true) as ->; [|done].
    simpl. by rewrite (bool_decide_eq_false_2 _ Hb), H2, Hc. }
  rewrite andb_false_r.
  destruct r1 as [|b2 r2]; [done|].
  destruct (between 224 239 b0) eqn:H3.
  { apply andb_true_iff in Hv as [Hc Hv]. exists 2%nat.
    assert (utf8_valid (take 3 (b0 :: b1 :: b2 :: r2)) = true) as ->; [|done].
    simpl. by rewrite (bool_decide_eq_false_2 _ Hb), H2, H3, Hc. }
  rewrite andb_false_r.
  destruct r2 as [|b3 r3]; [done|].
  apply andb_true_iff in Hv as [Hc Hv]. exists 3%nat.
  assert (utf8_valid (take 4 (b0 :: b1 :: b2 :: b3 :: r3)) = true) as ->.
  { simpl. by rewrite (bool_decide_eq_false_2 _ Hb), H2, H3, Hc. }
  apply andb_true_iff in Hc as [Hc _]. apply andb_true_iff in Hc as [Hc _].
  apply andb_true_iff in Hc as [Hc _]. by rewrite Hc.
Qed.

Lemma decode_backslashreplace_valid b :
  utf8_valid b = true → decode_backslashreplace_go 0 b = string_of_list_byte b.
Proof.
  intros Hv. remember (length b) as n eqn:Hn.
  revert b Hv Hn. induction (lt_wf n) as [n _ IH]. intros b Hv ->.
  destruct b as [|b0 r0]; [done|].
  destruct (utf8_valid_head (b0 :: r0) Hv) as (k & Hk & Hd); [done|].
  cbn [decode_backslashreplace_go]. rewrite Hk.
  rewrite decode_backslashreplace_go_skip.
  simpl in Hd. rewrite (IH (length (drop k r0))); try done.
  - change (string_of_list_byte (b0 :: r0))
      with (String (ascii_of_byte b0) (string_of_list_byte r0)).
    f_equal. rewrite <-(take_drop k r0) at 3.
    generalize (take k r0) (drop k r0). intros l1 l2.
    induction l1 as [|x l1 IHl]; [done|].
    exact (f_equal (String (ascii_of_byte x)) IHl).
  - rewrite length_drop. simpl. lia.
Qed.

(** X2 (to_string): bytes that are well-formed UTF-8 come back as the text
    they encode, with no escape added; a string is returned as it is. *)
Theorem to_string_utf8 b :
  utf8_valid b = true →
  to_string (PBytes b) = Ok (string_of_list_byte b) ∧
  ∀ s, to_string (PStr s) = Ok s.
Proof.
  intros Hv. split; [|done]. simpl. f_equal. by apply decode_backslashreplace_valid.
Qed.

Lemma to_string_utf8_witness :
  utf8_valid [x41; xc3; xa9] = true ∧
  to_string (PBytes [x41; xc3; xa9]) = Ok (string_of_list_byte [x41; xc3; xa9]).
Proof.
  split; [reflexivity|]. apply (to_string_utf8 [x41; xc3; xa9]). reflexivity.
Defined.
(** ** Further properties of [DFFormat] *)

Lemma mapM_of_option_Raise {A B} (e e' : exn) (f : A → option B) l :
  mapM (λ a, of_option e (f a)) l = Raise e' ↔
  e' = e ∧ Exists (λ a, f a = None) l.
Proof.
  induction l as [|a l IH]; simpl.
  - split; [done|]. by intros [_ ?%Exists_nil].
  - rewrite Exists_cons. destruct (f a) as [b|] eqn:Hf; simpl.
    + destruct (mapM _ l) as [k|e''] eqn:Hm; simpl.
      * split; [done|]. intros [-> [?|Hl]]; [done|].
        by destruct IH as [_ IH]; specialize (IH (conj eq_refl Hl)).
      * split.
        -- intros [= <-]. destruct IH as [IH _].
           destruct (IH eq_refl) as [-> ?]. by split; [|right].
        -- intros [-> [?|Hl]]; [done|]. f_equal.
           destruct IH as [_ IH]. by injection (IH (conj eq_refl Hl)).
    + split; [intros [= <-]; split; [done|by left]|by intros [-> _]].
Qed.

Lemma set_instance_field_not_PyException self idx :
  DFFormat.set_instance_field self idx ≠ Raise PyException.
Proof.
  unfold DFFormat.set_instance_field.
  destruct (DFFormat.columns self !! idx); [|done]. simpl.
  destruct (mapM _ _) as [pre|e] eqn:Hm; simpl.
  - destruct (list_ascii_of_string (DFFormat.format self) !! idx) as [c|]; [|done].
    simpl. destruct (calcsize_native_char c) as [z|e] eqn:Hc; simpl; [done|].
    intros [= ->]. unfold calcsize_native_char in Hc.
    by repeat case_match.
  - apply mapM_of_option_Raise in Hm as [-> _]. done.
Qed.

(** X3 (DFFormat.__init__): the constructor raises the exception for an
    unsupported format character exactly when the format string holds a
    character outside [FORMAT_TO_STRUCT]; with no earlier format to copy
    from and every character in the table, it succeeds. *)
Theorem init_unsupported_char type name flen format columns :
  (∀ oldfmt,
     DFFormat.init type name flen format columns oldfmt = Raise PyException ↔
     Exists (λ c, FORMAT_TO_STRUCT c = None) (list_ascii_of_string format)) ∧
  (Forall (λ c, is_Some (FORMAT_TO_STRUCT c)) (list_ascii_of_string format) →
   ∃ fmt, DFFormat.init type name flen format columns None = Ok fmt).
Proof.
  split.
  - intros oldfmt. unfold DFFormat.init.
    destruct (mapM _ (list_ascii_of_string format)) as [tbl|e] eqn:Hm; simpl.
    + split.
      * destruct oldfmt as [old|]; [|done].
        destruct (DFFormat.instance_field old); [|done].
        match goal with |- context [of_option KeyError ?o] => destruct o end;
          [|done].
        simpl. by intros ?%set_instance_field_not_PyException.
      * intros Hex.
        assert (mapM (λ c, of_option PyException (FORMAT_TO_STRUCT c))
                  (list_ascii_of_string format) = Raise PyException) as Hr
          by by apply mapM_of_option_Raise.
        by rewrite Hr in Hm.
    + pose proof Hm as [-> Hex]%mapM_of_option_Raise. done.
  - intros Hall. unfold DFFormat.init.
    destruct (mapM _ (list_ascii_of_string format)) as [tbl|e] eqn:Hm; simpl.
    + by eexists.
    + apply mapM_of_option_Raise in Hm as [_ Hex].
      apply Exists_exists in Hex as (c & Hc & Hn).
      rewrite Forall_forall in Hall. specialize (Hall c Hc).
      rewrite Hn in Hall. by destruct Hall.
Qed.

Lemma init_fields type name flen format columns oldfmt fmt :
  DFFormat.init type name flen format columns oldfmt = Ok fmt →
  DFFormat.type fmt = type ∧
  DFFormat.name fmt = null_term name ∧
  DFFormat.len fmt = flen ∧
  DFFormat.format fmt = format ∧
  DFFormat.msg_fmts fmt = list_ascii_of_string format ∧
  (columns = EmptyString → DFFormat.columns fmt = []).
Proof.
  intros Hi. unfold DFFormat.init in Hi.
  apply bind_Ok in Hi as (tbl & Ht & Hi).
  destruct oldfmt as [old|].
  - destruct (DFFormat.instance_field old) as [f|].
    + apply bind_Ok in Hi as (idx & _ & Hi).
      unfold DFFormat.set_instance_field in Hi. ok_steps. subst fmt. simpl.
      split_and!; try done. by intros ->.
    + injection Hi as <-. simpl. split_and!; try done. by intros ->.
  - injection Hi as <-. simpl. split_and!; try done. by intros ->.
Qed.

(** X4 (DFFormat.__init__): a format the constructor returns is well
    formed: one layout code, one type and one multiplier per format
    character, as the table gives them, [colhash] sends a column name to
    an index that holds it, and [a_indexes] lists the array columns.  The
    name is cut at its first NUL and an empty column string gives no
    column. *)
Theorem init_well_formed type name flen format columns oldfmt fmt :
  DFFormat.init type name flen format columns oldfmt = Ok fmt →
  wf_format fmt ∧
  DFFormat.type fmt = type ∧
  DFFormat.name fmt = null_term name ∧
  DFFormat.len fmt = flen ∧
  DFFormat.format fmt = format ∧
  DFFormat.msg_fmts fmt = list_ascii_of_string format ∧
  (columns = EmptyString → DFFormat.columns fmt = []).
Proof.
  intros Hi. split; [by eapply init_wf_format|by eapply init_fields].
Qed.

Lemma init_well_formed_witness :
  let fmt := unwrap (DFFormat.init 131 "ATT" 13 "Qc" "TimeUS,Roll" None) in
  wf_format fmt ∧ DFFormat.type fmt = 131.
Proof.
  intros fmt.
  pose proof (init_well_formed 131 "ATT" 13 "Qc" "TimeUS,Roll" None fmt eq_refl)
    as (Hwf & Hty & _).
  by split.
Defined.
Lemma set_instance_field_layout self idx self' :
  DFFormat.set_instance_field self idx = Ok self' →
  DFFormat.units self' = DFFormat.units self ∧
  DFFormat.colhash self' = DFFormat.colhash self ∧
  DFFormat.columns self' = DFFormat.columns self ∧
  DFFormat.msg_struct self' = DFFormat.msg_struct self ∧
  DFFormat.msg_types self' = DFFormat.msg_types self ∧
  DFFormat.msg_mults self' = DFFormat.msg_mults self ∧
  DFFormat.msg_fmts self' = DFFormat.msg_fmts self ∧
  DFFormat.a_indexes self' = DFFormat.a_indexes self.
Proof.
  unfold DFFormat.set_instance_field. intros Hs. ok_steps. by subst self'.
Qed.

Lemma set_unit_ids_inv f lookup ids f' :
    DFFormat.set_unit_ids f (PStr ids) lookup = Ok f' →
    (∃ us, DFFormat.units f' = Some us ∧
       length us = length (DFFormat.columns f) ∧
       ∀ i, (i < length (DFFormat.columns f))%nat →
         us !! i = Some (default EmptyString (py_chars ids !! i ≫= (lookup !!.)))) ∧
    DFFormat.columns f' = DFFormat.columns f ∧
    DFFormat.colhash f' = DFFormat.colhash f ∧
    DFFormat.msg_struct f' = DFFormat.msg_struct f ∧
    DFFormat.msg_types f' = DFFormat.msg_types f ∧
    DFFormat.msg_mults f' = DFFormat.msg_mults f.
Proof.
  intros Hs. unfold DFFormat.set_unit_ids in Hs.
  apply bind_Ok in Hs as (f1 & H1 & Hs). injection Hs as <-.
  assert (DFFormat.columns f1 = DFFormat.columns f ∧
          DFFormat.colhash f1 = DFFormat.colhash f ∧
          DFFormat.msg_struct f1 = DFFormat.msg_struct f ∧
          DFFormat.msg_types f1 = DFFormat.msg_types f ∧
          DFFormat.msg_mults f1 = DFFormat.msg_mults f) as (Hc & Hh & Hs & Ht & Hm).
  { case_decide; [|by injection H1 as <-].
    apply set_instance_field_layout in H1. by destruct_and!. }
  simpl. split_and!; try done.
  eexists. split_and!; [done|by rewrite length_imap, Hc|].
  intros i Hi. rewrite list_lookup_imap, Hc.
  apply lookup_lt_is_Some_2 in Hi as [c ->]. simpl.
  by destruct (py_chars ids !! i).
Qed.

(** X5 (DFFormat.set_unit_ids): with no unit string the format is left as
    it is.  With a unit string the format gets one unit per column: the
    unit the lookup table gives for the character at the position of the
    column, the empty string when the string is too short or the character
    is not in the table; the columns and the layout are not touched. *)
Theorem set_unit_ids_units f lookup :
  DFFormat.set_unit_ids f PNone lookup = Ok f ∧
  ∀ ids f',
    DFFormat.set_unit_ids f (PStr ids) lookup = Ok f' →
    (∃ us, DFFormat.units f' = Some us ∧
       length us = length (DFFormat.columns f) ∧
       ∀ i, (i < length (DFFormat.columns f))%nat →
         us !! i = Some (default EmptyString (py_chars ids !! i ≫= (lookup !!.)))) ∧
    DFFormat.columns f' = DFFormat.columns f ∧
    DFFormat.colhash f' = DFFormat.colhash f ∧
    DFFormat.msg_struct f' = DFFormat.msg_struct f ∧
    DFFormat.msg_types f' = DFFormat.msg_types f ∧
    DFFormat.msg_mults f' = DFFormat.msg_mults f.
Proof. split; [done|]. intros ids f'. apply set_unit_ids_inv. Qed.

(** X6 (DFFormat.get_unit): a format with no units answers the empty
    string for any name; with units, a name that is no column raises
    [KeyError]; and after [set_unit_ids] on a well-formed format the unit
    of a column is the one the table gives for the character at its
    position in the unit string. *)
Theorem get_unit_of_column :
  (∀ f col, DFFormat.units f = None → DFFormat.get_unit f col = Ok EmptyString) ∧
  (∀ f col, is_Some (DFFormat.units f) → DFFormat.colhash f !! col = None →
     DFFormat.get_unit f col = Raise KeyError) ∧
  (∀ f ids lookup f' col i,
     wf_format f →
     DFFormat.set_unit_ids f (PStr ids) lookup = Ok f' →
     DFFormat.colhash f !! col = Some i →
     DFFormat.get_unit f' col
     = Ok (default EmptyString (py_chars ids !! i ≫= (lookup !!.)))).
Proof.
  split_and!.
  - intros f col Hu. unfold DFFormat.get_unit. by rewrite Hu.
  - intros f col [us Hu] Hc. unfold DFFormat.get_unit. by rewrite Hu, Hc.
  - intros f ids lookup f' col i (_ & _ & _ & Hcol & _) Hs Hc.
    destruct (set_unit_ids_inv f lookup ids f' Hs)
      as ((us & Hus & Hlen & Hi) & _ & Hh & _).
    unfold DFFormat.get_unit. rewrite Hus, Hh, Hc. simpl.
    rewrite Hi; [done|]. apply Hcol in Hc. by eapply lookup_lt_Some.
Qed.

(** X7 (DFFormat.__init__, oldfmt): a format that is declared again keeps
    the units and the instance field of the format it replaces. *)
Theorem init_keeps_oldfmt type name flen format columns old fmt :
  DFFormat.init type name flen format columns (Some old) = Ok fmt →
  DFFormat.units fmt = DFFormat.units old ∧
  DFFormat.instance_field fmt = DFFormat.instance_field old.
Proof.
  intros Hi.
  destruct (DFFormat.init type name flen format columns None) as [f0|e] eqn:H0.
  2:{ unfold DFFormat.init in Hi, H0.
      destruct (mapM _ _); simpl in *; done. }
  pose proof (init_wf_format _ _ _ _ _ _ _ H0) as (_ & _ & _ & Hcol & _).
  unfold DFFormat.init in Hi, H0.
  destruct (mapM _ _) as [tbl|]; simpl in *; [|done].
  injection H0 as <-. simpl in Hcol.
  destruct (DFFormat.instance_field old) as [f|] eqn:Hf.
  - apply bind_Ok in Hi as (idx & Hidx & Hi). apply of_option_Ok in Hidx.
    pose proof (set_instance_field_inv _ _ _ Hi) as (Hif & _ & _).
    apply set_instance_field_layout in Hi as (Hu & _).
    rewrite Hu, Hif. simpl. split; [done|]. by apply Hcol.
  - by injection Hi as <-.
Qed.

Lemma init_keeps_oldfmt_witness :
  let old := unwrap (DFFormat.set_unit_ids
                       (unwrap (DFFormat.init 200 "T" 11 "iI" "X,Y" None))
                       (PStr "d#") {[ "d" := "deg" ]}) in
  let fmt := unwrap (DFFormat.init 200 "T" 15 "iIi" "X,Y,Z" (Some old)) in
  DFFormat.init 200 "T" 15 "iIi" "X,Y,Z" (Some old) = Ok fmt ∧
  DFFormat.units fmt = Some ["deg"; ""] ∧
  DFFormat.instance_field fmt = Some "Y".
Proof.
  intros old fmt. split; [reflexivity|].
  destruct (init_keeps_oldfmt 200 "T" 15 "iIi" "X,Y,Z" old fmt eq_refl) as [-> ->].
  split; reflexivity.
Defined.
(** X8 (DFFormat.set_mult_ids): called on a format with no units it
    raises [TypeError].  Otherwise it returns as many units as it found;
    the unit of a column whose format character has its own multiplier,
    and an empty unit, stay what they were, and the columns and the
    multipliers of the format are not touched. *)
Theorem set_mult_ids_units (E : Externals) f mult_ids lookup :
  (DFFormat.units f = None →
   DFFormat.set_mult_ids f mult_ids lookup = Raise TypeError) ∧
  ∀ f', DFFormat.set_mult_ids f mult_ids lookup = Ok f' →
    ∃ us us',
      DFFormat.units f = Some us ∧ DFFormat.units f' = Some us' ∧
      length us' = length us ∧
      (∀ i u, us !! i = Some u →
         (∃ mu, DFFormat.msg_mults f !! i = Some (Some mu)) ∨ u = EmptyString →
         us' !! i = Some u) ∧
      DFFormat.columns f' = DFFormat.columns f ∧
      DFFormat.colhash f' = DFFormat.colhash f ∧
      DFFormat.msg_mults f' = DFFormat.msg_mults f.
Proof.
  unfold DFFormat.set_mult_ids. split; [by intros ->|].
  intros f' Hs. apply bind_Ok in Hs as (us & Hus & Hs).
  apply of_option_Ok in Hus. apply bind_Ok in Hs as (us' & Hf & [= <-]).
  exists us, us'. simpl.
  match type of Hf with foldl ?g _ _ = _ => set (step := g) in * end.
  assert (∀ k us', foldl step (Ok us) (seq 0 k) = Ok us' →
            length us' = length us ∧
            (∀ i, (k ≤ i)%nat → us' !! i = us !! i) ∧
            (∀ i u, us !! i = Some u →
               (∃ mu, DFFormat.msg_mults f !! i = Some (Some mu)) ∨ u = EmptyString →
               us' !! i = Some u)) as Hinv.
  { clear us' Hf. intros k. induction k as [|k IH]; intros us' Hf.
    { by injection Hf as <-. }
    rewrite seq_S, foldl_app in Hf. cbn [foldl Nat.add] in Hf.
    unfold step in Hf at 1.
    apply bind_Ok in Hf as (us1 & H1 & Hf).
    destruct (IH us1 H1) as (IHl & IHa & IHb).
    apply bind_Ok in Hf as (mul & Hmul%of_option_Ok & Hf).
    apply bind_Ok in Hf as (u & Hu%of_option_Ok & Hf).
    rewrite IHa in Hu by done.
    assert (∀ x, (bool_decide (is_Some mul) || String.eqb u EmptyString) = false →
               length (<[k := x]> us1) = length us ∧
               (∀ i, (S k ≤ i)%nat → <[k := x]> us1 !! i = us !! i) ∧
               (∀ i u, us !! i = Some u →
                  (∃ mu, DFFormat.msg_mults f !! i = Some (Some mu)) ∨ u = EmptyString →
                  <[k := x]> us1 !! i = Some u)) as Hins.
    { intros x [Hb1 Hb2]%orb_false_iff. split_and!.
      - by rewrite length_insert.
      - intros i Hi. rewrite list_lookup_insert_ne by lia. apply IHa. lia.
      - intros i u0 Hi Hg. destruct (decide (i = k)) as [->|Hne].
        + exfalso. rewrite Hu in Hi. injection Hi as <-.
          destruct Hg as [[mu Hg]| ->].
          * rewrite Hmul in Hg. injection Hg as ->.
            by rewrite bool_decide_true in Hb1.
          * by rewrite String.eqb_refl in Hb2.
        + rewrite list_lookup_insert_ne by done. by apply IHb. }
    assert (length us1 = length us ∧
            (∀ i, (S k ≤ i)%nat → us1 !! i = us !! i) ∧
            (∀ i u, us !! i = Some u →
               (∃ mu, DFFormat.msg_mults f !! i = Some (Some mu)) ∨ u = EmptyString →
               us1 !! i = Some u)) as Hsame.
    { split_and!; [done| |done]. intros i Hi. apply IHa. lia. }
    destruct (bool_decide (is_Some mul) || String.eqb u EmptyString) eqn:Hb.
    { by injection Hf as <-. }
    apply bind_Ok in Hf as (key & _ & Hf).
    destruct (key ≫= _) as [um|];
      [destruct (float_assoc um MULT_TO_PREFIX)|];
      injection Hf as <-; by apply Hins || done. }
  destruct (Hinv _ _ Hf) as (Hl & _ & Hk). by split_and!.
Qed.

Lemma null_term_free s : "000"%char ∉ list_ascii_of_string (null_term s).
Proof.
  induction s as [|c s IH]; simpl; [by intros ?%elem_of_nil|].
  destruct (Ascii.eqb c "000") eqn:Hc; [by intros ?%elem_of_nil|].
  intros [<-|?]%elem_of_cons; [|done]. by rewrite Ascii.eqb_refl in Hc.
Qed.

(** X9 (DFMessage.__getattr__): in a well-formed format, what access to a
    text column ([n], [N] or [Z]) returns is a string with no NUL in it;
    the one exception is the [Z] column of a FILE record, which is
    returned as it is stored. *)
Theorem getattr_text (E : Externals) m field j c :
  wf_format (DFMessage.fmt m) →
  DFFormat.colhash (DFMessage.fmt m) !! field = Some j →
  DFFormat.msg_fmts (DFMessage.fmt m) !! j = Some c →
  c ∈ ["n"; "N"; "Z"]%char →
  (is_FILE_contents m j →
   DFMessage.__getattr__ m field
   = of_option IndexError (DFMessage._elements m !! j)) ∧
  (¬ is_FILE_contents m j →
   ∀ v, DFMessage.__getattr__ m field = Ok v →
     ∃ s, v = PStr s ∧ "000"%char ∉ list_ascii_of_string s).
Proof.
  intros (_ & _ & Hpt & _) Hj Hc Hin.
  destruct (Hpt j c Hc) as ([[code mul] ty] & Htbl & _ & Hmul & Hty).
  cbn [fst snd] in *.
  assert (mul = None ∧ ty = T_str ∧ Ascii.eqb c "a" = false) as (-> & -> & Ha).
  { repeat (apply elem_of_cons in Hin as [->|Hin]; [by injection Htbl as <- <- <-|]).
    by apply elem_of_nil in Hin. }
  rewrite Ha in Hty.
  unfold DFMessage.__getattr__. rewrite Hj. cbn [of_option mbind result_bind].
  rewrite Hc. cbn [of_option mbind result_bind].
  destruct (DFMessage._elements m !! j) as [e|] eqn:He; [|done].
  cbn [of_option mbind result_bind]. split.
  - intros [Hz Hn]. rewrite Hc in Hz. injection Hz as ->. by rewrite Hn.
  - intros Hnf v Hv.
    destruct (Ascii.eqb c "Z" && String.eqb (DFFormat.name (DFMessage.fmt m)) "FILE")
      eqn:Hf.
    { exfalso. apply Hnf. apply andb_true_iff in Hf as [Hz Hn].
      apply Ascii.eqb_eq in Hz as ->. by apply String.eqb_eq in Hn. }
    rewrite Hty, Hmul, Ha in Hv. cbn [of_option mbind result_bind] in Hv.
    apply bind_Ok in Hv as (v1 & _ & Hv). apply bind_Ok in Hv as (v2 & Hv2 & [= <-]).
    destruct v1; try done. injection Hv2 as <-.
    eexists. split; [done|]. apply null_term_free.
Qed.

Lemma getattr_text_witness :
  ∃ s, DFMessage.__getattr__ (H:=bare_externals) example_rec "Name" = Ok (PStr s) ∧
       "000"%char ∉ list_ascii_of_string s.
Proof.
  assert (wf_format (DFMessage.fmt example_rec)) as Hwf.
  { apply (init_wf_format 140 "REC" 33 "QcNf" "TimeUS,Roll,Name,Val" None).
    vm_compute. reflexivity. }
  assert ("N"%char ∈ ["n"; "N"; "Z"]%char) as Hin by (right; left).
  destruct (getattr_text bare_externals example_rec "Name" 2 "N" Hwf
              eq_refl eq_refl Hin) as [_ Hs].
  destruct (Hs (λ H, match H with conj _ Hn => ltac:(discriminate Hn) end)
              (PStr "AB") eq_refl) as (s & Heq & Hfree).
  exists s. split; [|done]. by rewrite <-Heq.
Defined.
(** ** Further properties of [DFMessage] *)

Lemma setattr_inv m field value m' i :
  DFMessage.__setattr__ m field value = Ok m' →
  DFMessage.first_isupper field = Ok true →
  DFFormat.colhash (DFMessage.fmt m) !! field = Some i →
  ∃ mul stored,
    DFFormat.msg_mults (DFMessage.fmt m) !! i = Some mul ∧
    (match mul with
     | Some mu =>
         if DFMessage._apply_multiplier m then py_div_float value mu else Ok value
     | None => Ok value
     end) = Ok stored ∧
    (i < length (DFMessage._elements m))%nat ∧
    m' = DFMessage.mk (DFMessage.fmt m) (<[i := stored]> (DFMessage._elements m))
           (DFMessage._apply_multiplier m) (DFMessage._timestamp m).
Proof.
  unfold DFMessage.__setattr__. intros Hs Hup Hi. rewrite Hup in Hs.
  simpl in Hs. rewrite Hi in Hs.
  apply bind_Ok in Hs as (mul & Hmul%of_option_Ok & Hs).
  apply bind_Ok in Hs as (stored & Hst & Hs).
  case_bool_decide; [|done]. injection Hs as <-. by exists mul, stored.
Qed.

(** X10 (DFMessage.__setattr__): an assignment to a column whose name
    starts with an upper-case letter replaces the stored element of that
    column and nothing else: the format, the flag and the stamp stay, the
    record keeps its number of elements, and access to any other column
    returns what it returned before. *)
Theorem setattr_other_columns (E : Externals) m field value m' i :
  DFMessage.__setattr__ m field value = Ok m' →
  DFMessage.first_isupper field = Ok true →
  DFFormat.colhash (DFMessage.fmt m) !! field = Some i →
  DFMessage.fmt m' = DFMessage.fmt m ∧
  DFMessage._apply_multiplier m' = DFMessage._apply_multiplier m ∧
  DFMessage._timestamp m' = DFMessage._timestamp m ∧
  length (DFMessage._elements m') = length (DFMessage._elements m) ∧
  ∀ other, DFFormat.colhash (DFMessage.fmt m) !! other ≠ Some i →
    DFMessage.__getattr__ m' other = DFMessage.__getattr__ m other.
Proof.
  intros Hs Hup Hi.
  destruct (setattr_inv _ _ _ _ _ Hs Hup Hi) as (mul & stored & _ & _ & _ & ->).
  simpl. split_and!; try done; [by rewrite length_insert|].
  intros other Ho. unfold DFMessage.__getattr__. simpl.
  destruct (DFFormat.colhash (DFMessage.fmt m) !! other) as [j|]; [|done].
  simpl. rewrite list_lookup_insert_ne; [done|]. by intros ->.
Qed.

Lemma setattr_other_columns_witness :
  let m' := DFMessage.mk (DFMessage.fmt example_rec)
              [PInt 2000000; PInt 123; PBytes (padded 16 "AB"); PFloat 2.5]
              true None in
  DFMessage.__setattr__ example_rec "Val" (PFloat 2.5) = Ok m' ∧
  DFMessage.__getattr__ (H:=bare_externals) m' "Name"
  = DFMessage.__getattr__ (H:=bare_externals) example_rec "Name".
Proof.
  intros m'. split; [reflexivity|].
  by apply (setattr_other_columns bare_externals example_rec "Val" (PFloat 2.5) m' 3
              eq_refl eq_refl eq_refl).
Defined.

(** X11 (DFMessage.__setattr__, __getattr__): in a well-formed format, a
    value of the type of a column that has no multiplier and is no array
    is read back as it was assigned: an integer from an integer column, a
    float from a float column, and from a text column the string cut at
    its first NUL. *)
Theorem setattr_getattr (E : Externals) m field value m' i c code ty :
  wf_format (DFMessage.fmt m) →
  DFMessage.__setattr__ m field value = Ok m' →
  DFMessage.first_isupper field = Ok true →
  DFFormat.colhash (DFMessage.fmt m) !! field = Some i →
  DFFormat.msg_fmts (DFMessage.fmt m) !! i = Some c →
  FORMAT_TO_STRUCT c = Some (code, None, ty) →
  c ≠ "a"%char →
  ¬ is_FILE_contents m i →
  match ty, value with
  | T_int, PInt _ | T_float, PFloat _ => DFMessage.__getattr__ m' field = Ok value
  | T_str, PStr s => DFMessage.__getattr__ m' field = Ok (PStr (null_term s))
  | _, _ => True
  end.
Proof.
  intros (_ & _ & Hpt & _) Hs Hup Hi Hc Htbl Ha Hnf.
  destruct (setattr_inv _ _ _ _ _ Hs Hup Hi) as (mul & stored & Hmul & Hst & Hlt & ->).
  destruct (Hpt i c Hc) as (e & He & _ & Hm & Hty).
  rewrite Htbl in He. injection He as <-. cbn [fst snd] in *.
  rewrite Hmul in Hm. injection Hm as ->. injection Hst as <-.
  assert (Ascii.eqb c "a" = false) as Ha' by by apply Ascii.eqb_neq.
  rewrite Ha' in Hty.
  assert (Ascii.eqb c "Z" && String.eqb (DFFormat.name (DFMessage.fmt m)) "FILE"
          = false) as Hf.
  { apply not_true_is_false. intros [Hz Hn]%andb_true_iff. apply Hnf.
    apply Ascii.eqb_eq in Hz as ->. by apply String.eqb_eq in Hn. }
  assert (∀ v, DFMessage.__getattr__
                 (DFMessage.mk (DFMessage.fmt m) (<[i := v]> (DFMessage._elements m))
                    (DFMessage._apply_multiplier m) (DFMessage._timestamp m)) field
               = (let v0 := match v with PBytes b => PStr (decode_bytes b) | _ => v end in
                  v1 ← (if negb (Ascii.eqb c "M") || DFMessage._apply_multiplier m
                        then type_conv ty v0 else Ok v0);
                  match ty, v1 with
                  | T_str, PStr s => Ok (PStr (null_term s))
                  | T_str, _ => Raise AttributeError
                  | _, _ => Ok v1
                  end)) as Hget.
  { intros v.
    rewrite (getattr_at E _ field i c v ty None); simpl; try done.
    - rewrite Hf, Ha'.
      destruct (if negb _ || _ then _ else _) as [v1|]; simpl; [|done].
      by destruct ty, v1.
    - by rewrite list_lookup_insert_eq. }
  destruct ty, value; try done; rewrite Hget; cbn zeta.
  - by destruct (negb _ || _).
  - by destruct (negb _ || _).
  - by destruct (negb _ || _).
Qed.

Lemma setattr_getattr_witness :
  ∃ m', DFMessage.__setattr__ example_rec "TimeUS" (PInt 7) = Ok m' ∧
        DFMessage.__getattr__ (H:=bare_externals) m' "TimeUS" = Ok (PInt 7).
Proof.
  eexists. split; [reflexivity|].
  assert (wf_format (DFMessage.fmt example_rec)) as Hwf.
  { apply (init_wf_format 140 "REC" 33 "QcNf" "TimeUS,Roll,Name,Val" None).
    vm_compute. reflexivity. }
  apply (setattr_getattr bare_externals example_rec "TimeUS" (PInt 7) _ 0 "Q" S_Q T_int
           Hwf eq_refl eq_refl eq_refl eq_refl eq_refl); [done|].
  intros [_ Hn]. discriminate Hn.
Defined.

(** X12 (DFMessage.get_msgbuf): a buffer that [get_msgbuf] returns starts
    with the two signature bytes and the type number of the format, and
    has three bytes more than the layout of the format. *)
Theorem get_msgbuf_shape (E : Externals) m buf :
  get_msgbuf m = Ok (Some buf) →
  Z.of_nat (length buf) = 3 + calcsize (DFFormat.msg_struct (DFMessage.fmt m)) ∧
  ∃ t, take 3 buf = [xa3; x95; t] ∧ bz t = DFFormat.type (DFMessage.fmt m).
Proof.
  unfold get_msgbuf. cbn zeta. intros Hb.
  apply bind_Ok in Hb as (values & _ & Hb).
  apply bind_Ok in Hb as (ret1 & Hret1 & Hb).
  destruct (struct_pack _ values) as [ret2|] eqn:Hret2; [|done].
  injection Hb as <-. apply header_pack in Hret1 as (t & -> & Ht).
  destruct (struct_unpack_pack _ _ _ Hret2) as (_ & Hsz & _).
  split; [|by exists t]. rewrite length_app. simpl length. lia.
Qed.

Lemma get_msgbuf_shape_witness :
  get_msgbuf (H:=bare_externals) example_rec = Ok (Some example_rec_buf) ∧
  Z.of_nat (length example_rec_buf) = 33.
Proof.
  split; [reflexivity|].
  by destruct (get_msgbuf_shape bare_externals example_rec example_rec_buf eq_refl)
    as [-> _].
Defined.
(** ** Further properties of the base reader *)

Lemma add_msg_messages (E : Externals) self m :
  let r := DFReader._add_msg self m in
  DFReader.messages r.1.1 !! DFMessage.get_type m = Some r.1.2 ∧
  ∀ f i k,
    DFFormat.instance_field (DFMessage.fmt m) = Some f →
    DFMessage.__getattr__ m f = Ok i → py_str i = Ok k →
    DFReader.messages r.1.1 !! (DFMessage.get_type m +:+ "[" +:+ k +:+ "]")
    = Some r.1.2.
Proof.
  unfold DFReader._add_msg. cbn zeta. cbn [fst snd DFReader.messages DFReader.set_messages].
  split.
  - cbn [foldr]. by rewrite lookup_insert_eq.
  - intros f i k -> -> Hk. cbn [mbind result_bind]. rewrite Hk. cbn [foldr].
    destruct (decide (DFMessage.get_type m
                      = DFMessage.get_type m +:+ "[" +:+ k +:+ "]")) as [Heq|Hne].
    + rewrite <-Heq. by rewrite lookup_insert_eq.
    + rewrite lookup_insert_ne by done. by rewrite lookup_insert_eq.
Qed.

(** X13 (DFReader._add_msg): the record is filed in [messages] under its
    type name, and the entry is the record as [_add_msg] leaves it, stamp
    included; the record left differs from the one passed in at most by
    its stamp. *)
Theorem add_msg_stored (E : Externals) self m :
  let r := DFReader._add_msg self m in
  DFReader.messages r.1.1 !! DFMessage.get_type m = Some r.1.2 ∧
  same_record m r.1.2.
Proof.
  cbn zeta. split; [apply (add_msg_messages E self m)|apply add_msg_same].
Qed.

(** X14 (DFMessage.__getitem__ after DFReader._add_msg): a record of a
    format with no instance field cannot be indexed: [IndexError].  Once a
    record of a format with an instance field was added to a reader,
    indexing it by a key that prints like the value of its instance field
    finds the record itself. *)
Theorem getitem_after_add_msg (E : Externals) :
  (∀ parent m key,
     DFFormat.instance_field (DFMessage.fmt m) = None →
     __getitem__ parent m key = Raise IndexError) ∧
  (∀ self m f i k key,
     DFFormat.instance_field (DFMessage.fmt m) = Some f →
     DFMessage.__getattr__ m f = Ok i →
     py_str i = Ok k → py_str key = Ok k →
     let r := DFReader._add_msg self m in
     __getitem__ r.1.1 r.1.2 key = Ok r.1.2).
Proof.
  split.
  - intros parent m key Hf. unfold __getitem__. by rewrite Hf.
  - intros self m f i k key Hf Hi Hk Hkey r.
    destruct (add_msg_messages E self m) as [_ Hl].
    specialize (Hl f i k Hf Hi Hk). fold r in Hl.
    destruct (add_msg_same E self m) as (Hfmt & _). fold r in Hfmt.
    unfold __getitem__. rewrite Hfmt, Hf, Hkey. cbn [mbind result_bind].
    unfold DFMessage.get_type in Hl. by rewrite Hl.
Qed.

Lemma getitem_after_add_msg_witness :
  let T := unwrap (DFFormat.set_unit_ids
                     (unwrap (DFFormat.init 200 "T" 11 "iI" "X,Y" None))
                     (PStr "d#") ∅) in
  let m := DFMessage.mk T [PInt 1; PInt 2] true None in
  let r := DFReader._add_msg (H:=bare_externals) (DFReader.init (H:=bare_externals)) m in
  __getitem__ (H:=bare_externals) r.1.1 r.1.2 (PInt 2) = Ok r.1.2.
Proof.
  intros T m r.
  destruct (getitem_after_add_msg bare_externals) as [_ H].
  exact (H (DFReader.init (H:=bare_externals)) m "Y" (PInt 2) "2" (PInt 2)
           eq_refl eq_refl eq_refl eq_refl).
Defined.
Lemma se_keeps_bind_lift {S A B} (P : S → Prop) (r : result A) (k : A → SE S B) :
  (∀ a, r = Ok a → se_keeps P (k a)) → se_keeps P (se_lift r ≫= k).
Proof.
  intros Hk s Hs. unfold mbind, SE_bind, se_lift. destruct r as [a|e]; [|done].
  by apply Hk.
Qed.

Lemma se_keeps_clock_arrived (E : Externals) (P : DFReader.t → Prop) m :
  (∀ c r, P r → P (DFReader.set_clock c r)) →
  se_keeps (λ s : DFReader.t * DFMessage.t, P s.1)
    (λ s : DFReader.t * DFMessage.t,
       match DFReader.clock s.1 with
       | Some c =>
           let r := clock_message_arrived c m in
           ((DFReader.set_clock (Some r.1) s.1, s.2), r.2)
       | None => (s, Ok ())
       end).
Proof.
  intros HP [self m0] Hs. simpl in *. destruct (DFReader.clock self); simpl; [|done].
  by apply HP.
Qed.

Lemma se_keeps_set_time (E : Externals) (P : DFReader.t → Prop) :
  (∀ c r, P r → P (DFReader.set_clock c r)) →
  se_keeps (λ s : DFReader.t * DFMessage.t, P s.1) DFReader._set_time.
Proof.
  intros HP [self m] Hs. unfold DFReader._set_time. simpl in *.
  repeat case_match; simpl; try done; by apply HP.
Qed.

(** The steps of [_add_msg] keep a property of the reader that the
    assignments to [messages] and [clock] keep, when the record is of none
    of the types whose branch would break it. *)
Lemma add_msg_steps_keeps (E : Externals) (Q : DFReader.t → Prop) self m :
  let type := DFMessage.get_type m in
  (∀ ms r, Q r → Q (DFReader.set_messages ms r)) →
  (∀ c r, Q r → Q (DFReader.set_clock c r)) →
  (type ≠ "PARM" ∨
   (∀ ps r, Q r → Q (DFReader.set_params ps r)) ∧
   (∀ ps r, Q r → Q (DFReader.set_param_defaults ps r))) →
  (type ≠ "MSG" ∧ type ≠ "VER" ∨ ∀ t r, Q r → Q (DFReader.set_mav_type t r)) →
  (type ≠ "MODE" ∧ type ≠ "STAT" ∨ ∀ f r, Q r → Q (DFReader.set_flightmode f r)) →
  Q self → Q (DFReader._add_msg_steps (self, m)).1.1.
Proof.
  intros type Hms Hck Hparm Hmsg Hmode Hs.
  unfold DFReader._add_msg_steps.
  change ((se_get ≫= ?k) (self, m)) with (k (self, m) (self, m)).
  cbn beta zeta. cbn [snd]. fold type.
  match goal with
  | |- Q (?c (self, m)).1.1 =>
      enough (se_keeps (λ s : DFReader.t * DFMessage.t, Q s.1) c) as Hk
        by exact (Hk (self, m) Hs)
  end.
  clear Hs.
  destruct Hparm as [Hparm%String.eqb_neq|[Hp1 Hp2]];
  destruct Hmsg as [[Hm1%String.eqb_neq Hm2%String.eqb_neq]|Hm];
  destruct Hmode as [[Hf1%String.eqb_neq Hf2%String.eqb_neq]|Hf];
  rewrite ?Hparm, ?Hm1, ?Hm2, ?Hf1, ?Hf2; cbn [andb];
  repeat first
    [ apply (se_keeps_on_reader_base Q); by auto
    | apply (se_keeps_clock_arrived E Q); by auto
    | apply (se_keeps_set_time E Q); by auto
    | exact (se_keeps_ret _ ())
    | apply se_keeps_bind_lift; intros ? [= <-]
    | se_keeps_step ].
Qed.

(** X15 (DFReader._add_msg): what a record may change in the reader goes
    by its type.  Only a PARM record touches the parameters and their
    defaults, only a MODE or a STAT record the flight mode, only a MSG or
    a VER record the vehicle type; no record touches the list of flight
    modes. *)
Theorem add_msg_by_type (E : Externals) self m :
  let self' := (DFReader._add_msg self m).1.1 in
  let type := DFMessage.get_type m in
  (type ≠ "PARM" →
   DFReader.params self' = DFReader.params self ∧
   DFReader.param_defaults self' = DFReader.param_defaults self) ∧
  (type ≠ "MODE" → type ≠ "STAT" →
   DFReader.flightmode self' = DFReader.flightmode self) ∧
  (type ≠ "MSG" → type ≠ "VER" →
   DFReader.mav_type self' = DFReader.mav_type self) ∧
  DFReader._flightmodes self' = DFReader._flightmodes self.
Proof.
  cbn zeta. unfold DFReader._add_msg. cbn zeta.
  cbn [fst snd DFReader.params DFReader.param_defaults DFReader.flightmode
       DFReader.mav_type DFReader._flightmodes DFReader.set_messages].
  split_and!.
  - intros Hty.
    apply (add_msg_steps_keeps E
             (λ r, DFReader.params r = DFReader.params self ∧
                   DFReader.param_defaults r = DFReader.param_defaults self));
      auto.
  - intros Hty1 Hty2.
    apply (add_msg_steps_keeps E
             (λ r, DFReader.flightmode r = DFReader.flightmode self)); auto.
  - intros Hty1 Hty2.
    apply (add_msg_steps_keeps E
             (λ r, DFReader.mav_type r = DFReader.mav_type self)); auto.
  - apply add_msg_flightmodes.
Qed.
Lemma se_bind_Ok {S A B} (m : SE S A) (k : A → SE S B) s s' b :
  (m ≫= k) s = (s', Ok b) → ∃ a s1, m s = (s1, Ok a) ∧ k a s1 = (s', Ok b).
Proof.
  unfold mbind, SE_bind. destruct (m s) as [s1 [a|e]]; [|done]. by exists a, s1.
Qed.

Lemma se_bind_Ok_keeps {S A B} (P : S → Prop) (m : SE S A) (k : A → SE S B) s s' b :
  se_keeps P m → P s → (m ≫= k) s = (s', Ok b) →
  ∃ a s1, P s1 ∧ k a s1 = (s', Ok b).
Proof.
  intros Hm Hs Hr. apply se_bind_Ok in Hr as (a & s1 & Hms & Hr).
  exists a, s1. split; [|done]. specialize (Hm s Hs). by rewrite Hms in Hm.
Qed.

Lemma se_lift_bind_Ok {S A B} (r : result A) (k : A → SE S B) s s' b :
  (se_lift r ≫= k) s = (s', Ok b) → ∃ a, r = Ok a ∧ k a s = (s', Ok b).
Proof.
  unfold mbind, SE_bind, se_lift. destruct r as [a|e]; [|done]. by exists a.
Qed.

Ltac add_msg_keeps Q :=
  lazymatch goal with
  | |- se_keeps _ ?c => change (se_keeps (λ s : DFReader.t * DFMessage.t, Q s.1) c)
  end;
  repeat first
    [ apply (se_keeps_on_reader_base Q); by auto
    | apply (se_keeps_clock_arrived _ Q); by auto
    | apply (se_keeps_set_time _ Q); by auto
    | exact (se_keeps_ret _ ())
    | apply se_keeps_bind_lift; intros ? [= <-]
    | se_keeps_step ].

Lemma add_msg_PARM_params (E : Externals) self m name value :
  DFMessage.get_type m = "PARM" →
  DFMessage.__getattr__ m "Name" = Ok (PStr name) →
  DFMessage.__getattr__ m "Value" = Ok value →
  (DFReader._add_msg self m).2 = Ok () →
  DFReader.params (DFReader._add_msg self m).1.1
  = <[name := value]> (DFReader.params self).
Proof.
  intros Hty Hname Hvalue. unfold DFReader._add_msg. cbn zeta.
  cbn [fst snd DFReader.params DFReader.set_messages].
  destruct (DFReader._add_msg_steps (self, m)) as [[s' m'] res] eqn:Hrun.
  cbn [fst snd]. intros ->.
  unfold DFReader._add_msg_steps in Hrun.
  change ((se_get ≫= ?k) (self, m)) with (k (self, m) (self, m)) in Hrun.
  cbn beta zeta in Hrun. cbn [snd] in Hrun. rewrite Hty, Hname in Hrun.
  change (String.eqb "PARM" "MSG") with false in Hrun.
  change (String.eqb "PARM" "VER") with false in Hrun.
  change (String.eqb "PARM" "MODE") with false in Hrun.
  change (String.eqb "PARM" "STAT") with false in Hrun.
  change (String.eqb "PARM" "PARM") with true in Hrun.
  cbn [andb getattr_default] in Hrun.
  set (P := λ s : DFReader.t * DFMessage.t, DFReader.params s.1 = DFReader.params self).
  assert (P (self, m)) as HP by done.
  revert HP Hrun. generalize (self, m). intros s0 HP Hrun.
  (* the steps before the PARM branch *)
  repeat lazymatch type of Hrun with
    | (se_lift _ ≫= _) _ = _ =>
        apply se_lift_bind_Ok in Hrun as (? & [= <-] & Hrun)
    | (?c ≫= _) _ = _ =>
        lazymatch c with
        | se_when _ _ => idtac
        | match DFFormat.instance_field _ with _ => _ end => idtac
        | DFReader.on_reader _ => idtac
        | (λ s, match DFReader.clock _ with _ => _ end) => idtac
        end;
        let s1 := fresh "s" in
        let HP1 := fresh "HP" in
        apply (se_bind_Ok_keeps P c) in Hrun as (? & s1 & HP1 & Hrun);
        [clear HP; rename HP1 into HP
        |add_msg_keeps (λ r : DFReader.t, DFReader.params r = DFReader.params self)
        |done]
    end.
  (* the PARM branch, then [_set_time] *)
  lazymatch type of Hrun with
  | (?c ≫= ?k) _ = _ => apply (se_bind_Ok c k) in Hrun as (? & sa & Hparm & Hrun)
  end.
  cbn [str_key] in Hparm. rewrite Hvalue in Hparm.
  apply se_lift_bind_Ok in Hparm as (? & [= <-] & Hparm).
  apply se_lift_bind_Ok in Hparm as (? & [= <-] & Hparm).
  lazymatch type of Hparm with
  | (?c ≫= ?k) _ = _ => apply (se_bind_Ok c k) in Hparm as (? & sb & Hins & Hparm)
  end.
  injection Hins as <-.
  set (P' := λ s : DFReader.t * DFMessage.t,
         DFReader.params s.1 = <[name := value]> (DFReader.params self)).
  assert (P' sa) as HPa.
  { match type of Hparm with
    | ?c ?s = _ =>
        assert (se_keeps P' c) as Hk
          by add_msg_keeps (λ r, DFReader.params r
                                 = <[name := value]> (DFReader.params self));
        assert (P' s) as Hs by (unfold P'; simpl; by rewrite HP);
        specialize (Hk s Hs); by rewrite Hparm in Hk
    end. }
  pose proof (se_keeps_set_time E
                (λ r, DFReader.params r = <[name := value]> (DFReader.params self))
                (λ c r Hr, Hr) sa HPa) as Hfin.
  by rewrite Hrun in Hfin.
Qed.

(** X16 (DFReader._add_msg, param): once a PARM record was added without
    an exception, [param] answers the value of the record for its name,
    and for any other name what it answered before. *)
Theorem param_after_PARM (E : Externals) self m name value :
  DFMessage.get_type m = "PARM" →
  DFMessage.__getattr__ m "Name" = Ok (PStr name) →
  DFMessage.__getattr__ m "Value" = Ok value →
  (DFReader._add_msg self m).2 = Ok () →
  let self' := (DFReader._add_msg self m).1.1 in
  (∀ default, DFReader.param self' name default = value) ∧
  (∀ other default, other ≠ name →
     DFReader.param self' other default = DFReader.param self other default) ∧
  (∀ name default, DFReader.params self !! name = None →
     DFReader.param self name default = default).
Proof.
  intros Hty Hname Hvalue Hok self'.
  pose proof (add_msg_PARM_params E self m name value Hty Hname Hvalue Hok) as Hp.
  fold self' in Hp. unfold DFReader.param. rewrite Hp. split_and!.
  - intros d. by rewrite lookup_insert_eq.
  - intros other d Hne. by rewrite lookup_insert_ne.
  - by intros n d ->.
Qed.
Lemma param_after_PARM_witness :
  let m := DFMessage.mk
             (unwrap (DFFormat.init 64 "PARM" 31 "QNf" "TimeUS,Name,Value" None))
             [PInt 1; PBytes (padded 16 "RATE"); PFloat 2.5] true None in
  DFReader.param
    (DFReader._add_msg (H:=bare_externals) (DFReader.init (H:=bare_externals)) m).1.1
    "RATE" PNone = PFloat 2.5.
Proof.
  intros m.
  assert (DFMessage.get_type m = "PARM") as H1 by (vm_compute; reflexivity).
  assert (DFMessage.__getattr__ (H:=bare_externals) m "Name" = Ok (PStr "RATE")) as H2
    by (vm_compute; reflexivity).
  assert (DFMessage.__getattr__ (H:=bare_externals) m "Value" = Ok (PFloat 2.5)) as H3
    by (vm_compute; reflexivity).
  assert ((DFReader._add_msg (H:=bare_externals) (DFReader.init (H:=bare_externals)) m).2
          = Ok ()) as H4 by (vm_compute; reflexivity).
  destruct (param_after_PARM bare_externals (DFReader.init (H:=bare_externals)) m
              "RATE" (PFloat 2.5) H1 H2 H3 H4) as [H _].
  apply H.
Defined.
(** X17 (DFReader.recv_match): what [recv_match] returns is what the
    last call of [recv_msg] returned, [None] included; the type of a
    record returned is in the type set when one is given, and the
    condition holds on the messages of the reader as that call left
    them. *)
Theorem recv_match_returns (C : Conditions) R (HR : Reader R) fuel :
  ∀ condition type strict (self self' : R) r,
    recv_match fuel condition type strict self = Ok (self', r) →
    (∃ s, reader_recv_msg s = Ok (self', r)) ∧
    ∀ m, r = Some m →
      (∀ ty, type = Some ty → DFMessage.get_type m ∈ ty) ∧
      evaluate_condition condition (DFReader.messages (reader_base self')) = Ok true.
Proof.
  induction fuel as [|fuel IH]; intros condition type strict self self' r Hr; [done|].
  cbn [recv_match] in Hr.
  apply bind_Ok in Hr as (s1 & _ & Hr).
  apply bind_Ok in Hr as ([s2 [m2|]] & Hrecv & Hr); cbn [fst snd] in Hr.
  2: { injection Hr as <- <-. split; [by exists s1|done]. }
  destruct (match type with Some ty => bool_decide (DFMessage.get_type m2 ∉ ty)
                       | None => false end) eqn:Hty; [by eapply IH|].
  apply bind_Ok in Hr as (c & Hc & Hr).
  destruct c; [|by eapply IH]. injection Hr as <- <-.
  split; [by exists s1|]. intros m [= <-]. split; [|done].
  intros ty ->. apply bool_decide_eq_false in Hty. by apply dec_stable.
Qed.

Lemma recv_match_returns_witness :
  match recv_match (H:=no_condition) (H0:=binary_Reader (H:=bare_externals))
          4 None (Some {["MODE"]}) true (mode_reader (H:=bare_externals)) with
  | Ok (_, Some m) => DFMessage.get_type m ∈ ({["MODE"]} : gset string)
  | _ => False
  end.
Proof.
  destruct (recv_match (H:=no_condition) (H0:=binary_Reader (H:=bare_externals))
              4 None (Some {["MODE"]}) true (mode_reader (H:=bare_externals)))
    as [[s' [m|]]|e] eqn:Hr.
  - destruct (recv_match_returns no_condition _ _ 4 _ _ _ _ _ _ Hr) as [_ Hm].
    destruct (Hm m eq_refl) as [Hty _]. by apply Hty.
  - vm_compute in Hr. discriminate Hr.
  - vm_compute in Hr. discriminate Hr.
Defined.

(** ** Further properties of the binary reader *)

(** X18 (DFReader_binary._parse_next): with fewer than three bytes left
    after the cursor there is no record: the result is [None] and the
    reader is left as it is, so that asking again gives the same. *)
Theorem binary_parse_next_at_end (E : Externals) (self : DFReader_binary.t) :
  DFReader_binary.data_len self - DFReader_binary.offset self < 3 →
  DFReader_binary._parse_next self = Ok (self, None) ∧
  DFReader_binary.recv_msg self = Ok (self, None).
Proof.
  intros Hend. unfold DFReader_binary.recv_msg, DFReader_binary._parse_next.
  cbn [DFReader_binary._parse_next_fuel].
  assert (∀ suffix, DFReader_binary.resync suffix None self = (self, None)) as ->.
  { intros [|h0 rest]; unfold DFReader_binary.resync; by rewrite bool_decide_true. }
  done.
Qed.

Lemma binary_parse_next_at_end_witness :
  let self := DFReader_binary.set_offset 168 (mode_reader (H:=bare_externals)) in
  DFReader_binary._parse_next (H:=bare_externals) self = Ok (self, None).
Proof.
  intros self.
  assert (DFReader_binary.data_len self - DFReader_binary.offset self < 3) as Hend
    by (vm_compute; reflexivity).
  exact (proj1 (binary_parse_next_at_end bare_externals self Hend)).
Defined.

(** X19 (DFReader_binary._parse_next): reading a record never touches the
    data, the index built over it ([offsets], [counts], [indexes]), the
    type filter, the table of type numbers by name, or the list of flight
    modes. *)
Theorem binary_parse_next_keeps (E : Externals) (self self' : DFReader_binary.t) m :
  DFReader_binary._parse_next self = Ok (self', m) →
  DFReader_binary.data_map self' = DFReader_binary.data_map self ∧
  DFReader_binary.offsets self' = DFReader_binary.offsets self ∧
  DFReader_binary.counts self' = DFReader_binary.counts self ∧
  DFReader_binary.indexes self' = DFReader_binary.indexes self ∧
  DFReader_binary.type_nums self' = DFReader_binary.type_nums self ∧
  DFReader_binary.name_to_id self' = DFReader_binary.name_to_id self ∧
  DFReader._flightmodes (DFReader_binary.base self')
  = DFReader._flightmodes (DFReader_binary.base self).
Proof.
  intros Hp. apply binary_parse_next_frame in Hp.
  destruct Hp as (? & ? & ? & ? & ? & ? & ?). by split_and!.
Qed.

Lemma binary_parse_next_keeps_witness :
  match DFReader_binary._parse_next (H:=bare_externals)
          (mode_reader (H:=bare_externals)) with
  | Ok (self', Some m) =>
      DFMessage.get_type m = "FMT" ∧
      DFReader_binary.offsets self'
      = DFReader_binary.offsets (mode_reader (H:=bare_externals))
  | _ => False
  end.
Proof.
  destruct (DFReader_binary._parse_next (H:=bare_externals)
              (mode_reader (H:=bare_externals))) as [[s' [m|]]|e] eqn:Hr.
  - destruct (binary_parse_next_keeps bare_externals _ _ _ Hr) as (_ & Ho & _).
    split; [|done]. vm_compute in Hr. by injection Hr as _ <-.
  - vm_compute in Hr. discriminate Hr.
  - vm_compute in Hr. discriminate Hr.
Defined.

(** X20 (DFReader_text._parse_next): reading a line never touches the
    data, the index built over it, the type filter or the list of flight
    modes. *)
Theorem text_parse_next_keeps (E : Externals) (self self' : DFReader_text.t) m :
  DFReader_text._parse_next self = Ok (self', m) →
  DFReader_text.data_map self' = DFReader_text.data_map self ∧
  DFReader_text.offsets self' = DFReader_text.offsets self ∧
  DFReader_text.counts self' = DFReader_text.counts self ∧
  DFReader_text.indexes self' = DFReader_text.indexes self ∧
  DFReader_text.type_list self' = DFReader_text.type_list self ∧
  DFReader._flightmodes (DFReader_text.base self')
  = DFReader._flightmodes (DFReader_text.base self).
Proof.
  intros Hp. apply text_parse_next_frame in Hp.
  destruct Hp as (? & ? & ? & ? & ? & ?). by split_and!.
Qed.

Lemma text_parse_next_keeps_witness :
  match DFReader_text._parse_next (H:=bare_externals)
          (text_example_reader (H:=bare_externals)) with
  | Ok (self', Some m) =>
      DFMessage.get_type m = "MODE" ∧
      DFReader_text.data_map self'
      = DFReader_text.data_map (text_example_reader (H:=bare_externals))
  | _ => False
  end.
Proof.
  destruct (DFReader_text._parse_next (H:=bare_externals)
              (text_example_reader (H:=bare_externals))) as [[s' [m|]]|e] eqn:Hr.
  - destruct (text_parse_next_keeps bare_externals _ _ _ Hr) as (Hd & _).
    split; [|exact Hd]. vm_compute in Hr. by injection Hr as _ <-.
  - vm_compute in Hr. discriminate Hr.
  - vm_compute in Hr. discriminate Hr.
Defined.
Lemma find_some_first {A} (p : A → bool) l x :
  List.find p l = Some x →
  ∃ l1 l2, l = l1 ++ x :: l2 ∧ p x = true ∧ Forall (λ y, p y = false) l1.
Proof.
  induction l as [|a l IH]; simpl; [done|].
  destruct (p a) eqn:Ha.
  - intros [= <-]. by exists [], l.
  - intros (l1 & l2 & -> & Hx & Hl1)%IH. exists (a :: l1), l2.
    split_and!; [done|done|by constructor].
Qed.

Lemma find_none_all {A} (p : A → bool) l :
  List.find p l = None ↔ Forall (λ y, p y = false) l.
Proof.
  induction l as [|a l IH]; simpl; [done|].
  rewrite Forall_cons. destruct (p a); [split; [done|by intros [? _]]|].
  rewrite IH. split; [by intros ?; split|by intros [_ ?]].
Qed.

Lemma elem_of_reverse_seqZ m n j : j ∈ reverse (seqZ m n) ↔ m ≤ j < m + n.
Proof. by rewrite elem_of_reverse, elem_of_seqZ. Qed.

Lemma find_unused_format_inv (self : DFReader_binary.t) :
  (∀ i, DFReader_binary.find_unused_format self = Some i →
     2 ≤ i ≤ 254 ∧ DFReader_binary.formats self !! i = None ∧
     ∀ j, i < j ≤ 254 → is_Some (DFReader_binary.formats self !! j)) ∧
  (DFReader_binary.find_unused_format self = None ↔
   ∀ j, 2 ≤ j ≤ 254 → is_Some (DFReader_binary.formats self !! j)).
Proof.
  unfold DFReader_binary.find_unused_format. split.
  - intros i (l1 & l2 & Hl & Hi & Hl1)%find_some_first.
    apply bool_decide_eq_true in Hi.
    assert (i ∈ reverse (seqZ 2 253)) as Hin.
    { rewrite Hl. apply elem_of_app. right. left. }
    apply (elem_of_reverse_seqZ 2 253 i) in Hin. split_and!; [lia|lia|done|].
    intros j Hj.
    assert (j ∈ l1) as Hjl.
    { assert (j ∈ reverse (seqZ 2 253)) as Hjin
        by (apply elem_of_reverse, elem_of_seqZ; lia).
      rewrite Hl in Hjin. apply elem_of_app in Hjin as [?|Hjin]; [done|].
      exfalso. apply elem_of_cons in Hjin as [->|Hjin]; [lia|].
      (* the list is decreasing: what follows [i] is below it *)
      apply (f_equal reverse) in Hl. rewrite reverse_involutive in Hl.
      rewrite reverse_app, reverse_cons in Hl.
      apply elem_of_reverse in Hjin.
      apply list_elem_of_lookup in Hjin as (a & Ha).
      assert (seqZ 2 253 !! a = Some j) as Hja.
      { rewrite Hl, <-(assoc_L (++)), lookup_app_l; [done|]. by eapply lookup_lt_Some. }
      assert (seqZ 2 253 !! length (reverse l2) = Some i) as Hia.
      { rewrite Hl, <-(assoc_L (++)), lookup_app_r by done.
        by rewrite Nat.sub_diag. }
      apply lookup_seqZ in Hja as [-> _]. apply lookup_seqZ in Hia as [-> _].
      apply lookup_lt_Some in Ha. lia. }
    rewrite Forall_forall in Hl1. specialize (Hl1 j Hjl).
    apply bool_decide_eq_false in Hl1.
    by destruct (DFReader_binary.formats self !! j).
  - rewrite find_none_all, Forall_forall. split.
    + intros Hall j Hj.
      specialize (Hall j (proj2 (elem_of_reverse_seqZ 2 253 j) ltac:(lia))).
      apply bool_decide_eq_false in Hall.
      by destruct (DFReader_binary.formats self !! j).
    + intros Hall j Hj. apply (elem_of_reverse_seqZ 2 253 j) in Hj.
      apply bool_decide_eq_false. destruct (Hall j ltac:(lia)) as [f ->]. done.
Qed.

(** X21 (DFReader_binary.find_unused_format): the number returned is
    between 2 and 254 and has no format, and every higher number up to 254
    has one; there is no result exactly when all of 2 to 254 are taken. *)
Theorem find_unused_format_spec (self : DFReader_binary.t) :
  (∀ i, DFReader_binary.find_unused_format self = Some i →
     2 ≤ i ≤ 254 ∧ DFReader_binary.formats self !! i = None ∧
     ∀ j, i < j ≤ 254 → is_Some (DFReader_binary.formats self !! j)) ∧
  (DFReader_binary.find_unused_format self = None ↔
   ∀ j, 2 ≤ j ≤ 254 → is_Some (DFReader_binary.formats self !! j)).
Proof. apply find_unused_format_inv. Qed.

(** X22 (DFReader_binary.add_format): a format that is added is given a
    number that was free and is registered under it; the formats known
    before stay as they were.  When no number is free nothing is
    returned and the reader is left as it is. *)
Theorem add_format_spec (self : DFReader_binary.t) fmt :
  match DFReader_binary.add_format self fmt with
  | (self', Some fmt') =>
      fmt' = DFFormat.with_type fmt (DFFormat.type fmt') ∧
      2 ≤ DFFormat.type fmt' ≤ 254 ∧
      DFReader_binary.formats self !! DFFormat.type fmt' = None ∧
      DFReader_binary.formats self' !! DFFormat.type fmt' = Some fmt' ∧
      (∀ k f, DFReader_binary.formats self !! k = Some f →
         DFReader_binary.formats self' !! k = Some f)
  | (self', None) =>
      self' = self ∧
      ∀ j, 2 ≤ j ≤ 254 → is_Some (DFReader_binary.formats self !! j)
  end.
Proof.
  unfold DFReader_binary.add_format.
  destruct (find_unused_format_inv self) as [Hsome Hnone].
  destruct (DFReader_binary.find_unused_format self) as [i|].
  - destruct (Hsome i eq_refl) as (Hi & Hfree & _). simpl.
    split_and!; [done|lia|lia|done|by rewrite lookup_insert_eq|].
    intros k f Hk. rewrite lookup_insert_ne; [done|]. intros <-.
    by rewrite Hfree in Hk.
  - split; [done|]. by apply Hnone.
Qed.

(** X23 (DFReader_binary.make_msgbuf, _parse_next): the buffer that
    [make_msgbuf] builds for a registered format is read back by the
    parser as one record of that format, with as many elements as values
    were given; outside the array columns, an integer packed under an
    integer code and a byte string of the width of its field come back as
    they were given. *)
Theorem make_msgbuf_parse (E : Externals) (self : DFReader_binary.t) fmt values buf :
  DFReader_binary.make_msgbuf fmt values = Ok buf →
  DFReader_binary.data_map self = buf →
  DFReader_binary.offset self = 0 →
  DFReader_binary.formats self !! DFFormat.type fmt = Some fmt →
  default (DFFormat.msg_struct fmt)
    (DFReader_binary.unpackers self !! DFFormat.type fmt) = DFFormat.msg_struct fmt →
  DFFormat.len fmt = 3 + calcsize (DFFormat.msg_struct fmt) →
  DFFormat.len fmt ≤ 255 →
  DFFormat.name fmt ≠ "FMT" → DFFormat.name fmt ≠ "FMTU" →
  ∃ self' m,
    DFReader_binary._parse_next self = Ok (self', Some m) ∧
    DFMessage.fmt m = fmt ∧
    DFMessage._apply_multiplier m = true ∧
    ∀ j c v,
      DFFormat.msg_struct fmt !! j = Some c → values !! j = Some v →
      j ∉ DFFormat.a_indexes fmt →
      match c, v with
      | (S_b | S_B | S_h | S_H | S_i | S_I | S_q | S_Q), PInt _ =>
          DFMessage._elements m !! j = Some v
      | S_s k, PBytes b =>
          length b = k → DFMessage._elements m !! j = Some v
      | _, _ => True
      end.
Proof.
  intros Hbuf Hdata Hoff Hfmt Hunp Hlen Hmax Hn1 Hn2.
  unfold DFReader_binary.make_msgbuf in Hbuf.
  apply bind_Ok in Hbuf as (ret1 & Hret1 & Hbuf).
  apply bind_Ok in Hbuf as (ret2 & Hret2 & [= <-]).
  apply header_pack in Hret1 as (t & -> & Ht).
  destruct (struct_unpack_pack _ _ _ Hret2) as (Hlv & Hsz & Hfields).
  assert (struct_unpack (DFFormat.msg_struct fmt) ret2
          = Ok (unpack_fields (DFFormat.msg_struct fmt) ret2)) as Hun.
  { unfold struct_unpack. by rewrite bool_decide_true. }
  destruct (binary_parse_next_one E self fmt t ret2
              (unpack_fields (DFFormat.msg_struct fmt) ret2))
    as (self' & m & els' & Hparse & Hels' & (Hmf & Hme & Hma)); try done.
  { by rewrite Ht. }
  { by rewrite Ht. }
  { lia. }
  exists self', m. split_and!; try done.
  intros j c v Hc Hv Hna. simpl in Hme.
  destruct (Hfields j c v Hc Hv) as (b & Hb & Hu).
  assert (DFMessage._elements m !! j = Some (unpack_field c b)) as Hj.
  { rewrite Hme, Hels'. by rewrite decide_False. }
  destruct c, v; try done.
  all: try (apply reread_int in Hb; by rewrite Hj, Hb).
  intros Hk. rewrite Hj. cbn [pack_field] in Hb. injection Hb as <-.
  cbn [unpack_field]. by rewrite take_app_length'.
Qed.

Lemma make_msgbuf_parse_witness :
  let values := [PInt 2000000; PInt 123; PBytes (padded 16 "AB"); PFloat 1.5] in
  DFReader_binary.make_msgbuf example_rec_fmt values = Ok example_rec_buf ∧
  ∃ self' m,
    DFReader_binary._parse_next (H:=bare_externals)
      (reader_of (H:=bare_externals) example_rec_fmt example_rec_buf)
    = Ok (self', Some m) ∧
    DFMessage._elements m !! 0%nat = Some (PInt 2000000) ∧
    DFMessage._elements m !! 2%nat = Some (PBytes (padded 16 "AB")).
Proof.
  intros values.
  assert (DFReader_binary.make_msgbuf example_rec_fmt values = Ok example_rec_buf)
    as Hbuf by (vm_compute; reflexivity).
  split; [done|].
  destruct (make_msgbuf_parse bare_externals
              (reader_of (H:=bare_externals) example_rec_fmt example_rec_buf)
              example_rec_fmt values example_rec_buf)
    as (self' & m & Hp & _ & _ & Hv);
    [done|reflexivity|reflexivity|vm_compute; reflexivity|vm_compute; reflexivity
    |vm_compute; reflexivity|vm_compute; discriminate|discriminate|discriminate|].
  assert (DFFormat.a_indexes example_rec_fmt = []) as Ha by (vm_compute; reflexivity).
  exists self', m. split_and!; [done| |].
  - apply (Hv 0%nat S_Q (PInt 2000000)); [reflexivity|reflexivity|].
    rewrite Ha. by intros ?%elem_of_nil.
  - apply (Hv 2%nat (S_s 16) (PBytes (padded 16 "AB"))); [reflexivity|reflexivity| |reflexivity].
    rewrite Ha. by intros ?%elem_of_nil.
Defined.
(** ** Further properties of the text reader *)

Lemma find_go_spec sub : ∀ l i,
  (find_go sub l i = -1 → 0 ≤ i →
   ∀ j, (j ≤ length l)%nat → ¬ sub `prefix_of` drop j l) ∧
  (find_go sub l i ≠ -1 → 0 ≤ i →
   ∃ j, find_go sub l i = i + Z.of_nat j ∧ (j ≤ length l)%nat ∧
        sub `prefix_of` drop j l ∧
        ∀ j', (j' < j)%nat → ¬ sub `prefix_of` drop j' l).
Proof.
  induction l as [|x l IH]; intros i; cbn [find_go]; case_bool_decide as Hp.
  - split; [lia|]. intros _ Hi. exists 0%nat. split_and!; [lia|done|done|lia].
  - split; [|done]. intros _ _ j Hj. simpl in Hj. by replace j with 0%nat by lia.
  - split; [lia|]. intros _ Hi. exists 0%nat. split_and!; [lia|simpl; lia|done|lia].
  - destruct (IH (i + 1)) as [IHn IHs]. split.
    + intros Hf Hi [|j] Hj; [done|]. simpl in Hj |- *. apply IHn; [done|lia|lia].
    + intros Hf Hi. destruct (IHs Hf ltac:(lia)) as (j & Hj & Hlen & Hpre & Hmin).
      exists (S j). split_and!; [lia|simpl; lia|done|].
      intros [|j'] Hj'; [done|]. simpl. apply Hmin. lia.
Qed.

Lemma find_bytes_0 sub data :
  let r := find_bytes sub data 0 in
  (r = -1 ∧ ∀ j, (j ≤ length data)%nat → ¬ sub `prefix_of` drop j data) ∨
  (0 ≤ r ≤ Z.of_nat (length data) ∧
   sub `prefix_of` drop (Z.to_nat r) data ∧
   ∀ j, (j < Z.to_nat r)%nat → ¬ sub `prefix_of` drop j data).
Proof.
  unfold find_bytes. cbn zeta.
  rewrite (bool_decide_false (0 < 0)) by lia. cbn iota.
  rewrite bool_decide_false by lia.
  change (Z.to_nat 0) with 0%nat. rewrite drop_0.
  destruct (find_go_spec sub data 0) as [Hn Hs].
  destruct (decide (find_go sub data 0 = -1)) as [Heq|Hne].
  - left. split; [done|]. by apply Hn.
  - right. destruct (Hs Hne ltac:(lia)) as (j & -> & Hlen & Hpre & Hmin).
    rewrite Z.add_0_l, Nat2Z.id. split_and!; [lia|lia|done|done].
Qed.

(** X24 (DFReader_text._rewind): after a rewind the type filter is
    cleared and the cursor is at the first place where the data reads
    [FMT, ]; when the data reads that nowhere, the cursor is at the first
    place where it reads [FMT,] and the delimiter becomes the comma; and
    when it reads that nowhere either, the cursor is -1. *)
Theorem text_rewind_cursor (self self' : DFReader_text.t) keep_messages :
  DFReader_text._rewind keep_messages self = Ok self' →
  let data := DFReader_text.data_map self in
  let ofs := DFReader_text.offset self' in
  let starts (sub : string) (j : nat) :=
    list_byte_of_string sub `prefix_of` drop j data in
  DFReader_text.data_map self' = data ∧
  DFReader_text.type_list self' = None ∧
  ((0 ≤ ofs ∧ starts "FMT, " (Z.to_nat ofs) ∧
    (∀ j, (j < Z.to_nat ofs)%nat → ¬ starts "FMT, " j) ∧
    DFReader_text.delimiter self' = DFReader_text.delimiter self) ∨
   ((∀ j, (j ≤ length data)%nat → ¬ starts "FMT, " j) ∧
    0 ≤ ofs ∧ starts "FMT," (Z.to_nat ofs) ∧
    (∀ j, (j < Z.to_nat ofs)%nat → ¬ starts "FMT," j) ∧
    DFReader_text.delimiter self' = ",") ∨
   ((∀ j, (j ≤ length data)%nat → ¬ starts "FMT," j) ∧
    ofs = -1 ∧
    DFReader_text.delimiter self' = DFReader_text.delimiter self)).
Proof.
  unfold DFReader_text._rewind. intros Hr.
  apply bind_Ok in Hr as (b & _ & Hr). cbn zeta in Hr.
  cbn [DFReader_text.data_map DFReader_text.set_base] in Hr.
  pose proof (find_bytes_0 (list_byte_of_string "FMT, ") (DFReader_text.data_map self))
    as H1.
  pose proof (find_bytes_0 (list_byte_of_string "FMT,") (DFReader_text.data_map self))
    as H2.
  cbn zeta in H1, H2.
  destruct (find_bytes (list_byte_of_string "FMT, ") _ 0) as [|p|p] eqn:Hf1.
  - injection Hr as <-. simpl. split_and!; [done|done|]. left.
    destruct H1 as [[? _]|(? & ? & ?)]; [done|]. split_and!; [lia|done|done|done].
  - injection Hr as <-. simpl. split_and!; [done|done|]. left.
    destruct H1 as [[? _]|(? & ? & ?)]; [done|]. split_and!; [lia|done|done|done].
  - destruct H1 as [[Hm1 Hno1]|([? _] & _)]; [|lia].
    rewrite Hm1 in Hr. rewrite (bool_decide_true (-1 = -1)) in Hr by done.
    destruct H2 as [[Hm2 Hno2]|(Hr2 & Hpre2 & Hmin2)].
    + rewrite Hm2 in Hr. rewrite bool_decide_false in Hr by (intros ?; done).
      injection Hr as <-. simpl. split_and!; [done|done|]. right. right. done.
    + rewrite bool_decide_true in Hr by lia.
      injection Hr as <-. simpl. split_and!; [done|done|]. right. left.
      split_and!; [done|lia|done|done|done].
Qed.

Lemma text_rewind_cursor_witness :
  match DFReader_text._rewind false
          (text_reader_over (H:=bare_externals) "ab FMT,1") with
  | Ok self' =>
      DFReader_text.type_list self' = None ∧
      DFReader_text.offset self' = 3 ∧ DFReader_text.delimiter self' = ","
  | Raise _ => False
  end.
Proof.
  destruct (DFReader_text._rewind false
              (text_reader_over (H:=bare_externals) "ab FMT,1")) as [s'|e] eqn:Hr.
  - destruct (text_rewind_cursor _ _ _ Hr) as (_ & Ht & _).
    split; [exact Ht|]. vm_compute in Hr. by injection Hr as <-.
  - vm_compute in Hr. discriminate Hr.
Defined.
Lemma skip_scan_earliest (self : DFReader_binary.t) nums dl : ∀ k a,
  foldl (DFReader_binary.skip_scan_step self nums) (Ok (-1, dl)) (seq 0 k) = Ok a →
  a.2 ≤ dl ∧
  (∀ i ofs, (i < k)%nat → binary_pending self nums i ofs → a.2 ≤ ofs) ∧
  (a = (-1, dl) ∨ ∃ i, (i < k)%nat ∧ a.1 = Z.of_nat i ∧ binary_pending self nums i a.2).
Proof.
  induction k as [|k IH]; intros a Hf.
  { injection Hf as <-. split_and!; [simpl; lia|lia|by left]. }
  rewrite seq_S, foldl_app in Hf. cbn [foldl Nat.add] in Hf.
  unfold DFReader_binary.skip_scan_step in Hf at 1.
  apply bind_Ok in Hf as (a0 & H0 & Hf).
  destruct (IH a0 H0) as (Hdl & Hmin & Hsel).
  apply bind_Ok in Hf as (mtype & Hmt%of_option_Ok & Hf).
  apply bind_Ok in Hf as (idx & Hidx%of_option_Ok & Hf).
  apply bind_Ok in Hf as (cnt & Hcnt%of_option_Ok & Hf).
  assert (∀ ofs, binary_pending self nums k ofs →
            idx < cnt ∧
            DFReader_binary.offsets self !! Z.to_nat mtype ≫= (.!! Z.to_nat idx)
            = Some ofs) as Hk.
  { intros ofs (mt & ix & ct & H1 & H2 & H3 & H4 & H5).
    rewrite Hmt in H1. injection H1 as <-. rewrite Hidx in H2. injection H2 as <-.
    rewrite Hcnt in H3. by injection H3 as <-. }
  case_bool_decide as Hskip.
  { injection Hf as <-. split_and!; [done| |].
    - intros i ofs Hi Hp. destruct (decide (i = k)) as [->|Hne].
      + destruct (Hk ofs Hp) as [? _]. lia.
      + apply (Hmin i); [lia|done].
    - destruct Hsel as [?|(i & Hi & ?)]; [by left|right]. exists i. split; [lia|done]. }
  apply bind_Ok in Hf as (ofs & Hofs%of_option_Ok & Hf).
  assert (binary_pending self nums k ofs) as Hpk.
  { exists mtype, idx, cnt. split_and!; [done|done|done|lia|done]. }
  case_bool_decide as Hlt; injection Hf as <-.
  - cbn [fst snd]. split_and!; [lia| |].
    + intros i ofs' Hi Hp. destruct (decide (i = k)) as [->|Hne].
      * destruct (Hk ofs' Hp) as [_ Ho]. rewrite Hofs in Ho. injection Ho as <-. lia.
      * specialize (Hmin i ofs' ltac:(lia) Hp). lia.
    + right. exists k. split_and!; [lia|done|done].
  - split_and!; [done| |].
    + intros i ofs' Hi Hp. destruct (decide (i = k)) as [->|Hne].
      * destruct (Hk ofs' Hp) as [_ Ho]. rewrite Hofs in Ho. injection Ho as <-. lia.
      * apply (Hmin i); [lia|done].
    + destruct Hsel as [?|(i & Hi & ?)]; [by left|right]. exists i. split; [lia|done].
Qed.

(** X25 (DFReader_binary.skip_to_type): the cursor is moved to the
    earliest record not yet returned among the types of the filter, and
    the index of that type moves on by one; when no such record starts
    before the end of the data, the cursor is moved to the end and the
    indexes stay. *)
Theorem binary_skip_to_type_earliest type strict (self self' : DFReader_binary.t) :
  DFReader_binary.skip_to_type type strict self = Ok self' →
  ∃ nums,
    DFReader_binary.type_nums self' = Some nums ∧
    let self0 := scanned self nums in
    (∀ i ofs, binary_pending self0 nums i ofs → DFReader_binary.offset self' ≤ ofs) ∧
    DFReader_binary.offset self' ≤ DFReader_binary.data_len self ∧
    ((DFReader_binary.offset self' = DFReader_binary.data_len self ∧
      DFReader_binary.indexes self' = DFReader_binary.indexes self0) ∨
     (∃ i idx,
        binary_pending self0 nums i (DFReader_binary.offset self') ∧
        DFReader_binary.indexes self0 !! i = Some idx ∧
        DFReader_binary.indexes self'
        = <[i := idx + 1]> (DFReader_binary.indexes self0))).
Proof.
  unfold DFReader_binary.skip_to_type. cbn zeta.
  set (self1 := match DFReader_binary.type_nums self with
                | Some _ => self
                | None => _
                end).
  intros Hs.
  assert (∃ nums, DFReader_binary.type_nums self1 = Some nums ∧
                  self1 = scanned self nums ∧
                  DFReader_binary.data_len self1 = DFReader_binary.data_len self)
    as (nums & Hnums & Hself1 & Hdl).
  { unfold self1, scanned.
    destruct (DFReader_binary.type_nums self) as [nums|] eqn:Ht.
    - by exists nums.
    - by eexists. }
  clearbody self1. rewrite Hnums in Hs. cbn [default] in Hs.
  apply bind_Ok in Hs as (a & Ha & Hs).
  apply skip_scan_earliest in Ha as (Hle & Hmin & Hsel).
  rewrite Hdl in *. exists nums. rewrite <-Hself1. cbn zeta.
  case_bool_decide as Hfound.
  - apply bind_Ok in Hs as (idx & Hidx%of_option_Ok & [= <-]). simpl.
    destruct Hsel as [->|(i & Hi & Hai & Hp)]; [simpl in Hfound; lia|].
    rewrite Hai, Nat2Z.id in *.
    split_and!; [done| |done|].
    + intros j ofs Hp'. apply (Hmin j); [|done].
      destruct Hp' as (? & ? & ? & Hj%lookup_lt_Some & _). done.
    + right. by exists i, idx.
  - injection Hs as <-. simpl.
    destruct Hsel as [->|(i & Hi & Hai & Hp)]; [|lia].
    split_and!; [done| |lia|by left].
    intros j ofs Hp'. apply (Hmin j); [|done].
    destruct Hp' as (? & ? & ? & Hj%lookup_lt_Some & _). done.
Qed.

Lemma binary_skip_to_type_earliest_witness :
  match DFReader_binary.skip_to_type {["FMT"]} true
          (indexed_reader (H:=bare_externals)) with
  | Ok self' =>
      DFReader_binary.type_nums self' = Some [128] ∧
      DFReader_binary.offset self' = 1 ∧
      DFReader_binary.offset self'
      ≤ DFReader_binary.data_len (indexed_reader (H:=bare_externals))
  | Raise _ => False
  end.
Proof.
  destruct (DFReader_binary.skip_to_type {["FMT"]} true
              (indexed_reader (H:=bare_externals))) as [s'|e] eqn:Hr.
  - destruct (binary_skip_to_type_earliest _ _ _ _ Hr) as (nums & _ & _ & Hle & _).
    split_and!; [| |exact Hle]; vm_compute in Hr; by injection Hr as <-.
  - vm_compute in Hr. discriminate Hr.
Defined.
Lemma format_of_FMT_formats (s self : DFReader_binary.t) els :
  DFReader_binary.formats s = DFReader_binary.formats self →
  DFReader_binary.format_of_FMT s els = DFReader_binary.format_of_FMT self els.
Proof. intros Hf. unfold DFReader_binary.format_of_FMT. by rewrite Hf. Qed.

Lemma binary_parse_next_FMT (E : Externals) (self : DFReader_binary.t) fmt t body els mfmt :
  DFReader_binary.data_map self = xa3 :: x95 :: t :: body →
  DFReader_binary.offset self = 0 →
  DFReader_binary.formats self !! bz t = Some fmt →
  default (DFFormat.msg_struct fmt) (DFReader_binary.unpackers self !! bz t)
    = DFFormat.msg_struct fmt →
  DFFormat.len fmt = 3 + Z.of_nat (length body) →
  DFFormat.len fmt ≤ 255 →
  struct_unpack (DFFormat.msg_struct fmt) body = Ok els →
  DFFormat.name fmt = "FMT" →
  DFFormat.a_indexes fmt = [] →
  DFReader_binary.format_of_FMT self els = Ok mfmt →
  ∃ self' m,
    DFReader_binary._parse_next self = Ok (self', Some m) ∧
    DFReader_binary.formats self'
    = <[DFFormat.type mfmt := mfmt]> (DFReader_binary.formats self) ∧
    same_record (DFMessage.mk fmt els true None) m.
Proof.
  intros Hdata Hoff Hfmt Hunp Hlen Hmax Hels Hname Ha Hm.
  unfold DFReader_binary._parse_next.
  generalize (length (DFReader_binary.data_map self)). intros fuel.
  cbn [DFReader_binary._parse_next_fuel]. cbn zeta.
  rewrite Hoff. change (Z.to_nat 0) with 0%nat. rewrite drop_0, Hdata.
  assert (DFReader_binary.data_len self = DFFormat.len fmt) as Hdl.
  { unfold DFReader_binary.data_len. rewrite Hdata. simpl length. lia. }
  rewrite resync_found; [|rewrite Hdl, Hoff; lia|done|done|by rewrite Hfmt].
  cbn [fst snd DFReader_binary.base DFReader_binary.data_map
       DFReader_binary.formats DFReader_binary.unpackers
       DFReader_binary.offset DFReader_binary.remaining
       DFReader_binary.set_base DFReader_binary.set_formats
       DFReader_binary.set_unpackers DFReader_binary.set_prev_type
       DFReader_binary.set_offset DFReader_binary.set_remaining
       DFReader_binary.data_len].
  rewrite Hfmt. cbn [of_option mbind result_bind]. rewrite Hunp, Hoff, Hdata.
  assert (DFReader_binary.slice (xa3 :: x95 :: t :: body) (0 + 3)
            (0 + 3 + DFFormat.len fmt - 3) = body) as ->.
  { unfold DFReader_binary.slice.
    assert (Z.to_nat (0 + 3 + DFFormat.len fmt - 3 - (0 + 3)) = length body)
      as -> by (clear -Hlen; lia).
    change (Z.to_nat (0 + 3)) with 3%nat. cbn [drop]. apply firstn_all. }
  rewrite Hels.
  unfold DFReader_binary.data_len in *.
  cbn [DFReader_binary.data_map DFReader_binary.set_offset
       DFReader_binary.set_prev_type DFReader_binary.set_remaining
       DFReader_binary.set_unpackers].
  rewrite Hdata.
  rewrite bool_decide_false by (simpl length; clear -Hlen; lia).
  unfold DFReader_binary.transform_arrays. rewrite Ha. cbn [foldl fst snd].
  rewrite Hname. change (String.eqb "FMT" "FMT") with true.
  change (String.eqb "FMT" "FMTU") with false. cbn iota.
  match goal with
  | |- context [DFReader_binary.format_of_FMT ?s els] =>
      rewrite (format_of_FMT_formats s self els eq_refl)
  end.
  rewrite Hm.
  cbn [DFMessage.fmt of_option mbind result_bind
       DFReader_binary.base DFReader_binary.data_map DFReader_binary.offset
       DFReader_binary.set_offset DFReader_binary.set_stderr
       DFReader_binary.set_prev_type DFReader_binary.set_remaining
       DFReader_binary.set_unpackers DFReader_binary.set_base
       DFReader_binary.set_formats DFReader_binary.formats].
  rewrite Hname. change (String.eqb "FMT" "FMTU") with false. cbn iota.
  cbn [mbind result_bind].
  match goal with
  | |- context [DFReader._add_msg ?b ?m] =>
      pose proof (add_msg_same E b m) as Hsame;
      destruct (DFReader._add_msg b m) as [[b' m'] r]
  end.
  cbn [fst snd] in *.
  cbn [DFReader_binary.base DFReader_binary.data_map DFReader_binary.offset
       DFReader_binary.set_offset DFReader_binary.set_stderr
       DFReader_binary.set_prev_type DFReader_binary.set_remaining
       DFReader_binary.set_unpackers DFReader_binary.set_base
       DFReader_binary.set_formats DFReader_binary.formats].
  destruct (percent_at_end_Ok (DFFormat.len fmt)) as (pc & Hpc);
    [clear -Hlen Hmax; lia|].
  assert (Z.of_nat (length (xa3 :: x95 :: t :: body)) = DFFormat.len fmt) as Hl1
    by (simpl length; clear -Hlen; lia).
  assert (0 + 3 + (DFFormat.len fmt - 3) = DFFormat.len fmt) as Hl2 by lia.
  unfold percent_at_end in Hpc.
  destruct r as [u|e]; unfold DFReader_binary.percent_of, DFReader_binary.data_len;
    cbn [DFReader_binary.base DFReader_binary.data_map DFReader_binary.offset
         DFReader_binary.set_offset DFReader_binary.set_stderr
         DFReader_binary.set_prev_type DFReader_binary.set_remaining
         DFReader_binary.set_unpackers DFReader_binary.set_base
         DFReader_binary.set_formats DFReader_binary.emit];
    rewrite Hdata, Hl1, Hl2, Hpc; cbn [mbind result_bind];
    eexists _, m'; (split_and!; [done|done|done]).
Qed.
Lemma utf8_valid_ascii bs :
  forallb (λ b, bool_decide (bz b < 128)) bs = true → utf8_valid bs = true.
Proof.
  induction bs as [|b bs IH]; [done|]. cbn [forallb utf8_valid].
  intros [Hb Hbs]%andb_true_iff. rewrite Hb. by apply IH.
Qed.

Lemma encode_ascii_Ok s b :
  DFReader_binary.encode_ascii s = Ok b →
  b = list_byte_of_string s ∧ utf8_valid b = true.
Proof.
  unfold DFReader_binary.encode_ascii.
  destruct (forallb _ _) eqn:Ha; [|done]. intros [= <-].
  split; [done|by apply utf8_valid_ascii].
Qed.

Lemma fits_field_back n s b :
  fits_field n s →
  DFReader_binary.encode_ascii s = Ok b →
  null_term_val (PBytes (take n (b ++ replicate n x00))) = Ok s.
Proof.
  intros [Hnt Hlen] [-> Hv]%encode_ascii_Ok.
  rewrite take_pad by done.
  unfold null_term_val, to_string. cbn [fmap result_fmap]. f_equal.
  rewrite decode_backslashreplace_valid.
  - by apply null_term_app_zeros.
  - apply utf8_valid_app; [apply utf8_valid_zeros|done].
Qed.
Lemma FMT_format_fields fmt_fmt :
  DFReader_binary.FMT_format = Ok fmt_fmt →
  DFFormat.msg_struct fmt_fmt = [S_B; S_B; S_s 4; S_s 16; S_s 64] ∧
  DFFormat.name fmt_fmt = "FMT" ∧
  DFFormat.len fmt_fmt = 89 ∧
  DFFormat.a_indexes fmt_fmt = [].
Proof.
  intros Hf. vm_compute in Hf. injection Hf as <-. by split_and!.
Qed.

(** X26 (DFReader_binary.make_format_msgbuf, _parse_next): the FMT record
    that [make_format_msgbuf] builds for a format, whose name, format
    string and joined columns have no NUL and fit their fields of 4, 16
    and 64 bytes, is read back by the parser as a FMT record; when the
    constructor accepts the declaration, the parser registers under the
    type number of the format the format that the constructor builds from
    that number, the name, the length of the layout plus three, the
    format string and the joined columns. *)
Theorem make_format_msgbuf_parse (E : Externals) (self r : DFReader_binary.t)
    fmt_fmt fmt buf mfmt :
  DFReader_binary.FMT_format = Ok fmt_fmt →
  DFReader_binary.formats self !! 128 = Some fmt_fmt →
  DFReader_binary.make_format_msgbuf self fmt = Ok buf →
  fits_field 4 (DFFormat.name fmt) →
  fits_field 16 (DFFormat.format fmt) →
  fits_field 64 (String.concat "," (DFFormat.columns fmt)) →
  DFReader_binary.data_map r = buf →
  DFReader_binary.offset r = 0 →
  DFReader_binary.formats r !! 128 = Some fmt_fmt →
  default (DFFormat.msg_struct fmt_fmt) (DFReader_binary.unpackers r !! 128)
    = DFFormat.msg_struct fmt_fmt →
  DFFormat.init (DFFormat.type fmt) (DFFormat.name fmt)
    (calcsize (DFFormat.msg_struct fmt) + 3) (DFFormat.format fmt)
    (String.concat "," (DFFormat.columns fmt))
    (DFReader_binary.formats r !! DFFormat.type fmt) = Ok mfmt →
  ∃ r' m,
    DFReader_binary._parse_next r = Ok (r', Some m) ∧
    DFMessage.get_type m = "FMT" ∧
    DFReader_binary.formats r'
    = <[DFFormat.type fmt := mfmt]> (DFReader_binary.formats r).
Proof.
  intros Hff Hself Hbuf Hfn Hfs Hfc Hdata Hoff Hr Hunp Hinit.
  destruct (FMT_format_fields _ Hff) as (Hms & Hnm & Hln & Hai).
  unfold DFReader_binary.make_format_msgbuf in Hbuf. rewrite Hself in Hbuf.
  cbn [of_option mbind result_bind] in Hbuf.
  apply bind_Ok in Hbuf as (ret & Hret & Hbuf).
  apply bind_Ok in Hbuf as (nb & Hnb & Hbuf).
  apply bind_Ok in Hbuf as (fb & Hfb & Hbuf).
  apply bind_Ok in Hbuf as (cb & Hcb & Hbuf).
  apply bind_Ok in Hbuf as (body & Hbody & [= <-]).
  apply header_pack in Hret as (t & -> & Ht).
  destruct (struct_unpack_pack _ _ _ Hbody) as (_ & Hsz & Hfields).
  rewrite Hms in Hfields, Hsz.
  set (els := unpack_fields [S_B; S_B; S_s 4; S_s 16; S_s 64] body) in *.
  assert (els !! 0%nat = Some (PInt (DFFormat.type fmt))) as H0.
  { destruct (Hfields 0%nat S_B _ eq_refl eq_refl) as (b & Hb & ->).
    f_equal. by apply reread_int in Hb. }
  assert (els !! 1%nat
          = Some (PInt (calcsize (DFFormat.msg_struct fmt) + 3))) as H1.
  { destruct (Hfields 1%nat S_B _ eq_refl eq_refl) as (b & Hb & ->).
    f_equal. by apply reread_int in Hb. }
  assert (els !! 2%nat = Some (PBytes (take 4 (nb ++ replicate 4 x00)))) as H2.
  { destruct (Hfields 2%nat (S_s 4) _ eq_refl eq_refl) as (b & Hb & ->).
    cbn [pack_field] in Hb. by injection Hb as <-. }
  assert (els !! 3%nat = Some (PBytes (take 16 (fb ++ replicate 16 x00)))) as H3.
  { destruct (Hfields 3%nat (S_s 16) _ eq_refl eq_refl) as (b & Hb & ->).
    cbn [pack_field] in Hb. by injection Hb as <-. }
  assert (els !! 4%nat = Some (PBytes (take 64 (cb ++ replicate 64 x00)))) as H4.
  { destruct (Hfields 4%nat (S_s 64) _ eq_refl eq_refl) as (b & Hb & ->).
    cbn [pack_field] in Hb. by injection Hb as <-. }
  assert (DFReader_binary.format_of_FMT r els = Ok mfmt) as Hm.
  { unfold DFReader_binary.format_of_FMT. rewrite H0, H1, H2, H3, H4.
    cbn [of_option mbind result_bind].
    rewrite (fits_field_back 4 _ nb Hfn Hnb). cbn [mbind result_bind].
    rewrite (fits_field_back 16 _ fb Hfs Hfb). cbn [mbind result_bind].
    rewrite (fits_field_back 64 _ cb Hfc Hcb). cbn [mbind result_bind].
    exact Hinit. }
  destruct (binary_parse_next_FMT E r fmt_fmt t body els mfmt)
    as (r' & m & Hp & Hfm & (Hmf & _)); try done.
  - by rewrite Ht.
  - by rewrite Ht.
  - rewrite Hln. simpl in Hsz. lia.
  - rewrite Hln. lia.
  - unfold struct_unpack. rewrite Hms. rewrite bool_decide_true by done. done.
  - exists r', m. split_and!; [done| |].
    + unfold DFMessage.get_type. by rewrite Hmf.
    + rewrite Hfm. by destruct (init_fields _ _ _ _ _ _ _ Hinit) as (-> & _).
Qed.

Lemma make_format_msgbuf_parse_witness :
  let self := example_reader (H:=bare_externals) [] in
  match DFReader_binary.make_format_msgbuf self example_rec_fmt with
  | Ok buf =>
      match DFReader_binary._parse_next (H:=bare_externals)
              (example_reader (H:=bare_externals) buf) with
      | Ok (r', Some m) =>
          DFMessage.get_type m = "FMT" ∧
          DFReader_binary.formats r' !! 140 = Some example_rec_fmt
      | _ => False
      end
  | Raise _ => False
  end.
Proof.
  intros self.
  destruct (DFReader_binary.make_format_msgbuf self example_rec_fmt) as [buf|e] eqn:Hb;
    [|vm_compute in Hb; discriminate Hb].
  assert (DFReader_binary.FMT_format = Ok (unwrap DFReader_binary.FMT_format)) as Hff
    by (vm_compute; reflexivity).
  assert (fits_field 4 (DFFormat.name example_rec_fmt)) as Hfn
    by (split; [vm_compute; reflexivity|vm_compute; lia]).
  assert (fits_field 16 (DFFormat.format example_rec_fmt)) as Hfs
    by (split; [vm_compute; reflexivity|vm_compute; lia]).
  assert (fits_field 64 (String.concat "," (DFFormat.columns example_rec_fmt))) as Hfc
    by (split; [vm_compute; reflexivity|vm_compute; lia]).
  assert (DFReader_binary.formats self !! 128
          = Some (unwrap DFReader_binary.FMT_format)) as Hs
    by (vm_compute; reflexivity).
  assert (DFReader_binary.formats (example_reader (H:=bare_externals) buf) !! 128
          = Some (unwrap DFReader_binary.FMT_format)) as Hr
    by (vm_compute; reflexivity).
  assert (default (DFFormat.msg_struct (unwrap DFReader_binary.FMT_format))
            (DFReader_binary.unpackers (example_reader (H:=bare_externals) buf) !! 128)
          = DFFormat.msg_struct (unwrap DFReader_binary.FMT_format)) as Hu
    by (vm_compute; reflexivity).
  assert (DFFormat.init (DFFormat.type example_rec_fmt) (DFFormat.name example_rec_fmt)
            (calcsize (DFFormat.msg_struct example_rec_fmt) + 3)
            (DFFormat.format example_rec_fmt)
            (String.concat "," (DFFormat.columns example_rec_fmt))
            (DFReader_binary.formats (example_reader (H:=bare_externals) buf)
               !! DFFormat.type example_rec_fmt) = Ok example_rec_fmt) as Hi
    by (vm_compute; reflexivity).
  destruct (make_format_msgbuf_parse bare_externals self
              (example_reader (H:=bare_externals) buf) _ example_rec_fmt buf
              example_rec_fmt Hff Hs Hb Hfn Hfs Hfc eq_refl eq_refl Hr Hu Hi)
    as (r' & m & -> & Hty & Hfm).
  split; [exact Hty|]. rewrite Hfm. apply lookup_insert_eq.
Defined.
(** ** Further properties of the clocks *)

Lemma trunc_of_zero f :
  PrimFloat.eqb f 0%float = true → py_trunc f = Ok 0.
Proof.
  rewrite FloatAxioms.eqb_spec. unfold py_trunc.
  change (Prim2SF 0%float) with (S754_zero false).
  destruct (Prim2SF f) as [s|[]| |[] m e]; cbn; done.
Qed.

Lemma bind_not_Raise {A B} (m : result A) (k : A → result B) e :
  m ≠ Raise e → (∀ a, m = Ok a → k a ≠ Raise e) → m ≫= k ≠ Raise e.
Proof.
  destruct m as [a|e']; unfold mbind, result_bind; intros H1 H2; [by apply H2|].
  intros [= ->]. by apply H1.
Qed.

Lemma float_of_int_no_zero_division z : float_of_int z ≠ Raise ZeroDivisionError.
Proof. unfold float_of_int. by case_match. Qed.

Lemma py_add_no_zero_division a b : py_add a b ≠ Raise ZeroDivisionError.
Proof.
  destruct a, b; try done; simpl;
    (apply bind_not_Raise; [apply float_of_int_no_zero_division|done]).
Qed.

Lemma py_trunc_no_zero_division f : py_trunc f ≠ Raise ZeroDivisionError.
Proof. unfold py_trunc. by case_match. Qed.

(** X27 (DFReaderClock_gps_interpolated.set_message_timestamp): the guard
    on the rate works: whatever the rates and the counts of the clock,
    stamping a record never raises [ZeroDivisionError]; and when it
    succeeds the clock itself is left as it was. *)
Theorem gps_interpolated_stamp_no_zero_division
    (self : DFReaderClock_gps_interpolated.t) m :
  DFReaderClock_gps_interpolated.set_message_timestamp self m
    ≠ Raise ZeroDivisionError ∧
  ∀ self' m',
    DFReaderClock_gps_interpolated.set_message_timestamp self m = Ok (self', m') →
    self' = self.
Proof.
  unfold DFReaderClock_gps_interpolated.set_message_timestamp. cbn zeta.
  set (rate := default (PFloat 50) _).
  set (count := default 0 _).
  split.
  - apply bind_not_Raise.
    { destruct rate; try done. apply py_trunc_no_zero_division. }
    intros z Hz. apply bind_not_Raise.
    2: { intros d _. apply bind_not_Raise; [apply py_add_no_zero_division|done]. }
    case_bool_decide as Hz0.
    + unfold py_truediv_val. rewrite bool_decide_false by done.
      cbn iota. by destruct (_ && _).
    + destruct rate as [|y|f|?|?|?]; try done.
      * injection Hz as ->. unfold py_truediv_val.
        rewrite bool_decide_false by done.
      cbn iota. by destruct (_ && _).
      * unfold py_truediv_val.
        apply bind_not_Raise; [apply float_of_int_no_zero_division|].
        intros fc _. unfold py_truediv.
        destruct (PrimFloat.eqb f 0) eqn:Hf0; [|done].
        apply trunc_of_zero in Hf0. rewrite Hz in Hf0. by injection Hf0.
  - intros self' m' Hs. ok_steps. by simplify_eq.
Qed.
(** X28 (DFReader._add_msg): once a MODE record whose [Mode] is a string
    was added without an exception, the flight mode of the reader is that
    string in upper case. *)
Theorem add_msg_MODE_flightmode (E : Externals) self m md :
  DFMessage.get_type m = "MODE" →
  DFMessage.__getattr__ m "Mode" = Ok (PStr md) →
  (DFReader._add_msg self m).2 = Ok () →
  DFReader.flightmode (DFReader._add_msg self m).1.1 = str_upper md.
Proof.
  intros Hty Hmode. unfold DFReader._add_msg. cbn zeta.
  cbn [fst snd DFReader.flightmode DFReader.set_messages].
  destruct (DFReader._add_msg_steps (self, m)) as [[s' m'] res] eqn:Hrun.
  cbn [fst snd]. intros ->.
  unfold DFReader._add_msg_steps in Hrun.
  change ((se_get ≫= ?k) (self, m)) with (k (self, m) (self, m)) in Hrun.
  cbn beta zeta in Hrun. cbn [snd] in Hrun. rewrite Hty, Hmode in Hrun.
  change (String.eqb "MODE" "MSG") with false in Hrun.
  change (String.eqb "MODE" "VER") with false in Hrun.
  change (String.eqb "MODE" "MODE") with true in Hrun.
  change (String.eqb "MODE" "STAT") with false in Hrun.
  change (String.eqb "MODE" "PARM") with false in Hrun.
  change (hasattr (Ok (PStr md))) with (@Ok bool true) in Hrun.
  cbn [andb] in Hrun.
  revert Hrun. generalize (self, m). intros s0 Hrun.
  (* the steps before the MODE branch *)
  repeat lazymatch type of Hrun with
    | (se_lift _ ≫= _) _ = _ =>
        apply se_lift_bind_Ok in Hrun as (? & [= <-] & Hrun)
    | (?c ≫= ?k) _ = _ =>
        lazymatch c with
        | se_when false _ => idtac
        | match DFFormat.instance_field _ with _ => _ end => idtac
        | DFReader.on_reader _ => idtac
        | (λ s, match DFReader.clock _ with _ => _ end) => idtac
        end;
        let s1 := fresh "s" in
        apply (se_bind_Ok c k) in Hrun as (? & s1 & _ & Hrun)
    end.
  (* the MODE branch *)
  lazymatch type of Hrun with
  | (?c ≫= ?k) _ = _ => apply (se_bind_Ok c k) in Hrun as (? & sa & Hm & Hrun)
  end.
  unfold se_when in Hm.
  apply se_lift_bind_Ok in Hm as (? & [= <-] & Hm).
  cbn iota in Hm.
  apply se_lift_bind_Ok in Hm as (? & [= <-] & Hm).
  cbn [andb DFReader.is_str DFReader.str_receiver] in Hm.
  apply se_lift_bind_Ok in Hm as (? & [= <-] & Hm).
  injection Hm as <-.
  (* what follows keeps the flight mode *)
  lazymatch type of Hrun with
  | ?c ?st = _ =>
      assert (se_keeps (λ x : DFReader.t * DFMessage.t,
                DFReader.flightmode x.1 = str_upper md) c) as Hk
        by add_msg_keeps (λ r : DFReader.t, DFReader.flightmode r = str_upper md);
      specialize (Hk st eq_refl); by rewrite Hrun in Hk
  end.
Qed.

Lemma add_msg_MODE_flightmode_witness :
  let m := DFMessage.mk
             (unwrap (DFFormat.init 129 "MODE" 27 "QN" "TimeUS,Mode" None))
             [PInt 1; PBytes (padded 16 "AUTO")] true None in
  DFReader.flightmode
    (DFReader._add_msg (H:=bare_externals) (DFReader.init (H:=bare_externals)) m).1.1
  = "AUTO".
Proof.
  intros m.
  assert (DFMessage.get_type m = "MODE") as H1 by (vm_compute; reflexivity).
  assert (DFMessage.__getattr__ (H:=bare_externals) m "Mode" = Ok (PStr "AUTO")) as H2
    by (vm_compute; reflexivity).
  assert ((DFReader._add_msg (H:=bare_externals) (DFReader.init (H:=bare_externals)) m).2
          = Ok ()) as H3 by (vm_compute; reflexivity).
  exact (add_msg_MODE_flightmode bare_externals (DFReader.init (H:=bare_externals)) m
           "AUTO" H1 H2 H3).
Defined.
